(** * Blood-donation backend: request lifecycle, guards and payment ledger

    A shallow embedding of the Express handlers of the repository over a
    small model of the MongoDB collections they use.  The repository holds
    three variants of the server:

    - [IndexA]: [src/index.js], first program (lines 1-335);
    - [IndexB]: [src/index.js], second program (lines 336-704);
    - [Part0]:  [src/unnamed/part_000].

    Each handler is an [async] function: every [await] on a collection
    call is one atomic storage operation, and other handlers may run
    between two of them.  Handlers are therefore written as programs over
    storage operations ([prog]), which can be run to completion ([run]) or
    interleaved under a schedule ([interleave]). *)

From Stdlib Require Import ZArith String Ascii List PrimFloat Sorted Permutation.
From stdpp Require Import base option list strings gmap.

Local Open Scope string_scope.
Local Open Scope list_scope.

(** ** Values and documents *)

Module Bson.

(** Scalar field values.  Numbers found in user and request documents are
    never inspected by a handler; they are kept as integers.  [VDate] is a
    [Date] as milliseconds, [VOid] an [ObjectId] as the number its twelve
    bytes spell. *)
Inductive value : Type :=
| VNull
| VBool (b : bool)
| VNum (n : Z)
| VStr (s : string)
| VOid (o : N)
| VDate (t : Z).

#[global] Instance value_eq_dec : EqDecision value.
Proof. solve_decision. Defined.

(** A document (and a JSON body) is a finite map from field names to
    values; field names are taken literally. *)
Abbreviation doc := (gmap string value).

(** Reading a property of a JS object: an absent property reads as
    [undefined], which the driver serialises as [null]. *)
Definition prop (d : doc) (k : string) : value := default VNull (d !! k).

End Bson.
Export Bson.

(** ** Strings: [String.prototype.trim] and [ObjectId] parsing *)

Module Js.

(** Strings are the UTF-8 bytes of the JS string.  [trim] removes the
    code points of WhiteSpace and LineTerminator from both ends: the
    one-byte ones (tab, line feed, vertical tab, form feed, carriage
    return, space), U+00A0, U+1680, U+2000 to U+200A, U+2028, U+2029,
    U+202F, U+205F, U+3000 and U+FEFF. *)
Definition is_ws (c : ascii) : bool :=
  match N_of_ascii c with
  | 9 | 10 | 11 | 12 | 13 | 32 => true
  | _ => false
  end%N.

(** U+00A0 is C2 A0. *)
Definition is_ws2 (c1 c2 : ascii) : bool :=
  match N_of_ascii c1, N_of_ascii c2 with
  | 194, 160 => true
  | _, _ => false
  end%N.

(** The three-byte members: E1 9A 80 (U+1680), E2 80 80 to E2 80 8A
    (U+2000 to U+200A), E2 80 A8, E2 80 A9, E2 80 AF, E2 81 9F, E3 80 80
    and EF BB BF. *)
Definition is_ws3 (c1 c2 c3 : ascii) : bool :=
  match N_of_ascii c1, N_of_ascii c2, N_of_ascii c3 with
  | 225, 154, 128 => true
  | 226, 128, n => ((128 <=? n) && (n <=? 138)) || (n =? 168) || (n =? 169) || (n =? 175)
  | 226, 129, 159 => true
  | 227, 128, 128 => true
  | 239, 187, 191 => true
  | _, _, _ => false
  end%N.

Fixpoint trimStart (s : string) : string :=
  match s with
  | EmptyString => EmptyString
  | String c1 s1 =>
      if is_ws c1 then trimStart s1
      else
        match s1 with
        | EmptyString => s
        | String c2 s2 =>
            if is_ws2 c1 c2 then trimStart s2
            else
              match s2 with
              | EmptyString => s
              | String c3 s3 => if is_ws3 c1 c2 c3 then trimStart s3 else s
              end
        end
  end.

(** The string is white space from end to end. *)
Fixpoint all_ws (s : string) : bool :=
  match s with
  | EmptyString => true
  | String c1 s1 =>
      if is_ws c1 then all_ws s1
      else
        match s1 with
        | EmptyString => false
        | String c2 s2 =>
            if is_ws2 c1 c2 then all_ws s2
            else
              match s2 with
              | EmptyString => false
              | String c3 s3 => if is_ws3 c1 c2 c3 then all_ws s3 else false
              end
        end
  end.

Fixpoint trimEnd (s : string) : string :=
  match s with
  | EmptyString => EmptyString
  | String c s' => if all_ws s then EmptyString else String c (trimEnd s')
  end.

Definition trim (s : string) : string := trimEnd (trimStart s).

(** Truthiness of a possibly absent string: [undefined] and [""] are
    falsy. *)
Definition truthy (x : option string) : bool :=
  match x with
  | None | Some EmptyString => false
  | Some _ => true
  end.

(** [Number(x) || d] where [x] is the numeric reading of a query
    parameter: [None] stands for [NaN] (parameter absent or not a
    number); [NaN] and [0] are falsy. *)
Definition number_or (x : option Z) (d : Z) : Z :=
  match x with
  | None => d
  | Some n => if (n =? 0)%Z then d else n
  end.

Definition hex_digit (c : ascii) : option N :=
  let n := N_of_ascii c in
  if ((48 <=? n) && (n <=? 57))%N then Some (n - 48)%N
  else if ((97 <=? n) && (n <=? 102))%N then Some (n - 87)%N
  else if ((65 <=? n) && (n <=? 70))%N then Some (n - 55)%N
  else None.

Fixpoint hex_value (s : string) (acc : N) : option N :=
  match s with
  | EmptyString => Some acc
  | String c s' =>
      match hex_digit c with
      | Some d => hex_value s' (16 * acc + d)%N
      | None => None
      end
  end.

(** [new ObjectId(id)] on a route parameter: the 24 hexadecimal digit
    form; [None] when the constructor throws. *)
Definition ObjectId (id : string) : option N :=
  if (String.length id =? 24)%nat then hex_value id 0%N else None.

Definition ObjectId_isValid (id : string) : bool :=
  match ObjectId id with Some _ => true | None => false end.

(** [authHeader.split(" ")[1]] *)
Fixpoint split_space (s : string) (cur : string) : list string :=
  match s with
  | EmptyString => [cur]
  | String c s' =>
      if Ascii.eqb c " "%char then cur :: split_space s' EmptyString
      else split_space s' (String.append cur (String c EmptyString))
  end.

Definition bearer_token (authHeader : string) : option string :=
  nth_error (split_space authHeader EmptyString) 1.

End Js.


(** ** The document store *)

Module Mongo.

(** A query object is a conjunction of equality conditions, one per
    field. *)
Abbreviation query := (gmap string value).

(** Equality condition on one field.  A [null] condition matches a field
    that is [null] or absent; any other condition matches a field holding
    exactly that value. *)
Definition field_matches (stored : option value) (q : value) : bool :=
  match q with
  | VNull => match stored with None | Some VNull => true | Some _ => false end
  | _ => bool_decide (stored = Some q)
  end.

Definition matches (q : query) (d : doc) : bool :=
  bool_decide (map_Forall (fun k v => field_matches (d !! k) v = true) q).

(** BSON comparison order used by [sort]: values of different types
    compare by type, values of one type by content; an absent field sorts
    as [null]. *)
Definition type_rank (v : value) : N :=
  match v with
  | VNull => 1 | VNum _ => 2 | VStr _ => 3 | VOid _ => 7 | VBool _ => 8 | VDate _ => 9
  end.

Definition value_leb (a b : value) : bool :=
  match a, b with
  | VNull, VNull => true
  | VNum x, VNum y => (x <=? y)%Z
  | VStr x, VStr y => String.leb x y
  | VOid x, VOid y => (x <=? y)%N
  | VBool x, VBool y => implb x y
  | VDate x, VDate y => (x <=? y)%Z
  | _, _ => (type_rank a <? type_rank b)%N
  end.

(** [sort({ createdAt: -1 })]: insertion sort, larger keys first, ties
    left in collection order. *)
Definition createdAt (d : doc) : value := prop d "createdAt".

Fixpoint insert_desc (d : doc) (l : list doc) : list doc :=
  match l with
  | [] => [d]
  | x :: l' =>
      if value_leb (createdAt x) (createdAt d) then d :: l
      else x :: insert_desc d l'
  end.

Definition sort_desc (l : list doc) : list doc := foldr insert_desc [] l.

(** Cursor options set by [.sort], [.skip] and [.limit]; the builder
    calls commute, the server applies sort, then skip, then limit. *)
Record cursor := {
  sorted : bool;   (* sort({ createdAt: -1 }) requested *)
  skip : Z;        (* 0 when .skip is not called *)
  limit : Z        (* 0 when .limit is not called: no limit *)
}.

Definition plain : cursor := {| sorted := false; skip := 0; limit := 0 |}.

Definition window (c : cursor) (l : list doc) : list doc :=
  let l := drop (Z.to_nat (skip c)) l in
  if (limit c =? 0)%Z then l else take (Z.abs_nat (limit c)) l.

(** [find(q)...toArray()]; a negative skip is refused by the server. *)
Definition find (q : query) (c : cursor) (coll : list doc) : option (list doc) :=
  if (skip c <? 0)%Z then None
  else
    let hits := List.filter (matches q) coll in
    Some (window c (if sorted c then sort_desc hits else hits)).

Definition findOne (q : query) (coll : list doc) : option doc :=
  List.find (matches q) coll.

Definition countDocuments (q : query) (coll : list doc) : nat :=
  length (List.filter (matches q) coll).

(** [updateOne(q, { $set: s })]: the first matching document takes the
    fields of [s] and keeps its other fields; an empty [s] changes
    nothing.  [modifiedCount] is 0 when the document already had these
    values. *)
Record UpdateResult := { matchedCount : nat; modifiedCount : nat }.

Fixpoint updateOne (q : query) (s : doc) (coll : list doc) : list doc * UpdateResult :=
  match coll with
  | [] => ([], {| matchedCount := 0; modifiedCount := 0 |})
  | d :: coll' =>
      if matches q d then
        (s ∪ d :: coll',
         {| matchedCount := 1; modifiedCount := if decide (s ∪ d = d) then 0 else 1 |})
      else
        let '(coll'', r) := updateOne q s coll' in (d :: coll'', r)
  end.

Fixpoint deleteOne (q : query) (coll : list doc) : list doc * nat :=
  match coll with
  | [] => ([], 0)
  | d :: coll' =>
      if matches q d then (coll', 1)
      else let '(coll'', n) := deleteOne q coll' in (d :: coll'', n)
  end.

(** [insertOne(d)]: a document without [_id], or whose [_id] is [null],
    receives a fresh [ObjectId]; a document whose [_id] is already in the
    collection is refused (duplicate key). New documents go last in
    collection order. *)
Definition oid_of (d : doc) : N :=
  match d !! "_id" with Some (VOid n) => n | _ => 0%N end.

Definition fresh_oid (coll : list doc) : N :=
  N.succ (foldr N.max 0%N (map oid_of coll)).

Definition insertOne (d : doc) (coll : list doc) : option (list doc * value) :=
  match d !! "_id" with
  | None | Some VNull =>
      let id := VOid (fresh_oid coll) in
      Some (coll ++ [<["_id" := id]> d], id)
  | Some id =>
      if existsb (fun x => bool_decide (x !! "_id" = Some id)) coll then None
      else Some (coll ++ [d], id)
  end.

End Mongo.

(** ** Asynchronous handlers over the three collections *)

Module Async.
Import Mongo.

(** A ledger entry as [GET /success-payment] builds it.  [amount] is a JS
    number (binary64); [currency] is recorded by the first program of
    [index.js] only. *)
Record payment := {
  amount : float;
  currency : option value;
  donorEmail : value;
  transactionId : value;
  status : string;
  paidAt : Z
}.

(** What [stripe.checkout.sessions.retrieve] answers, as far as the
    handlers read it. *)
Record session := {
  payment_status : string;
  amount_total : float;
  session_currency : value;
  customer_email : value;
  payment_intent : value
}.

Record db := {
  users : list doc;
  requests : list doc;
  payments : list payment
}.

Inductive collection := userCollection | requestCollection.

Definition get (c : collection) (s : db) : list doc :=
  match c with userCollection => users s | requestCollection => requests s end.

Definition put (c : collection) (l : list doc) (s : db) : db :=
  match c with
  | userCollection => {| users := l; requests := requests s; payments := payments s |}
  | requestCollection => {| users := users s; requests := l; payments := payments s |}
  end.

(** One awaited call on a collection. *)
Inductive op : Type -> Type :=
| FindOne (c : collection) (q : query) : op (option doc)
| Find (c : collection) (q : query) (cur : cursor) : op (list doc)
| CountDocuments (c : collection) (q : query) : op nat
| InsertOne (c : collection) (d : doc) : op value
| UpdateOne (c : collection) (q : query) (s : doc) : op UpdateResult
| DeleteOne (c : collection) (q : query) : op nat
| PaymentFindOne (txid : value) : op (option payment)
| PaymentInsertOne (p : payment) : op unit.

(** Effect of one call on the store; [None] when the call rejects. *)
Definition exec {A : Type} (o : op A) (s : db) : option (db * A) :=
  match o in op A return option (db * A) with
  | FindOne c q => Some (s, findOne q (get c s))
  | Find c q cur => l ← find q cur (get c s); Some (s, l)
  | CountDocuments c q => Some (s, countDocuments q (get c s))
  | InsertOne c d => '(l, id) ← insertOne d (get c s); Some (put c l s, id)
  | UpdateOne c q u => let '(l, r) := updateOne q u (get c s) in Some (put c l s, r)
  | DeleteOne c q => let '(l, n) := deleteOne q (get c s) in Some (put c l s, n)
  | PaymentFindOne txid =>
      Some (s, List.find (fun p => field_matches (Some (transactionId p)) txid) (payments s))
  | PaymentInsertOne p =>
      Some ({| users := users s; requests := requests s; payments := payments s ++ [p] |}, tt)
  end.

(** The body of an [async] handler: it returns, throws, or awaits one
    call and continues with its result. *)
Inductive prog (R : Type) : Type :=
| Ret (r : R)
| Throw
| Await {A : Type} (o : op A) (k : A -> prog R).

Arguments Ret {R} r.
Arguments Throw {R}.
Arguments Await {R A} o k.

Notation "'let!' x ':=' 'await' o 'in' k" := (Await o (fun x => k))
  (at level 10, x binder, o at level 200, k at level 200).

(** Run a handler to completion with no other handler in between;
    [None] is an uncaught rejection. *)
Fixpoint run {R : Type} (p : prog R) (s : db) : db * option R :=
  match p with
  | Ret r => (s, Some r)
  | Throw => (s, None)
  | Await o k =>
      match exec o s with
      | Some (s', a) => run (k a) s'
      | None => (s, None)
      end
  end.

(** Handlers in flight: each step of a thread performs its next awaited
    call; a schedule names the thread that moves next. *)
Inductive thread (R : Type) : Type :=
| Running (p : prog R)
| Finished (r : option R).

Arguments Running {R} p.
Arguments Finished {R} r.

Definition step {R : Type} (t : thread R) (s : db) : db * thread R :=
  match t with
  | Finished _ => (s, t)
  | Running (Ret r) => (s, Finished (Some r))
  | Running Throw => (s, Finished None)
  | Running (Await o k) =>
      match exec o s with
      | Some (s', a) => (s', Running (k a))
      | None => (s, Finished None)
      end
  end.

Inductive turn := First | Second.

Fixpoint interleave {R : Type} (sch : list turn) (t1 t2 : thread R) (s : db)
  : db * thread R * thread R :=
  match sch with
  | [] => (s, t1, t2)
  | First :: sch' => let '(s', t1') := step t1 s in interleave sch' t1' t2 s'
  | Second :: sch' => let '(s', t2') := step t2 s in interleave sch' t1 t2' s'
  end.

(** ** Replies *)

Inductive body :=
| Message (message : string)
| Inserted (insertedId : value)
| Updated (result : UpdateResult)
| Deleted (deletedCount : nat)
| Taken (modified : nat)                          (* { success: true, modifiedCount } *)
| Success                                          (* { success: true } *)
| Document (d : doc)
| Documents (l : list doc)
| Page (page_requests : list doc) (total : nat)    (* { requests, total } *)
| RoleStatus (role status : value).

(** [res.status(code).send(b)]; [res.send(b)] is [Send 200 b].  A handler
    that returns without sending leaves the request unanswered. *)
Inductive reply :=
| Send (code : nat) (b : body)
| NoReply.

(** [v !== s] and [v === s] against a string literal. *)
Definition strict_eq (v : value) (s : string) : bool := bool_decide (v = VStr s).
Definition strict_ne (v : value) (s : string) : bool := negb (strict_eq v s).

(** [if (x) query[k] = f(x)] for a query-string parameter [x]. *)
Definition assign_if (k : string) (x : option string) (f : string -> string)
  (q : query) : query :=
  match x with
  | Some s => if Js.truthy x then <[k := VStr (f s)]> q else q
  | None => q
  end.

End Async.

(** ** [src/unnamed/part_000]

    In the three programs alike, a handler takes what it reads from the
    request as arguments: [decoded_email] is [req.decoded_email], [id] is
    [req.params.id], [body] is [req.body], [now] is the clock read by
    [new Date()], and a query-string number is given by its [Number(...)]
    reading.  Awaited calls that touch no collection (token verification,
    the payment provider) are not scheduling points of the model: the
    verifier is a function, and the retrieved checkout session is the
    argument [session] of [get_success_payment]. *)

Module Part0.
Import Mongo Async.

Section Server.

(** [admin.auth().verifyIdToken]: the e-mail of a valid token, [None]
    when verification rejects. *)
Context (verifyIdToken : string -> option string).

Definition verifyFBToken (authorization : option string)
  (next : string -> prog reply) : prog reply :=
  match authorization with
  | None => Ret (Send 401 (Message "Unauthorized"))
  | Some authHeader =>
      match Js.bearer_token authHeader ≫= verifyIdToken with
      | Some decoded_email => next decoded_email
      | None => Ret (Send 401 (Message "Unauthorized"))
      end
  end.

(** *** Role middleware (lines 72-111) *)

Definition verifyAdmin (decoded_email : string) (next : prog reply) : prog reply :=
  let! user := await FindOne userCollection {[ "email" := VStr decoded_email ]} in
  match user with
  | None => Ret (Send 403 (Message "Forbidden"))
  | Some user =>
      if strict_ne (prop user "role") "admin" then Ret (Send 403 (Message "Forbidden"))
      else next
  end.

Definition verifyVolunteer (decoded_email : string) (next : prog reply) : prog reply :=
  let! user := await FindOne userCollection {[ "email" := VStr decoded_email ]} in
  match user with
  | None => Ret (Send 403 (Message "Volunteer only"))
  | Some user =>
      if strict_ne (prop user "role") "volunteer" then Ret (Send 403 (Message "Volunteer only"))
      else if strict_eq (prop user "status") "blocked" then Ret (Send 403 (Message "User is blocked"))
      else next
  end.

Definition verifyDonor (decoded_email : string) (next : prog reply) : prog reply :=
  let! user := await FindOne userCollection {[ "email" := VStr decoded_email ]} in
  match user with
  | None => Ret (Send 403 (Message "Donor only"))
  | Some user =>
      if strict_ne (prop user "role") "donor" then Ret (Send 403 (Message "Donor only"))
      else if strict_eq (prop user "status") "blocked" then Ret (Send 403 (Message "User is blocked"))
      else next
  end.

(** *** Users (lines 116-167) *)

Definition post_users (body : doc) (now : Z) : prog reply :=
  let user := body in
  let! exists_ := await FindOne userCollection {[ "email" := prop user "email" ]} in
  match exists_ with
  | Some _ => Ret (Send 200 (Message "User already exists"))
  | None =>
      let user := <["role" := VStr "donor"]> user in
      let user := <["status" := VStr "active"]> user in
      let user := <["createdAt" := VDate now]> user in
      let! result := await InsertOne userCollection user in
      Ret (Send 200 (Inserted result))
  end.

Definition get_users : prog reply :=
  let! result := await Find userCollection ∅ plain in
  Ret (Send 200 (Documents result)).

Definition patch_update_user_status (email status : value) : prog reply :=
  let! result := await UpdateOne userCollection {[ "email" := email ]} {[ "status" := status ]} in
  Ret (Send 200 (Updated result)).

Definition patch_users_make_volunteer_id (id : string) : prog reply :=
  match Js.ObjectId id with
  | None => Throw
  | Some oid =>
      let! result := await UpdateOne userCollection {[ "_id" := VOid oid ]}
                                   {[ "role" := VStr "volunteer" ]} in
      Ret (Send 200 (Updated result))
  end.

(** *** Profile (lines 181-192) *)

Definition patch_profile (decoded_email : string) (body : doc) : prog reply :=
  let updatedData := body in
  let updatedData := delete "_id" updatedData in
  let updatedData := delete "email" updatedData in
  let! result := await UpdateOne userCollection {[ "email" := VStr decoded_email ]} updatedData in
  Ret (Send 200 (Updated result)).

(** *** Requests (lines 197-274) *)

Definition post_requests (decoded_email : string) (body : doc) (now : Z) : prog reply :=
  let data := body in
  let data := <["requesterEmail" := VStr decoded_email]> data in
  let data := <["status" := VStr "pending"]> data in
  let data := <["createdAt" := VDate now]> data in
  let! result := await InsertOne requestCollection data in
  Ret (Send 200 (Inserted result)).

Definition get_my_requests (decoded_email : string) (query_page query_size : option Z)
  : prog reply :=
  let email := decoded_email in
  let page := Js.number_or query_page 1 in
  let size := Js.number_or query_size 10 in
  let query : query := {[ "requesterEmail" := VStr email ]} in
  let! requests := await Find requestCollection query
                      {| sorted := true; skip := size * (page - 1); limit := size |} in
  let! total := await CountDocuments requestCollection query in
  Ret (Send 200 (Page requests total)).

Definition get_search_requests (bloodGroup district upazila : option string) : prog reply :=
  let query : query := ∅ in
  let query := assign_if "bloodGroup" bloodGroup id query in
  let query := assign_if "district" district id query in
  let query := assign_if "upazila" upazila id query in
  let! result := await Find requestCollection query plain in
  Ret (Send 200 (Documents result)).

(** *** Take donation (lines 298-322) *)

Definition patch_donation_requests_id (decoded_email : string) (id : string) (body : doc)
  (now : Z) : prog reply :=
  match Js.ObjectId id with
  | None => Throw
  | Some oid =>
      let! request := await FindOne requestCollection {[ "_id" := VOid oid ]} in
      match request with
      | None => Ret (Send 400 (Message "Not available"))
      | Some request =>
          if strict_ne (prop request "status") "pending"
          then Ret (Send 400 (Message "Not available"))
          else
            let! result := await UpdateOne requestCollection {[ "_id" := VOid oid ]}
                {[ "status" := VStr "inprogress";
                   "donorEmail" := VStr decoded_email;
                   "donorName" := prop body "donorName";
                   "donatedAt" := VDate now ]} in
            Ret (Send 200 (Updated result))
      end
  end.

(** *** Status update (lines 327-370) *)

Definition patch_requests_status_id (decoded_email : string) (id : string) (body : doc)
  : prog reply :=
  let status := prop body "status" in
  match Js.ObjectId id with
  | None => Throw
  | Some oid =>
      let! result := await UpdateOne requestCollection
          {[ "_id" := VOid oid; "requesterEmail" := VStr decoded_email ]}
          {[ "status" := status ]} in
      Ret (Send 200 (Updated result))
  end.

Definition patch_admin_requests_status_id (id : string) (body : doc) : prog reply :=
  match Js.ObjectId id with
  | None => Throw
  | Some oid =>
      let! result := await UpdateOne requestCollection {[ "_id" := VOid oid ]}
                                   {[ "status" := prop body "status" ]} in
      Ret (Send 200 (Updated result))
  end.

(** *** Payment (lines 428-449) *)

Definition get_success_payment (session : session) (now : Z) : prog reply :=
  if String.eqb (payment_status session) "paid" then
    let payment := {|
      amount := (amount_total session / 100)%float;
      currency := None;
      donorEmail := customer_email session;
      transactionId := payment_intent session;
      status := payment_status session;
      paidAt := now |} in
    let! exists_ := await PaymentFindOne (transactionId payment) in
    match exists_ with
    | Some _ => Ret (Send 200 Success)
    | None =>
        let! _ := await PaymentInsertOne payment in
        Ret (Send 200 Success)
    end
  else Ret NoReply.

(** *** Routes: the middleware chain in front of each handler *)

Definition route_get_users (authorization : option string) : prog reply :=
  verifyFBToken authorization (fun e => verifyAdmin e get_users).

Definition route_patch_update_user_status (authorization : option string)
  (email status : value) : prog reply :=
  verifyFBToken authorization (fun e => verifyAdmin e (patch_update_user_status email status)).

Definition route_patch_users_make_volunteer_id (authorization : option string)
  (id : string) : prog reply :=
  verifyFBToken authorization (fun e => verifyAdmin e (patch_users_make_volunteer_id id)).

Definition route_patch_profile (authorization : option string) (body : doc) : prog reply :=
  verifyFBToken authorization (fun e => patch_profile e body).

Definition route_post_requests (authorization : option string) (body : doc) (now : Z)
  : prog reply :=
  verifyFBToken authorization (fun e => verifyDonor e (post_requests e body now)).

Definition route_get_my_requests (authorization : option string)
  (query_page query_size : option Z) : prog reply :=
  verifyFBToken authorization (fun e => verifyDonor e (get_my_requests e query_page query_size)).

Definition route_patch_donation_requests_id (authorization : option string) (id : string)
  (body : doc) (now : Z) : prog reply :=
  verifyFBToken authorization (fun e => patch_donation_requests_id e id body now).

Definition route_patch_requests_status_id (authorization : option string) (id : string)
  (body : doc) : prog reply :=
  verifyFBToken authorization (fun e => verifyDonor e (patch_requests_status_id e id body)).

Definition route_patch_admin_requests_status_id (authorization : option string)
  (id : string) (body : doc) : prog reply :=
  verifyFBToken authorization (fun e => verifyAdmin e (patch_admin_requests_status_id id body)).

Definition route_patch_volunteer_requests_status_id (authorization : option string)
  (id : string) (body : doc) : prog reply :=
  verifyFBToken authorization
    (fun e => verifyVolunteer e (patch_admin_requests_status_id id body)).


(** *** The remaining handlers *)

(** [GET /users/role/:email] (lines 135-140): [user?.role] and
    [user?.status], both [undefined] when nobody is stored under the
    e-mail. *)
Definition get_users_role_email (email : string) : prog reply :=
  let! user := await FindOne userCollection {[ "email" := VStr email ]} in
  Ret (Send 200 (RoleStatus (from_option (fun u => prop u "role") VNull user)
                            (from_option (fun u => prop u "status") VNull user))).

(** [GET /profile] (lines 172-179) *)
Definition get_profile (decoded_email : string) : prog reply :=
  let! user := await FindOne userCollection {[ "email" := VStr decoded_email ]} in
  match user with
  | None => Ret (Send 404 (Message "Not found"))
  | Some user => Ret (Send 200 (Document user))
  end.

(** [GET /admin/requests] (lines 231-244) *)
Definition get_admin_requests (query_page query_size : option Z) : prog reply :=
  let page := Js.number_or query_page 1 in
  let size := Js.number_or query_size 10 in
  let! requests := await Find requestCollection ∅
                      {| sorted := true; skip := size * (page - 1); limit := size |} in
  let! total := await CountDocuments requestCollection ∅ in
  Ret (Send 200 (Page requests total)).

(** [GET /volunteer/requests] (lines 249-259) *)
Definition get_volunteer_requests (status : option string) : prog reply :=
  let query : query := assign_if "status" status id ∅ in
  let! result := await Find requestCollection query plain in
  Ret (Send 200 (Documents result)).

(** [GET /donation-requests] (lines 276-283) *)
Definition get_donation_requests : prog reply :=
  let! result := await Find requestCollection {[ "status" := VStr "pending" ]}
                    {| sorted := true; skip := 0; limit := 0 |} in
  Ret (Send 200 (Documents result)).

(** [GET /donation-requests/:id] (lines 285-293) *)
Definition get_donation_requests_id (id : string) : prog reply :=
  match Js.ObjectId id with
  | None => Throw
  | Some oid =>
      let! result := await FindOne requestCollection {[ "_id" := VOid oid ]} in
      match result with
      | None => Ret (Send 404 (Message "Not found"))
      | Some result => Ret (Send 200 (Document result))
      end
  end.

(** [DELETE /requests/:id] (lines 375-386) *)
Definition delete_requests_id (decoded_email : string) (id : string) : prog reply :=
  match Js.ObjectId id with
  | None => Throw
  | Some oid =>
      let! result := await DeleteOne requestCollection
          {[ "_id" := VOid oid; "requesterEmail" := VStr decoded_email ]} in
      Ret (Send 200 (Deleted result))
  end.

(** [DELETE /admin/requests/:id] (lines 388-398) *)
Definition delete_admin_requests_id (id : string) : prog reply :=
  match Js.ObjectId id with
  | None => Throw
  | Some oid =>
      let! result := await DeleteOne requestCollection {[ "_id" := VOid oid ]} in
      Ret (Send 200 (Deleted result))
  end.

(** *** The application: every route that reaches a collection

    [POST /create-payment-checkout] and [GET /dashboard-stats] are left
    out: the first talks to the payment provider only, the second reads
    through an aggregation. *)

(** A query-string parameter used as a value: [undefined] when absent. *)
Definition query_value (x : option string) : value := from_option VStr VNull x.

Inductive call :=
| POST_users (body : doc) (now : Z)
| GET_users (authorization : option string)
| GET_users_role (email : string)
| PATCH_update_user_status (authorization : option string) (email status : option string)
| PATCH_users_make_volunteer (authorization : option string) (id : string)
| GET_profile (authorization : option string)
| PATCH_profile (authorization : option string) (body : doc)
| POST_requests (authorization : option string) (body : doc) (now : Z)
| GET_my_requests (authorization : option string) (query_page query_size : option Z)
| GET_admin_requests (authorization : option string) (query_page query_size : option Z)
| GET_volunteer_requests (authorization : option string) (status : option string)
| GET_search_requests (bloodGroup district upazila : option string)
| GET_donation_requests
| GET_donation_requests_id (authorization : option string) (id : string)
| PATCH_donation_requests_id (authorization : option string) (id : string) (body : doc)
    (now : Z)
| PATCH_requests_status (authorization : option string) (id : string) (body : doc)
| PATCH_admin_requests_status (authorization : option string) (id : string) (body : doc)
| PATCH_volunteer_requests_status (authorization : option string) (id : string) (body : doc)
| DELETE_requests (authorization : option string) (id : string)
| DELETE_admin_requests (authorization : option string) (id : string)
| GET_success_payment (session : session) (now : Z).

Definition serve (c : call) : prog reply :=
  match c with
  | POST_users body now => post_users body now
  | GET_users a => route_get_users a
  | GET_users_role email => get_users_role_email email
  | PATCH_update_user_status a email status =>
      route_patch_update_user_status a (query_value email) (query_value status)
  | PATCH_users_make_volunteer a id => route_patch_users_make_volunteer_id a id
  | GET_profile a => verifyFBToken a get_profile
  | PATCH_profile a body => route_patch_profile a body
  | POST_requests a body now => route_post_requests a body now
  | GET_my_requests a p sz => route_get_my_requests a p sz
  | GET_admin_requests a p sz =>
      verifyFBToken a (fun e => verifyAdmin e (get_admin_requests p sz))
  | GET_volunteer_requests a status =>
      verifyFBToken a (fun e => verifyVolunteer e (get_volunteer_requests status))
  | GET_search_requests bg di up => get_search_requests bg di up
  | GET_donation_requests => get_donation_requests
  | GET_donation_requests_id a id => verifyFBToken a (fun _ => get_donation_requests_id id)
  | PATCH_donation_requests_id a id body now => route_patch_donation_requests_id a id body now
  | PATCH_requests_status a id body => route_patch_requests_status_id a id body
  | PATCH_admin_requests_status a id body => route_patch_admin_requests_status_id a id body
  | PATCH_volunteer_requests_status a id body =>
      route_patch_volunteer_requests_status_id a id body
  | DELETE_requests a id => verifyFBToken a (fun e => verifyDonor e (delete_requests_id e id))
  | DELETE_admin_requests a id =>
      verifyFBToken a (fun e => verifyAdmin e (delete_admin_requests_id id))
  | GET_success_payment session now => get_success_payment session now
  end.

(** Calls served one after the other, each to completion. *)
Definition serve_all (calls : list call) (s : db) : db :=
  foldl (fun s c => (run (serve c) s).1) s calls.

End Server.
End Part0.

(** ** [src/index.js], first program (lines 1-335) *)

Module IndexA.
Import Mongo Async.

Section Server.
Context (verifyIdToken : string -> option string).

Definition verifyFBToken (authorization : option string)
  (next : string -> prog reply) : prog reply :=
  match authorization with
  | None => Ret (Send 401 (Message "Unauthorized access"))
  | Some authHeader =>
      match Js.bearer_token authHeader ≫= verifyIdToken with
      | Some decoded_email => next decoded_email
      | None => Ret (Send 401 (Message "Unauthorized access"))
      end
  end.

(** *** Users (lines 72-80) *)

Definition post_users (body : doc) (now : Z) : prog reply :=
  let user := body in
  let user := <["createdAt" := VDate now]> user in
  let user := <["role" := VStr "admin"]> user in
  let user := <["status" := VStr "active"]> user in
  let! result := await InsertOne userCollection user in
  Ret (Send 200 (Inserted result)).

(** *** Requests (lines 121-149) *)

Definition get_my_requests (decoded_email : string) (query_size query_page : option Z)
  : prog reply :=
  let email := decoded_email in
  let size := Js.number_or query_size 10 in
  let page := Js.number_or query_page 1 in
  let query : query := {[ "requesterEmail" := VStr email ]} in
  let! requests := await Find requestCollection query
                      {| sorted := false; skip := size * (page - 1); limit := size |} in
  let! total := await CountDocuments requestCollection query in
  Ret (Send 200 (Page requests total)).

Definition get_search_requests (bloodGroup district upazila : option string) : prog reply :=
  let query : query := ∅ in
  let query := assign_if "bloodGroup" bloodGroup Js.trim query in
  let query := assign_if "district" district id query in
  let query := assign_if "upazila" upazila id query in
  let! result := await Find requestCollection query plain in
  Ret (Send 200 (Documents result)).

(** *** Donate (lines 184-222) *)

Definition patch_donation_requests_id (id : string) (body : doc) (now : Z) : prog reply :=
  let donorName := prop body "donorName" in
  let donorEmail := prop body "donorEmail" in
  if negb (Js.ObjectId_isValid id) then Ret (Send 400 (Message "Invalid request ID"))
  else
    match Js.ObjectId id with
    | None => Throw
    | Some oid =>
        let! request := await FindOne requestCollection {[ "_id" := VOid oid ]} in
        match request with
        | None => Ret (Send 404 (Message "Request not found"))
        | Some request =>
            if strict_ne (prop request "status") "pending"
            then Ret (Send 400 (Message "This request is already taken"))
            else
              let! result := await UpdateOne requestCollection {[ "_id" := VOid oid ]}
                  {[ "status" := VStr "inprogress";
                     "donorName" := donorName;
                     "donorEmail" := donorEmail;
                     "donatedAt" := VDate now ]} in
              Ret (Send 200 (Taken (modifiedCount result)))
        end
    end.

(** *** Payment (lines 252-277) *)

Definition get_success_payment (session : session) (now : Z) : prog reply :=
  if String.eqb (payment_status session) "paid" then
    let payment := {|
      amount := (amount_total session / 100)%float;
      currency := Some (session_currency session);
      donorEmail := customer_email session;
      transactionId := payment_intent session;
      status := payment_status session;
      paidAt := now |} in
    let! exists_ := await PaymentFindOne (transactionId payment) in
    match exists_ with
    | Some _ => Ret (Send 200 Success)
    | None =>
        let! _ := await PaymentInsertOne payment in
        Ret (Send 200 Success)
    end
  else Ret NoReply.

(** *** Profile (lines 301-319); no modelled call rejects, so the
    [catch] branch is never taken. *)

Definition patch_profile (decoded_email : string) (body : doc) : prog reply :=
  let email := decoded_email in
  let updatedData := body in
  let updatedData := delete "_id" updatedData in
  let updatedData := delete "email" updatedData in
  let! result := await UpdateOne userCollection {[ "email" := VStr email ]} updatedData in
  Ret (Send 200 (Updated result)).

(** *** Routes *)

Definition route_get_my_requests (authorization : option string)
  (query_size query_page : option Z) : prog reply :=
  verifyFBToken authorization (fun e => get_my_requests e query_size query_page).

Definition route_patch_donation_requests_id (authorization : option string) (id : string)
  (body : doc) (now : Z) : prog reply :=
  verifyFBToken authorization (fun _ => patch_donation_requests_id id body now).

Definition route_patch_profile (authorization : option string) (body : doc) : prog reply :=
  verifyFBToken authorization (fun e => patch_profile e body).


(** *** The remaining handlers *)

(** [GET /users] (lines 82-85) *)
Definition get_users : prog reply :=
  let! result := await Find userCollection ∅ plain in
  Ret (Send 200 (Documents result)).

(** [GET /users/role/:email] (lines 87-96) *)
Definition get_users_role_email (email : string) : prog reply :=
  let! user := await FindOne userCollection {[ "email" := VStr email ]} in
  match user with
  | None => Ret (Send 404 (Message "User not found"))
  | Some user => Ret (Send 200 (RoleStatus (prop user "role") (prop user "status")))
  end.

(** [PATCH /update/user/status] (lines 98-107) *)
Definition patch_update_user_status (email status : value) : prog reply :=
  let! result := await UpdateOne userCollection {[ "email" := email ]} {[ "status" := status ]} in
  Ret (Send 200 (Updated result)).

(** [POST /requests] (lines 112-119) *)
Definition post_requests (body : doc) (now : Z) : prog reply :=
  let data := body in
  let data := <["createdAt" := VDate now]> data in
  let data := <["status" := VStr "pending"]> data in
  let! result := await InsertOne requestCollection data in
  Ret (Send 200 (Inserted result)).

(** [GET /donation-requests] (lines 154-161) *)
Definition get_donation_requests : prog reply :=
  let! result := await Find requestCollection {[ "status" := VStr "pending" ]}
                    {| sorted := true; skip := 0; limit := 0 |} in
  Ret (Send 200 (Documents result)).

(** [GET /donation-requests/:id] (lines 163-179) *)
Definition get_donation_requests_id (id : string) : prog reply :=
  if negb (Js.ObjectId_isValid id) then Ret (Send 400 (Message "Invalid request ID"))
  else
    match Js.ObjectId id with
    | None => Throw
    | Some oid =>
        let! result := await FindOne requestCollection {[ "_id" := VOid oid ]} in
        match result with
        | None => Ret (Send 404 (Message "Request not found"))
        | Some result => Ret (Send 200 (Document result))
        end
    end.

(** [GET /profile] (lines 284-298) *)
Definition get_profile (decoded_email : string) : prog reply :=
  let email := decoded_email in
  let! user := await FindOne userCollection {[ "email" := VStr email ]} in
  match user with
  | None => Ret (Send 404 (Message "User not found"))
  | Some user => Ret (Send 200 (Document user))
  end.

Definition route_post_requests (authorization : option string) (body : doc) (now : Z)
  : prog reply :=
  verifyFBToken authorization (fun _ => post_requests body now).

Definition route_patch_update_user_status (authorization : option string)
  (email status : value) : prog reply :=
  verifyFBToken authorization (fun _ => patch_update_user_status email status).

End Server.
End IndexA.

(** ** [src/index.js], second program (lines 336-704) *)

Module IndexB.
Import Mongo Async.

Section Server.
Context (verifyIdToken : string -> option string).

Definition verifyFBToken (authorization : option string)
  (next : string -> prog reply) : prog reply :=
  match authorization with
  | None => Ret (Send 401 (Message "Unauthorized"))
  | Some authHeader =>
      match Js.bearer_token authHeader ≫= verifyIdToken with
      | Some decoded_email => next decoded_email
      | None => Ret (Send 401 (Message "Unauthorized"))
      end
  end.

(** *** Users (lines 404-415) *)

Definition post_users (body : doc) (now : Z) : prog reply :=
  let user := body in
  let user := <["createdAt" := VDate now]> user in
  let user := <["role" := VStr "donor"]> user in
  let user := <["status" := VStr "active"]> user in
  let! exists_ := await FindOne userCollection {[ "email" := prop user "email" ]} in
  match exists_ with
  | Some _ => Ret (Send 200 (Message "User already exists"))
  | None =>
      let! result := await InsertOne userCollection user in
      Ret (Send 200 (Inserted result))
  end.

(** *** Requests (lines 442-483) *)

Definition post_requests (decoded_email : string) (body : doc) (now : Z) : prog reply :=
  let data := body in
  let data := <["requesterEmail" := VStr (Js.trim decoded_email)]> data in
  let data := <["createdAt" := VDate now]> data in
  let data := <["status" := VStr "pending"]> data in
  let! result := await InsertOne requestCollection data in
  Ret (Send 200 (Inserted result)).

Definition get_my_requests (decoded_email : string) (query_size query_page : option Z)
  : prog reply :=
  let email := Js.trim decoded_email in
  let size := Js.number_or query_size 3 in
  let page := Js.number_or query_page 1 in
  let query : query := {[ "requesterEmail" := VStr email ]} in
  let! requests := await Find requestCollection query
                      {| sorted := true; skip := size * (page - 1); limit := size |} in
  let! total := await CountDocuments requestCollection query in
  Ret (Send 200 (Page requests total)).

Definition get_search_requests (bloodGroup district upazila : option string) : prog reply :=
  let query : query := ∅ in
  let query := assign_if "bloodGroup" bloodGroup Js.trim query in
  let query := assign_if "district" district id query in
  let query := assign_if "upazila" upazila id query in
  let! result := await Find requestCollection query plain in
  Ret (Send 200 (Documents result)).

(** *** Donate (lines 513-539) *)

Definition patch_donation_requests_id (decoded_email : string) (id : string) (body : doc)
  (now : Z) : prog reply :=
  let donorEmail := Js.trim decoded_email in
  let donorName := prop body "donorName" in
  match Js.ObjectId id with
  | None => Throw
  | Some oid =>
      let! request := await FindOne requestCollection {[ "_id" := VOid oid ]} in
      match request with
      | None => Ret (Send 404 (Message "Not found"))
      | Some request =>
          if strict_ne (prop request "status") "pending"
          then Ret (Send 400 (Message "Already taken"))
          else
            let! result := await UpdateOne requestCollection {[ "_id" := VOid oid ]}
                {[ "status" := VStr "inprogress";
                   "donorName" := donorName;
                   "donorEmail" := VStr donorEmail;
                   "donatedAt" := VDate now ]} in
            Ret (Send 200 (Taken (modifiedCount result)))
      end
  end.

(** *** Status update (lines 545-562) *)

Definition includes (l : list string) (v : value) : bool :=
  existsb (strict_eq v) l.

Definition patch_requests_status_id (decoded_email : string) (id : string) (body : doc)
  : prog reply :=
  let status := prop body "status" in
  if negb (includes ["done"; "canceled"] status)
  then Ret (Send 400 (Message "Invalid status"))
  else
    match Js.ObjectId id with
    | None => Throw
    | Some oid =>
        let! result := await UpdateOne requestCollection
            {[ "_id" := VOid oid;
               "requesterEmail" := VStr (Js.trim decoded_email);
               "status" := VStr "inprogress" ]}
            {[ "status" := status ]} in
        Ret (Send 200 (Updated result))
    end.

(** *** Payment (lines 605-626) *)

Definition get_success_payment (session : session) (now : Z) : prog reply :=
  if String.eqb (payment_status session) "paid" then
    let payment := {|
      amount := (amount_total session / 100)%float;
      currency := None;
      donorEmail := customer_email session;
      transactionId := payment_intent session;
      status := payment_status session;
      paidAt := now |} in
    let! exists_ := await PaymentFindOne (transactionId payment) in
    match exists_ with
    | Some _ => Ret (Send 200 Success)
    | None =>
        let! _ := await PaymentInsertOne payment in
        Ret (Send 200 Success)
    end
  else Ret NoReply.

(** *** Profile (lines 641-654) *)

Definition patch_profile (decoded_email : string) (body : doc) : prog reply :=
  let email := decoded_email in
  let updatedData := body in
  let updatedData := delete "_id" updatedData in
  let updatedData := delete "email" updatedData in
  let! result := await UpdateOne userCollection {[ "email" := VStr email ]} updatedData in
  Ret (Send 200 (Updated result)).

Definition route_patch_requests_status_id (authorization : option string) (id : string)
  (body : doc) : prog reply :=
  verifyFBToken authorization (fun e => patch_requests_status_id e id body).

Definition route_patch_donation_requests_id (authorization : option string) (id : string)
  (body : doc) (now : Z) : prog reply :=
  verifyFBToken authorization (fun e => patch_donation_requests_id e id body now).


(** *** The remaining handlers *)

(** [GET /users] (lines 417-420) *)
Definition get_users : prog reply :=
  let! result := await Find userCollection ∅ plain in
  Ret (Send 200 (Documents result)).

(** [GET /users/role/:email] (lines 422-426) *)
Definition get_users_role_email (email : string) : prog reply :=
  let! user := await FindOne userCollection {[ "email" := VStr email ]} in
  match user with
  | None => Ret (Send 404 (Message "Not found"))
  | Some user => Ret (Send 200 (RoleStatus (prop user "role") (prop user "status")))
  end.

(** [PATCH /update/user/status] (lines 428-435) *)
Definition patch_update_user_status (email status : value) : prog reply :=
  let! result := await UpdateOne userCollection {[ "email" := email ]} {[ "status" := status ]} in
  Ret (Send 200 (Updated result)).

(** [GET /donation-requests] (lines 486-493) *)
Definition get_donation_requests : prog reply :=
  let! result := await Find requestCollection {[ "status" := VStr "pending" ]}
                    {| sorted := true; skip := 0; limit := 0 |} in
  Ret (Send 200 (Documents result)).

(** [GET /donation-requests/:id] (lines 496-507) *)
Definition get_donation_requests_id (id : string) : prog reply :=
  if negb (Js.ObjectId_isValid id) then Ret (Send 400 (Message "Invalid ID"))
  else
    match Js.ObjectId id with
    | None => Throw
    | Some oid =>
        let! result := await FindOne requestCollection {[ "_id" := VOid oid ]} in
        match result with
        | None => Ret (Send 404 (Message "Not found"))
        | Some result => Ret (Send 200 (Document result))
        end
    end.

(** [DELETE /requests/:id] (lines 565-574) *)
Definition delete_requests_id (decoded_email : string) (id : string) : prog reply :=
  match Js.ObjectId id with
  | None => Throw
  | Some oid =>
      let! result := await DeleteOne requestCollection
          {[ "_id" := VOid oid; "requesterEmail" := VStr (Js.trim decoded_email) ]} in
      Ret (Send 200 (Deleted result))
  end.

(** [GET /profile] (lines 632-639) *)
Definition get_profile (decoded_email : string) : prog reply :=
  let! user := await FindOne userCollection {[ "email" := VStr decoded_email ]} in
  match user with
  | None => Ret (Send 404 (Message "Not found"))
  | Some user => Ret (Send 200 (Document user))
  end.

Definition route_patch_update_user_status (authorization : option string)
  (email status : value) : prog reply :=
  verifyFBToken authorization (fun _ => patch_update_user_status email status).

End Server.
End IndexB.

(** ** Vocabulary of the properties *)

Module Props.
Import Mongo Async.

(** The role and status a guard resolves for a caller: those of the first
    user document stored under the caller's e-mail. *)
Definition resolve (s : db) (email : string) : option (value * value) :=
  (fun user => (prop user "role", prop user "status"))
    <$> findOne {[ "email" := VStr email ]} (users s).

Definition has_role (s : db) (email role : string) : bool :=
  match resolve s email with
  | Some (r, _) => bool_decide (r = VStr role)
  | None => false
  end.

Definition is_blocked (s : db) (email : string) : bool :=
  match resolve s email with
  | Some (_, st) => bool_decide (st = VStr "blocked")
  | None => false
  end.

(** A rejected call: the store is as before and the caller gets 403. *)
Definition forbidden (p : prog reply) (s : db) : Prop :=
  exists m, run p s = (s, Some (Send 403 (Message m))).


(** The three programs of the repository. *)
Inductive variant := index_js_1 | index_js_2 | part_000.

Definition get_success_payment (v : variant) : session -> Z -> prog reply :=
  match v with
  | index_js_1 => IndexA.get_success_payment
  | index_js_2 => IndexB.get_success_payment
  | part_000 => Part0.get_success_payment
  end.

(** The provider reports the session as paid. *)
Definition paid (sess : session) : bool := String.eqb (payment_status sess) "paid".

(** The ledger already holds an entry for a transaction id. *)
Definition recorded (txid : value) (ps : list payment) : bool :=
  existsb (fun p => bool_decide (transactionId p = txid)) ps.

Definition count_tx (txid : value) (ps : list payment) : nat :=
  length (List.filter (fun p => bool_decide (transactionId p = txid)) ps).

(** Finalize-payment invoked again and again, each invocation running to
    completion before the next one starts. *)
Definition finalize_all (v : variant) (calls : list (session * Z)) (s : db) : db :=
  foldl (fun s c => (run (get_success_payment v c.1 c.2) s).1) s calls.

(** The request a claim addresses, as the store holds it. *)
Definition request_by_id (oid : N) (s : db) : option doc :=
  findOne {[ "_id" := VOid oid ]} (requests s).

(** Fields written by a claim in [part_000]. *)
Definition claim_fields (donorEmail donorName : value) (now : Z) : doc :=
  {[ "status" := VStr "inprogress"; "donorEmail" := donorEmail;
     "donorName" := donorName; "donatedAt" := VDate now ]}.

(** *** A small scenario: one pending request and three callers *)

(** The identity provider: which e-mail each bearer token verifies to. *)
Definition idp (token : string) : option string :=
  if String.eqb token "tok-x" then Some "x@x"
  else if String.eqb token "tok-y" then Some "y@x"
  else if String.eqb token "tok-req" then Some "req@x"
  else None.

Definition id0 : string := "00000000000000000000000a".

Definition request0 : doc :=
  {[ "_id" := VOid 10; "requesterEmail" := VStr "req@x";
     "status" := VStr "pending"; "createdAt" := VDate 1 ]}.

Definition donor (email : string) : doc :=
  {[ "email" := VStr email; "role" := VStr "donor"; "status" := VStr "active" ]}.

Definition store0 : db :=
  {| users := [donor "req@x"; donor "x@x"; donor "y@x"];
     requests := [request0];
     payments := [] |}.

Definition with_requests (l : list doc) (s : db) : db :=
  {| users := users s; requests := l; payments := payments s |}.

(** The filter of the requester-driven status update in the second
    program of [index.js]. *)
Definition status_filter (oid : N) (email : string) : query :=
  {[ "_id" := VOid oid; "requesterEmail" := VStr email; "status" := VStr "inprogress" ]}.

Definition post_users (v : variant) : doc -> Z -> prog reply :=
  match v with
  | index_js_1 => IndexA.post_users
  | index_js_2 => IndexB.post_users
  | part_000 => Part0.post_users
  end.

(** The e-mail of every stored user, in collection order ([null] for a
    document without one). *)
Definition emails (l : list doc) : list value := map (fun d => prop d "email") l.

(** The [_id] a document brings is one a stored document already has
    (an absent or [null] one never is: it is replaced by a fresh one). *)
Definition id_in_use (x : option value) (l : list doc) : bool :=
  match x with
  | None | Some VNull => false
  | Some id => existsb (fun d => bool_decide (d !! "_id" = Some id)) l
  end.

(** A user with this e-mail is already stored. *)
Definition user_exists (email : value) (s : db) : bool :=
  if findOne {[ "email" := email ]} (users s) is Some _ then true else false.

Definition patch_profile (v : variant) : string -> doc -> prog reply :=
  match v with
  | index_js_1 => IndexA.patch_profile
  | index_js_2 => IndexB.patch_profile
  | part_000 => Part0.patch_profile
  end.

(** One field of every document of a collection, in collection order. *)
Definition column (k : string) (l : list doc) : list (option value) :=
  map (fun d => d !! k) l.

(** [a] is listed before [b] only if it was not created earlier. *)
Definition newer_first (a b : doc) : Prop :=
  value_leb (createdAt b) (createdAt a) = true.

(** The requests of one requester, in collection order. *)
Definition requests_of (email : string) (s : db) : list doc :=
  List.filter (matches {[ "requesterEmail" := VStr email ]}) (requests s).

Definition get_search_requests (v : variant)
  : option string -> option string -> option string -> prog reply :=
  match v with
  | index_js_1 => IndexA.get_search_requests
  | index_js_2 => IndexB.get_search_requests
  | part_000 => Part0.get_search_requests
  end.

(** A search parameter, normalised by [f], as a condition on one field:
    an absent or empty parameter holds of every document. *)
Definition field_is (k : string) (x : option string) (f : string -> string) (d : doc)
  : bool :=
  match x with
  | Some s => if Js.truthy x then bool_decide (prop d k = VStr (f s)) else true
  | None => true
  end.

(** Search by exact equality on each given field, the blood group after
    trimming, district and upazila as given. *)
Definition search_by_fields (bloodGroup district upazila : option string) (l : list doc)
  : list doc :=
  List.filter (fun d => field_is "bloodGroup" bloodGroup Js.trim d
                        && field_is "district" district id d
                        && field_is "upazila" upazila id d) l.

(** Search as the specification words it: every parameter that is present
    is trimmed before the comparison. *)
Definition search_as_specified (bloodGroup district upazila : option string)
  (l : list doc) : list doc :=
  List.filter (fun d => field_is "bloodGroup" bloodGroup Js.trim d
                        && field_is "district" district Js.trim d
                        && field_is "upazila" upazila Js.trim d) l.

(** A parameter that is absent or has no surrounding white space. *)
Definition is_trimmed (x : option string) : Prop :=
  forall s, x = Some s -> Js.trim s = s.

(** Every ledger entry carries the hundredth of the amount the provider
    reports for its transaction. *)
Definition ledger_agrees (provider_amount : value -> float) (ps : list payment) : Prop :=
  Forall (fun p => amount p = (provider_amount (transactionId p) / 100)%float) ps.

(** *** Vocabulary for the whole application *)

(** Calls that only read a collection. *)
Definition is_read {A : Type} (o : op A) : bool :=
  match o with
  | FindOne _ _ | Find _ _ _ | CountDocuments _ _ | PaymentFindOne _ => true
  | _ => false
  end.

(** A handler all of whose awaited calls are reads, whatever they
    answer. *)
Fixpoint reads_only {R : Type} (p : prog R) : Prop :=
  match p with
  | Ret _ | Throw => True
  | Await o k => is_read o = true /\ forall a, reads_only (k a)
  end.

(** The routes registered with [app.get], the payment finalisation
    apart. *)
Definition is_query (c : Part0.call) : bool :=
  match c with
  | Part0.GET_users _ | Part0.GET_users_role _ | Part0.GET_profile _
  | Part0.GET_my_requests _ _ _ | Part0.GET_admin_requests _ _ _
  | Part0.GET_volunteer_requests _ _ | Part0.GET_search_requests _ _ _
  | Part0.GET_donation_requests | Part0.GET_donation_requests_id _ _ => true
  | _ => false
  end.

(** The verified identity behind an [Authorization] header, if any. *)
Definition caller (verifyIdToken : string -> option string)
  (authorization : option string) : option string :=
  match authorization with
  | Some authHeader => Js.bearer_token authHeader ≫= verifyIdToken
  | None => None
  end.

(** Keys of the store: user e-mails are pairwise distinct, [_id]s are
    distinct within each collection, and the ledger holds at most one
    entry per transaction id. *)
Record well_keyed (s : db) : Prop := {
  wk_emails : NoDup (emails (users s));
  wk_user_ids : NoDup (column "_id" (users s));
  wk_request_ids : NoDup (column "_id" (requests s));
  wk_ledger : forall txid, count_tx txid (payments s) <= 1
}.

(** An awaited call that cannot break the keys by itself: an update that
    sets neither [_id] nor [email], an insert of a request, a delete, or
    a read. *)
Definition keeps_keys {A : Type} (o : op A) : Prop :=
  match o with
  | UpdateOne _ _ u => u !! "_id" = None /\ u !! "email" = None
  | InsertOne userCollection _ => False
  | PaymentInsertOne _ => False
  | _ => True
  end.

Fixpoint tame {R : Type} (p : prog R) : Prop :=
  match p with
  | Ret _ | Throw => True
  | Await o k => keeps_keys o /\ forall a, tame (k a)
  end.

Definition empty_db : db := {| users := []; requests := []; payments := [] |}.

(** The filter of the owner-scoped update and delete. *)
Definition owner_filter (oid : N) (email : string) : query :=
  {[ "_id" := VOid oid; "requesterEmail" := VStr email ]}.

(** The fields [POST /requests] writes itself. *)
Definition request_stamp : list string := ["requesterEmail"; "status"; "createdAt"; "_id"].

(** The fields a claim writes. *)
Definition claim_keys : list string := ["status"; "donorName"; "donorEmail"; "donatedAt"].

Definition patch_donation_requests_id (v : variant) (decoded_email id : string)
  (body : doc) (now : Z) : prog reply :=
  match v with
  | index_js_1 => IndexA.patch_donation_requests_id id body now
  | index_js_2 => IndexB.patch_donation_requests_id decoded_email id body now
  | part_000 => Part0.patch_donation_requests_id decoded_email id body now
  end.

(** The pending requests of a collection, in collection order. *)
Definition pending (l : list doc) : list doc :=
  List.filter (matches {[ "status" := VStr "pending" ]}) l.

(** A word: a string without a space. *)
Fixpoint no_space (s : string) : Prop :=
  match s with
  | EmptyString => True
  | String c s' => c <> " "%char /\ no_space s'
  end.

End Props.
Export Props.

(** * Properties *)

Import Mongo Async.

(** ** Evaluation checks of the base model *)

Example trim_demo :
  Js.trim "  A+ " = "A+" /\ Js.bearer_token "Bearer abc" = Some "abc"
  /\ Js.ObjectId "00000000000000000000000A" = Some 10%N.
Proof. repeat split; vm_compute; reflexivity. Qed.

Example trim_unicode_demo :
  let nbsp := String (ascii_of_N 194) (String (ascii_of_N 160) EmptyString) in
  let bom := String (ascii_of_N 239) (String (ascii_of_N 187) (String (ascii_of_N 191)
               EmptyString)) in
  Js.trim (String.append bom (String.append " A+" (String.append nbsp " "))) = "A+"
  /\ Js.trim (String.append "a" (String.append nbsp "b")) = String.append "a" (String.append nbsp "b")
  /\ Js.trim nbsp = "".
Proof. repeat split; vm_compute; reflexivity. Qed.

Example mongo_demo :
  let a : doc := {[ "email" := VStr "a@x"; "createdAt" := VDate 1 ]} in
  let b : doc := {[ "email" := VStr "b@x"; "createdAt" := VDate 2 ]} in
  findOne {[ "email" := VStr "b@x" ]} [a; b] = Some b
  /\ find ∅ {| sorted := true; skip := 0; limit := 1 |} [a; b] = Some [b]
  /\ countDocuments {[ "role" := VNull ]} [a; b] = 2
  /\ fst (updateOne {[ "email" := VStr "a@x" ]} {[ "role" := VStr "donor" ]} [a; b])
     = [<["role" := VStr "donor"]> a; b].
Proof. repeat split; vm_compute; reflexivity. Qed.

(** ** Queries *)

Section QueryFacts.
Implicit Types (q : query) (d u : doc) (coll : list doc) (v : value).

Lemma field_matches_spec (stored : option value) v :
  field_matches stored v = true <-> default VNull stored = v.
Proof.
  unfold field_matches.
  destruct v; try (rewrite bool_decide_eq_true; destruct stored; simpl; split; congruence).
  destruct stored as [[]|]; simpl; split; congruence.
Qed.

Lemma matches_spec q d :
  matches q d = true <-> forall k v, q !! k = Some v -> prop d k = v.
Proof.
  unfold matches, prop. rewrite bool_decide_eq_true. unfold map_Forall.
  split; intros H k v Hk; apply field_matches_spec; auto.
Qed.

Lemma matches_empty d : matches ∅ d = true.
Proof. apply matches_spec. intros k v; rewrite lookup_empty; discriminate. Qed.

Lemma matches_singleton k v d :
  matches {[ k := v ]} d = bool_decide (prop d k = v).
Proof.
  apply eq_true_iff_eq. rewrite matches_spec, bool_decide_eq_true. split.
  - intros H. apply H. apply lookup_singleton_eq.
  - intros H k' v' Hk. apply lookup_singleton_Some in Hk as [<- <-]. exact H.
Qed.

Lemma matches_insert k v q d :
  matches (<[k := v]> q) d = true -> prop d k = v.
Proof. rewrite matches_spec. intros H. apply H, lookup_insert_eq. Qed.

(** [$set] of fields outside the query keeps a document matching. *)
Lemma matches_set_disjoint q u d :
  (forall k, is_Some (q !! k) -> u !! k = None) ->
  matches q (u ∪ d) = matches q d.
Proof.
  intros Hdis. apply eq_true_iff_eq. rewrite !matches_spec.
  split; intros H k v Hk; specialize (H k v Hk); unfold prop in *;
    rewrite lookup_union_r in * by (apply Hdis; eauto); exact H.
Qed.

Lemma findOne_Some q coll d :
  findOne q coll = Some d -> d ∈ coll /\ matches q d = true.
Proof.
  unfold findOne. intros H. apply find_some in H as [Hin Hm].
  split; [by apply list_elem_of_In | done].
Qed.

Lemma findOne_None q coll :
  findOne q coll = None <-> forall d, d ∈ coll -> matches q d = false.
Proof.
  unfold findOne. split.
  - intros H d Hd. apply (find_none _ _ H). by apply list_elem_of_In.
  - intros H. induction coll as [|x coll IH]; simpl; [done|].
    rewrite (H x) by left. apply IH. intros d Hd. apply H. by right.
Qed.

Lemma updateOne_None q u coll :
  findOne q coll = None ->
  updateOne q u coll = (coll, {| matchedCount := 0; modifiedCount := 0 |}).
Proof.
  unfold findOne. induction coll as [|x coll IH]; simpl; [done|].
  destruct (matches q x); [discriminate|]. intros H. by rewrite (IH H).
Qed.

(** A matched update rewrites exactly the document [findOne] returns. *)
Lemma updateOne_Some q u coll d :
  findOne q coll = Some d ->
  exists l1 l2,
    coll = l1 ++ d :: l2 /\ Forall (fun x => matches q x = false) l1 /\
    updateOne q u coll =
      (l1 ++ (u ∪ d) :: l2,
       {| matchedCount := 1; modifiedCount := if decide (u ∪ d = d) then 0 else 1 |}).
Proof.
  unfold findOne. induction coll as [|x coll IH]; simpl; [done|].
  destruct (matches q x) eqn:Hx.
  - intros [= ->]. exists [], coll. by rewrite Forall_nil.
  - intros H. destruct (IH H) as (l1 & l2 & -> & Hl1 & ->).
    exists (x :: l1), l2. by rewrite Forall_cons.
Qed.

Lemma updateOne_matched q u coll :
  matchedCount (updateOne q u coll).2 = if findOne q coll is Some _ then 1 else 0.
Proof.
  destruct (findOne q coll) as [d|] eqn:H.
  - by destruct (updateOne_Some q u coll d H) as (? & ? & _ & _ & ->).
  - by rewrite updateOne_None.
Qed.

Lemma findOne_app_skip q l1 l2 :
  Forall (fun x => matches q x = false) l1 -> findOne q (l1 ++ l2) = findOne q l2.
Proof.
  unfold findOne. induction 1 as [|x l1 Hx _ IH]; simpl; [done|]. by rewrite Hx.
Qed.

Lemma countDocuments_length q coll :
  countDocuments q coll = length (List.filter (matches q) coll).
Proof. reflexivity. Qed.

End QueryFacts.

(** ** Access-control guards ([part_000], lines 72-111) *)

Ltac guard_cases s email :=
  unfold has_role, is_blocked, resolve, forbidden; simpl;
  destruct (findOne _ (users s)) as [user|]; simpl;
  unfold strict_ne, strict_eq;
  repeat (case_bool_decide; simpl); try congruence; eauto.

Lemma verifyDonor_run (s : db) (email : string) (next : prog reply) :
  if has_role s email "donor" && negb (is_blocked s email)
  then run (Part0.verifyDonor email next) s = run next s
  else forbidden (Part0.verifyDonor email next) s.
Proof. guard_cases s email. Qed.

Lemma verifyVolunteer_run (s : db) (email : string) (next : prog reply) :
  if has_role s email "volunteer" && negb (is_blocked s email)
  then run (Part0.verifyVolunteer email next) s = run next s
  else forbidden (Part0.verifyVolunteer email next) s.
Proof. guard_cases s email. Qed.

Lemma verifyAdmin_run (s : db) (email : string) (next : prog reply) :
  if has_role s email "admin"
  then run (Part0.verifyAdmin email next) s = run next s
  else forbidden (Part0.verifyAdmin email next) s.
Proof. guard_cases s email. Qed.

(** C4. For every caller, whatever role and status the store resolves for
    them and whatever operation [next] a guard wraps: the donor-only and
    volunteer-only guards hand over to [next] exactly when the resolved
    role is the required one and the status is not blocked, and otherwise
    answer 403 with the store untouched and [next] never started; the
    admin guard hands over exactly when the resolved role is admin,
    blocked or not, and otherwise answers 403 with the store untouched. *)
Theorem guards_by_role_and_status (s : db) (email : string) (next : prog reply) :
  (if has_role s email "donor" && negb (is_blocked s email)
   then run (Part0.verifyDonor email next) s = run next s
   else forbidden (Part0.verifyDonor email next) s)
  /\ (if has_role s email "volunteer" && negb (is_blocked s email)
      then run (Part0.verifyVolunteer email next) s = run next s
      else forbidden (Part0.verifyVolunteer email next) s)
  /\ (if has_role s email "admin"
      then run (Part0.verifyAdmin email next) s = run next s
      else forbidden (Part0.verifyAdmin email next) s).
Proof.
  split; [apply verifyDonor_run|].
  split; [apply verifyVolunteer_run | apply verifyAdmin_run].
Qed.

(** The guards only read: stepped one call at a time among other
    handlers, a guard's own call leaves the store as it is. *)
Lemma guard_step_reads_only (s : db) (email : string) (next : prog reply) :
  (step (Running (Part0.verifyDonor email next)) s).1 = s
  /\ (step (Running (Part0.verifyVolunteer email next)) s).1 = s
  /\ (step (Running (Part0.verifyAdmin email next)) s).1 = s.
Proof. repeat split. Qed.

(** A blocked admin still passes an admin-guarded route and a blocked
    donor is turned away from a donor-guarded one. *)
Example blocked_admin_passes :
  let idp t := if String.eqb t "tok-root" then Some "root@x" else
               if String.eqb t "tok-don" then Some "don@x" else None in
  let root : doc := {[ "email" := VStr "root@x"; "role" := VStr "admin";
                       "status" := VStr "blocked" ]} in
  let don : doc := {[ "email" := VStr "don@x"; "role" := VStr "donor";
                      "status" := VStr "blocked" ]} in
  let s := {| users := [root; don]; requests := []; payments := [] |} in
  run (Part0.route_patch_update_user_status idp (Some "Bearer tok-root")
         (VStr "don@x") (VStr "active")) s
  = ({| users := [root; <["status" := VStr "active"]> don]; requests := []; payments := [] |},
     Some (Send 200 (Updated {| matchedCount := 1; modifiedCount := 1 |})))
  /\ run (Part0.route_post_requests idp (Some "Bearer tok-don") ∅ 5) s
     = (s, Some (Send 403 (Message "User is blocked"))).
Proof. split; vm_compute; reflexivity. Qed.

(** ** Payment ledger ([GET /success-payment]) *)

Lemma field_matches_stored (a q : value) :
  field_matches (Some a) q = bool_decide (a = q).
Proof.
  apply eq_true_iff_eq. rewrite field_matches_spec, bool_decide_eq_true. reflexivity.
Qed.

Lemma payment_find_recorded (txid : value) (ps : list payment) :
  (if List.find (fun p => field_matches (Some (transactionId p)) txid) ps is Some _
   then true else false) = recorded txid ps.
Proof.
  unfold recorded. induction ps as [|p ps IH]; simpl; [done|].
  rewrite field_matches_stored. by destruct (bool_decide _).
Qed.

Lemma count_tx_app (txid : value) (ps qs : list payment) :
  count_tx txid (ps ++ qs) = count_tx txid ps + count_tx txid qs.
Proof. unfold count_tx. by rewrite List.filter_app, length_app. Qed.

Lemma count_tx_unrecorded (txid : value) (ps : list payment) :
  recorded txid ps = false -> count_tx txid ps = 0.
Proof.
  unfold recorded, count_tx. induction ps as [|p ps IH]; simpl; [done|].
  destruct (bool_decide _); simpl; [discriminate | exact IH].
Qed.

(** What one finalize-payment invocation does to the store. *)
Lemma get_success_payment_run (v : variant) (sess : session) (now : Z) (s : db) :
  let s' := (run (get_success_payment v sess now) s).1 in
  users s' = users s /\ requests s' = requests s
  /\ if paid sess && negb (recorded (payment_intent sess) (payments s))
     then exists p, payments s' = payments s ++ [p]
                    /\ transactionId p = payment_intent sess
                    /\ amount p = (amount_total sess / 100)%float
                    /\ donorEmail p = customer_email sess
                    /\ paidAt p = now
     else payments s' = payments s.
Proof.
  pose proof (payment_find_recorded (payment_intent sess) (payments s)) as Hrec.
  unfold paid.
  destruct v; simpl;
    unfold IndexA.get_success_payment, IndexB.get_success_payment,
      Part0.get_success_payment;
    (destruct (String.eqb (payment_status sess) "paid"); simpl; [|done]);
    (destruct (List.find _ (payments s)); simpl in *; rewrite <- Hrec; simpl; [done|]);
    (split; [done|]; split; [done|]; eexists; split; [reflexivity|done]).
Qed.

(** C2. Finalize-payment, in each of the three programs, changes nothing
    but the ledger; it appends one entry carrying the session's
    transaction id if and only if the provider outcome is paid and the
    ledger holds no entry with that id, and otherwise (unpaid, or already
    recorded) leaves the ledger as it is.  Consequently, for every
    transaction id, a ledger with at most one entry for it still has at
    most one after any sequence of finalize-payment invocations, each run
    to completion. *)
Theorem finalize_payment_records_once (v : variant) (sess : session) (now : Z)
  (txid : value) (calls : list (session * Z)) (s : db) :
  let s' := (run (get_success_payment v sess now) s).1 in
  (users s' = users s /\ requests s' = requests s)
  /\ (if paid sess && negb (recorded (payment_intent sess) (payments s))
      then exists p, payments s' = payments s ++ [p]
                     /\ transactionId p = payment_intent sess
      else payments s' = payments s)
  /\ (count_tx txid (payments s) <= 1 ->
      count_tx txid (payments (finalize_all v calls s)) <= 1).
Proof.
  split; [|split].
  - destruct (get_success_payment_run v sess now s) as (Hu & Hr & _). by split.
  - destruct (get_success_payment_run v sess now s) as (_ & _ & H).
    destruct (paid sess && _); [|done].
    destruct H as (p & Hp & Htx & _). by exists p.
  - clear sess now. revert s. induction calls as [|[sess now] calls IH]; intros s Hs; [done|].
    simpl. apply IH.
    destruct (get_success_payment_run v sess now s) as (_ & _ & H). simpl in H.
    destruct (paid sess && _) eqn:Hc; [|by rewrite H].
    destruct H as (p & -> & Htx & _).
    apply andb_true_iff in Hc as [_ Hfresh]. apply negb_true_iff in Hfresh.
    rewrite count_tx_app. unfold count_tx at 2. simpl.
    case_bool_decide as Heq; simpl; [|lia].
    rewrite Htx in Heq. subst txid. rewrite (count_tx_unrecorded _ _ Hfresh). lia.
Qed.

(** A witness store for the payment theorems: an empty ledger and a paid
    session of 2500 minor units. *)
Lemma finalize_payment_records_once_witness :
  let sess := {| payment_status := "paid"; amount_total := 2500%float;
                 session_currency := VStr "usd"; customer_email := VStr "d@x";
                 payment_intent := VStr "pi_1" |} in
  let s := {| users := []; requests := []; payments := [] |} in
  count_tx (VStr "pi_1") (payments s) <= 1
  /\ count_tx (VStr "pi_1")
       (payments (finalize_all part_000 [(sess, 1%Z); (sess, 2%Z); (sess, 3%Z)] s)) <= 1.
Proof.
  intros sess s.
  assert (H0 : count_tx (VStr "pi_1") (payments s) <= 1) by (vm_compute; lia).
  split; [exact H0|].
  exact (proj2 (proj2 (finalize_payment_records_once part_000 sess 1 (VStr "pi_1")
                         [(sess, 1%Z); (sess, 2%Z); (sess, 3%Z)] s)) H0).
Defined.

(** Three invocations for one paid session leave exactly one entry. *)
Example finalize_thrice_one_entry :
  let sess := {| payment_status := "paid"; amount_total := 2500%float;
                 session_currency := VStr "usd"; customer_email := VStr "d@x";
                 payment_intent := VStr "pi_1" |} in
  let s := {| users := []; requests := []; payments := [] |} in
  payments (finalize_all index_js_1 [(sess, 1%Z); (sess, 2%Z); (sess, 3%Z)] s)
  = [ {| amount := 25%float; currency := Some (VStr "usd"); donorEmail := VStr "d@x";
         transactionId := VStr "pi_1"; status := "paid"; paidAt := 1 |} ].
Proof. vm_compute. reflexivity. Qed.

(** An unpaid outcome stores nothing and sends no reply. *)
Example finalize_unpaid_nothing :
  let sess := {| payment_status := "unpaid"; amount_total := 2500%float;
                 session_currency := VStr "usd"; customer_email := VStr "d@x";
                 payment_intent := VNull |} in
  let s := {| users := []; requests := []; payments := [] |} in
  run (Part0.get_success_payment sess 1) s = (s, Some NoReply).
Proof. reflexivity. Qed.

(** The race the specification documents for the ledger: two
    invocations for one paid session whose reads both precede the writes
    store two entries. *)
Example finalize_overlapping_records_twice :
  let sess := {| payment_status := "paid"; amount_total := 2500%float;
                 session_currency := VStr "usd"; customer_email := VStr "d@x";
                 payment_intent := VStr "pi_1" |} in
  let s := {| users := []; requests := []; payments := [] |} in
  let t1 := Running (Part0.get_success_payment sess 1) in
  let t2 := Running (Part0.get_success_payment sess 2) in
  count_tx (VStr "pi_1")
    (payments (interleave [First; Second; First; Second] t1 t2 s).1.1) = 2.
Proof. vm_compute. reflexivity. Qed.

Lemma recorded_entry (txid : value) (ps : list payment) :
  recorded txid ps = true -> exists p, p ∈ ps /\ transactionId p = txid.
Proof.
  unfold recorded. rewrite existsb_exists. intros (p & Hin & Hp).
  exists p. split; [by apply list_elem_of_In | by apply bool_decide_eq_true in Hp].
Qed.

(** C8. For every finalize-payment call, in each of the three programs,
    whose provider outcome is paid: after the call the ledger holds an
    entry for the session's transaction id whose amount is the
    provider-reported amount divided by 100 (the number division of JS),
    the entry being the one this call appends when the transaction was
    not yet recorded.  Here the provider reports one amount per
    transaction and the entries already in the ledger carry the hundredth
    of it, which the call preserves. *)
Theorem stored_amount_is_provider_amount_div_100 (v : variant) (sess : session)
  (now : Z) (s : db) (provider_amount : value -> float) :
  paid sess = true ->
  amount_total sess = provider_amount (payment_intent sess) ->
  ledger_agrees provider_amount (payments s) ->
  let ps' := payments (run (get_success_payment v sess now) s).1 in
  ledger_agrees provider_amount ps'
  /\ exists p,
       p ∈ ps' /\ transactionId p = payment_intent sess
       /\ amount p = (amount_total sess / 100)%float
       /\ (recorded (payment_intent sess) (payments s) = false -> ps' = payments s ++ [p]).
Proof.
  intros Hpaid Hamt Hagree ps'.
  destruct (get_success_payment_run v sess now s) as (_ & _ & H). simpl in H.
  fold ps' in H. rewrite Hpaid in H. simpl in H.
  destruct (recorded (payment_intent sess) (payments s)) eqn:Hrec; simpl in H.
  - rewrite H. split; [exact Hagree|].
    destruct (recorded_entry _ _ Hrec) as (p & Hin & Htx).
    exists p. repeat split; try done.
    unfold ledger_agrees in Hagree. rewrite Forall_forall in Hagree.
    by rewrite (Hagree p Hin), Htx, Hamt.
  - destruct H as (p & Hp & Htx & Ha & _). rewrite Hp. split.
    + apply Forall_app. split; [exact Hagree|].
      apply Forall_singleton. by rewrite Ha, Htx, Hamt.
    + exists p. repeat split; try done. set_solver.
Qed.

(** The case of the specification: a provider amount of 2500 is stored
    as 25. *)
Lemma stored_amount_2500_is_25 :
  let sess := {| payment_status := "paid"; amount_total := 2500%float;
                 session_currency := VStr "usd"; customer_email := VStr "d@x";
                 payment_intent := VStr "pi_1" |} in
  let s := {| users := []; requests := []; payments := [] |} in
  let provider_amount (txid : value) := 2500%float in
  paid sess = true
  /\ amount_total sess = provider_amount (payment_intent sess)
  /\ ledger_agrees provider_amount (payments s)
  /\ exists p, payments (run (get_success_payment part_000 sess 7) s).1 = [p]
               /\ amount p = 25%float.
Proof.
  intros sess s provider_amount.
  assert (Hagree : ledger_agrees provider_amount (payments s)) by apply Forall_nil_2.
  split; [reflexivity|]. split; [reflexivity|]. split; [exact Hagree|].
  destruct (stored_amount_is_provider_amount_div_100 part_000 sess 7 s provider_amount
              eq_refl eq_refl Hagree) as (_ & p & _ & _ & Ha & Hp).
  exists p. split; [exact (Hp eq_refl)|]. rewrite Ha. reflexivity.
Defined.

(** ** Claiming a request ([PATCH /donation-requests/:id]) *)

Section ClaimFacts.
Implicit Types (s : db) (email id : string) (body : doc) (now : Z) (oid : N).

Lemma put_requests_frame (l : list doc) s :
  users (put requestCollection l s) = users s
  /\ payments (put requestCollection l s) = payments s
  /\ requests (put requestCollection l s) = l.
Proof. done. Qed.

(** What a claim run on its own does, in [part_000]: a pending request
    found by id takes the claim fields; anything else is answered 400 and
    changes nothing. *)
Lemma part0_claim_run email id body now oid s :
  Js.ObjectId id = Some oid ->
  run (Part0.patch_donation_requests_id email id body now) s =
    match request_by_id oid s with
    | Some r =>
        if bool_decide (prop r "status" = VStr "pending") then
          let '(l, res) := updateOne {[ "_id" := VOid oid ]}
                             (claim_fields (VStr email) (prop body "donorName") now)
                             (requests s) in
          (put requestCollection l s, Some (Send 200 (Updated res)))
        else (s, Some (Send 400 (Message "Not available")))
    | None => (s, Some (Send 400 (Message "Not available")))
    end.
Proof.
  intros Hid. unfold Part0.patch_donation_requests_id, request_by_id. rewrite Hid. simpl.
  destruct (findOne _ (requests s)) as [r|]; [|done].
  unfold strict_ne, strict_eq. case_bool_decide; simpl; [|done].
  unfold claim_fields. by destruct (updateOne _ _ (requests s)).
Qed.

Lemma claim_fields_keep_id (de dn : value) now oid (r : doc) :
  matches {[ "_id" := VOid oid ]} (claim_fields de dn now ∪ r)
  = matches {[ "_id" := VOid oid ]} r.
Proof.
  apply matches_set_disjoint. intros k [v Hk].
  apply lookup_singleton_Some in Hk as [<- _]. reflexivity.
Qed.

Lemma claim_fields_written (de dn : value) now (r : doc) :
  prop (claim_fields de dn now ∪ r) "status" = VStr "inprogress"
  /\ prop (claim_fields de dn now ∪ r) "donorEmail" = de.
Proof.
  unfold prop, claim_fields. split.
  - by erewrite lookup_union_Some_l.
  - by erewrite lookup_union_Some_l; [|by simplify_map_eq].
Qed.

(** A successful claim, run on its own, in [part_000]: the request was
    pending, it is the only document rewritten, and afterwards it is in
    progress with the caller as donor. *)
Lemma part0_claim_success email id body now oid s s' b :
  Js.ObjectId id = Some oid ->
  run (Part0.patch_donation_requests_id email id body now) s = (s', Some (Send 200 b)) ->
  exists r l1 l2,
    request_by_id oid s = Some r /\ prop r "status" = VStr "pending"
    /\ requests s = l1 ++ r :: l2
    /\ requests s' = l1 ++ (claim_fields (VStr email) (prop body "donorName") now ∪ r) :: l2
    /\ users s' = users s /\ payments s' = payments s
    /\ request_by_id oid s' = Some (claim_fields (VStr email) (prop body "donorName") now ∪ r).
Proof.
  intros Hid. rewrite (part0_claim_run _ _ _ _ _ _ Hid).
  destruct (request_by_id oid s) as [r|] eqn:Hr; [|discriminate].
  case_bool_decide as Hst; [|discriminate].
  destruct (updateOne_Some _ (claim_fields (VStr email) (prop body "donorName") now) _ _ Hr)
    as (l1 & l2 & Hreq & Hl1 & Hup).
  rewrite Hup. intros [= <- _].
  exists r, l1, l2. repeat split; try done.
  unfold request_by_id. simpl. rewrite findOne_app_skip by done.
  unfold findOne. simpl. rewrite claim_fields_keep_id.
  by destruct (findOne_Some _ _ _ Hr) as [_ ->].
Qed.

(** A claim that is not answered 200 changes nothing. *)
Lemma part0_claim_rejected email id body now s s' c b :
  run (Part0.patch_donation_requests_id email id body now) s = (s', Some (Send c b)) ->
  c <> 200 -> s' = s.
Proof.
  unfold Part0.patch_donation_requests_id.
  destruct (Js.ObjectId id) as [oid|]; simpl; [|discriminate].
  destruct (findOne _ (requests s)) as [r|]; simpl; [|congruence].
  unfold strict_ne, strict_eq. case_bool_decide; simpl; [|congruence].
  destruct (updateOne _ _ (requests s)). congruence.
Qed.

(** Two claims one after the other, in [part_000]: the second finds the
    request in progress and is turned away, the store staying as the
    first claim left it. *)
Lemma part0_claim_twice_in_sequence email1 email2 id body1 body2 now1 now2 oid s s1 b :
  Js.ObjectId id = Some oid ->
  run (Part0.patch_donation_requests_id email1 id body1 now1) s = (s1, Some (Send 200 b)) ->
  run (Part0.patch_donation_requests_id email2 id body2 now2) s1
  = (s1, Some (Send 400 (Message "Not available"))).
Proof.
  intros Hid H1.
  destruct (part0_claim_success _ _ _ _ _ _ _ _ Hid H1) as (r & l1 & l2 & _ & _ & _ & _ & _ & _ & Hr').
  rewrite (part0_claim_run _ _ _ _ _ _ Hid), Hr'.
  destruct (claim_fields_written (VStr email1) (prop body1 "donorName") now1 r) as [-> _].
  by rewrite bool_decide_eq_false_2.
Qed.

End ClaimFacts.

(** After a matched update whose fields lie outside the query, the query
    finds the updated document. *)
Lemma updateOne_found (q : query) (u r : doc) (l : list doc) :
  (forall k, is_Some (q !! k) -> u !! k = None) ->
  findOne q l = Some r ->
  findOne q (updateOne q u l).1 = Some (u ∪ r).
Proof.
  intros Hu Hr.
  destruct (updateOne_Some _ u _ _ Hr) as (l1 & l2 & _ & Hl1 & ->). simpl.
  rewrite findOne_app_skip by done. unfold findOne. simpl.
  rewrite matches_set_disjoint by done.
  by destruct (findOne_Some _ _ _ Hr) as [_ ->].
Qed.

Lemma updateOne_by_id_found (oid : N) (u r : doc) (reqs : list doc) :
  u !! "_id" = None ->
  findOne {[ "_id" := VOid oid ]} reqs = Some r ->
  findOne {[ "_id" := VOid oid ]} (updateOne {[ "_id" := VOid oid ]} u reqs).1
  = Some (u ∪ r).
Proof.
  intros Hu. apply updateOne_found.
  intros k [v Hk]. by apply lookup_singleton_Some in Hk as [<- _].
Qed.

(** In [part_000] a successful claim records the verified caller as
    donor. *)
Lemma part0_claim_records_caller (email id : string) (body : doc) (now : Z) (oid : N)
  (s s' : db) (b : Async.body) :
  Js.ObjectId id = Some oid ->
  run (Part0.patch_donation_requests_id email id body now) s = (s', Some (Send 200 b)) ->
  exists r', request_by_id oid s' = Some r'
             /\ prop r' "donorEmail" = VStr email
             /\ prop r' "status" = VStr "inprogress".
Proof.
  intros Hid H.
  destruct (part0_claim_success _ _ _ _ _ _ _ _ Hid H)
    as (r & l1 & l2 & _ & _ & _ & _ & _ & _ & Hr').
  eexists. split; [exact Hr'|].
  destruct (claim_fields_written (VStr email) (prop body "donorName") now r). by split.
Qed.

(** In the second program of [index.js] a successful claim records the
    verified caller, trimmed, as donor. *)
Lemma indexB_claim_records_caller (email id : string) (body : doc) (now : Z) (oid : N)
  (s s' : db) (b : Async.body) :
  Js.ObjectId id = Some oid ->
  run (IndexB.patch_donation_requests_id email id body now) s = (s', Some (Send 200 b)) ->
  exists r', request_by_id oid s' = Some r'
             /\ prop r' "donorEmail" = VStr (Js.trim email)
             /\ prop r' "status" = VStr "inprogress".
Proof.
  intros Hid. unfold IndexB.patch_donation_requests_id, request_by_id. rewrite Hid. simpl.
  destruct (findOne _ (requests s)) as [r|] eqn:Hr; simpl; [|discriminate].
  unfold strict_ne, strict_eq. case_bool_decide; simpl; [|discriminate].
  match goal with |- context [updateOne ?q ?u ?l] =>
    pose proof (updateOne_by_id_found oid u r l eq_refl Hr) as Hf;
    destruct (updateOne q u l) as [l' res] end.
  intros [= <- _]. simpl in *. eexists. split; [exact Hf|].
  unfold prop. split; by erewrite lookup_union_Some_l; [|by simplify_map_eq].
Qed.

(** In the first program of [index.js] the claim handler never reads the
    verified identity: two authenticated callers sending the same body run
    the same program. *)
Lemma indexA_claim_ignores_caller (verifyIdToken : string -> option string)
  (auth1 auth2 e1 e2 id : string) (body : doc) (now : Z) :
  Js.bearer_token auth1 ≫= verifyIdToken = Some e1 ->
  Js.bearer_token auth2 ≫= verifyIdToken = Some e2 ->
  IndexA.route_patch_donation_requests_id verifyIdToken (Some auth1) id body now
  = IndexA.route_patch_donation_requests_id verifyIdToken (Some auth2) id body now.
Proof.
  intros H1 H2. unfold IndexA.route_patch_donation_requests_id, IndexA.verifyFBToken.
  by rewrite H1, H2.
Qed.

(** C10 on the first program of [index.js]: caller [x@x] claims the
    pending request with a body naming [mallory@x] as donor; the claim
    succeeds and the request records [mallory@x], not the caller. *)
Theorem indexA_claim_records_body_email :
  let body : doc := {[ "donorName" := VStr "M"; "donorEmail" := VStr "mallory@x" ]} in
  let '(s', r) := run (IndexA.route_patch_donation_requests_id idp (Some "Bearer tok-x")
                         id0 body 5) store0 in
  r = Some (Send 200 (Taken 1))
  /\ (fun r' => prop r' "donorEmail") <$> request_by_id 10 s' = Some (VStr "mallory@x")
  /\ idp "tok-x" = Some "x@x".
Proof. vm_compute. repeat split. Qed.

(** C1 on overlapping claims.  Callers [x@x] and [y@x] claim the same
    pending request; each handler reads the request before the other has
    written.  In [part_000] and in the first program of [index.js] alike,
    both reads see [pending], both updates are applied, both callers are
    answered 200 and nobody is turned away; the donor recorded for the
    first caller is replaced by the second. *)
Theorem claim_race_two_winners :
  let sch := [First; Second; First; Second; First; Second] in
  let claimed (email : string) (now : Z) : doc :=
    claim_fields (VStr email) VNull now ∪ request0 in
  (let t1 := Running (Part0.route_patch_donation_requests_id idp (Some "Bearer tok-x") id0 ∅ 5) in
   let t2 := Running (Part0.route_patch_donation_requests_id idp (Some "Bearer tok-y") id0 ∅ 6) in
   interleave sch t1 t2 store0
   = (with_requests [claimed "y@x" 6%Z] store0,
      Finished (Some (Send 200 (Updated {| matchedCount := 1; modifiedCount := 1 |}))),
      Finished (Some (Send 200 (Updated {| matchedCount := 1; modifiedCount := 1 |}))))
   /\ (interleave [First; Second; First] t1 t2 store0).1.1
      = with_requests [claimed "x@x" 5%Z] store0)
  /\ (let body (email : string) : doc := {[ "donorEmail" := VStr email ]} in
      let t1 := Running (IndexA.route_patch_donation_requests_id idp (Some "Bearer tok-x")
                           id0 (body "x@x") 5) in
      let t2 := Running (IndexA.route_patch_donation_requests_id idp (Some "Bearer tok-y")
                           id0 (body "y@x") 6) in
      interleave sch t1 t2 store0
      = (with_requests [claimed "y@x" 6%Z] store0,
         Finished (Some (Send 200 (Taken 1))),
         Finished (Some (Send 200 (Taken 1))))).
Proof. vm_compute. repeat split. Qed.

(** The overlap is not particular to one store: in [part_000], whenever
    the addressed request is pending, two claims whose reads both precede
    the writes both succeed, and the donor left on the request is the
    second caller. *)
Lemma part0_claim_race (e1 e2 id : string) (b1 b2 : doc) (n1 n2 : Z) (oid : N)
  (r : doc) (s : db) :
  Js.ObjectId id = Some oid ->
  request_by_id oid s = Some r ->
  prop r "status" = VStr "pending" ->
  exists s' res1 res2,
    interleave [First; Second; First; Second; First; Second]
      (Running (Part0.patch_donation_requests_id e1 id b1 n1))
      (Running (Part0.patch_donation_requests_id e2 id b2 n2)) s
    = (s', Finished (Some (Send 200 (Updated res1))),
           Finished (Some (Send 200 (Updated res2))))
    /\ matchedCount res1 = 1 /\ matchedCount res2 = 1
    /\ (fun r' => prop r' "donorEmail") <$> request_by_id oid s' = Some (VStr e2).
Proof.
  intros Hid Hr Hst. unfold request_by_id in Hr.
  unfold Part0.patch_donation_requests_id. rewrite Hid.
  cbn [interleave step exec get].
  rewrite Hr. unfold strict_ne, strict_eq. rewrite Hst.
  rewrite bool_decide_eq_true_2 by done. cbn [negb interleave step exec get].
  fold (claim_fields (VStr e1) (prop b1 "donorName") n1).
  fold (claim_fields (VStr e2) (prop b2 "donorName") n2).
  pose proof (updateOne_by_id_found oid (claim_fields (VStr e1) (prop b1 "donorName") n1)
                r (requests s) eq_refl Hr) as H1.
  pose proof (updateOne_matched {[ "_id" := VOid oid ]}
                (claim_fields (VStr e1) (prop b1 "donorName") n1) (requests s)) as M1.
  rewrite Hr in M1.
  destruct (updateOne _ (claim_fields (VStr e1) _ n1) (requests s)) as [l1 res1].
  cbn [fst snd] in *. cbn [interleave step exec get put requests].
  pose proof (updateOne_by_id_found oid (claim_fields (VStr e2) (prop b2 "donorName") n2)
                _ l1 eq_refl H1) as H2.
  pose proof (updateOne_matched {[ "_id" := VOid oid ]}
                (claim_fields (VStr e2) (prop b2 "donorName") n2) l1) as M2.
  rewrite H1 in M2.
  destruct (updateOne _ (claim_fields (VStr e2) _ n2) l1) as [l2 res2].
  cbn [fst snd] in *. cbn [interleave step exec get put requests].
  eexists _, res1, res2. split; [reflexivity|]. split; [done|]. split; [done|].
  unfold request_by_id. cbn [requests]. rewrite H2. cbn [fmap option_fmap option_map].
  f_equal. by destruct (claim_fields_written (VStr e2) (prop b2 "donorName") n2
                          (claim_fields (VStr e1) (prop b1 "donorName") n1 ∪ r)).
Qed.

(** One step of a handler agrees with running it to completion. *)
Lemma run_step {R : Type} (p : prog R) (s : db) :
  match step (Running p) s with
  | (s1, Finished r) => run p s = (s1, r)
  | (s1, Running p') => run p s = run p' s1
  end.
Proof.
  destruct p as [r| |A o k]; simpl; try reflexivity.
  destruct (exec o s) as [[s' a]|]; reflexivity.
Qed.

(** The same two claims, the first completing before the second starts:
    one winner, one caller turned away. *)
Example claim_in_sequence_one_winner :
  let t1 := Running (Part0.route_patch_donation_requests_id idp (Some "Bearer tok-x") id0 ∅ 5) in
  let t2 := Running (Part0.route_patch_donation_requests_id idp (Some "Bearer tok-y") id0 ∅ 6) in
  interleave [First; First; First; Second; Second] t1 t2 store0
  = (with_requests [claim_fields (VStr "x@x") VNull 5 ∪ request0] store0,
     Finished (Some (Send 200 (Updated {| matchedCount := 1; modifiedCount := 1 |}))),
     Finished (Some (Send 400 (Message "Not available")))).
Proof. vm_compute. reflexivity. Qed.

(** ** Requester-driven status update ([PATCH /requests/status/:id]) *)

Lemma with_requests_same (s : db) : with_requests (requests s) s = s.
Proof. by destruct s. Qed.

Lemma put_requests (l : list doc) (s : db) :
  put requestCollection l s = with_requests l s.
Proof. reflexivity. Qed.

(** The filter of the second program of [index.js] holds of a document
    exactly when all three of id, requester and current status agree. *)
Lemma status_filter_spec (oid : N) (email : string) (d : doc) :
  matches (status_filter oid email) d = true
  <-> prop d "_id" = VOid oid
      /\ prop d "requesterEmail" = VStr email
      /\ prop d "status" = VStr "inprogress".
Proof.
  unfold status_filter. rewrite matches_spec. split.
  - intros H. repeat split; apply H; by simplify_map_eq.
  - intros (H1 & H2 & H3) k v Hk.
    destruct (decide (k = "_id")) as [->|]; [by simplify_map_eq|].
    destruct (decide (k = "requesterEmail")) as [->|]; [by simplify_map_eq|].
    destruct (decide (k = "status")) as [->|]; by simplify_map_eq.
Qed.

(** In the second program of [index.js]: a status outside
    {done, canceled} is refused with 400; otherwise the update is
    conditioned on id, requester (the caller, trimmed) and current status
    [inprogress]; when no request satisfies all three the answer reports
    zero matched documents and the whole store is unchanged; when one
    does, it alone takes the new status. *)
Lemma indexB_status_update_conditional (email id : string) (body : doc) (oid : N) (s : db) :
  Js.ObjectId id = Some oid ->
  let st := prop body "status" in
  let res := run (IndexB.patch_requests_status_id email id body) s in
  (st <> VStr "done" -> st <> VStr "canceled" ->
   res = (s, Some (Send 400 (Message "Invalid status"))))
  /\ (st = VStr "done" \/ st = VStr "canceled" ->
      (forall d, d ∈ requests s ->
         ~ (prop d "_id" = VOid oid /\ prop d "requesterEmail" = VStr (Js.trim email)
            /\ prop d "status" = VStr "inprogress")) ->
      res = (s, Some (Send 200 (Updated {| matchedCount := 0; modifiedCount := 0 |}))))
  /\ (st = VStr "done" \/ st = VStr "canceled" ->
      forall r, findOne (status_filter oid (Js.trim email)) (requests s) = Some r ->
      exists l1 l2,
        requests s = l1 ++ r :: l2
        /\ res = (with_requests (l1 ++ <["status" := st]> r :: l2) s,
                  Some (Send 200 (Updated {| matchedCount := 1; modifiedCount := 1 |})))).
Proof.
  intros Hid st res.
  assert (Hinc : IndexB.includes ["done"; "canceled"] st
                 = bool_decide (st = VStr "done" \/ st = VStr "canceled")).
  { unfold IndexB.includes, strict_eq. simpl.
    repeat case_bool_decide; simpl; try done; tauto. }
  assert (Hres : res = if bool_decide (st = VStr "done" \/ st = VStr "canceled") then
                   let '(l, r) := updateOne (status_filter oid (Js.trim email))
                                    {[ "status" := st ]} (requests s) in
                   (with_requests l s, Some (Send 200 (Updated r)))
                 else (s, Some (Send 400 (Message "Invalid status")))).
  { unfold res, IndexB.patch_requests_status_id. fold st. rewrite Hinc.
    case_bool_decide; simpl; [|done]. rewrite Hid. simpl.
    unfold status_filter. by destruct (updateOne _ _ (requests s)). }
  rewrite Hres. split; [|split].
  - intros H1 H2. rewrite bool_decide_eq_false_2; [done | tauto].
  - intros Hst Hnone. rewrite bool_decide_eq_true_2 by done.
    rewrite updateOne_None, with_requests_same; [done|].
    apply findOne_None. intros d Hd. apply not_true_is_false.
    rewrite status_filter_spec. auto.
  - intros Hst r Hr. rewrite bool_decide_eq_true_2 by done.
    destruct (updateOne_Some _ {[ "status" := st ]} _ _ Hr) as (l1 & l2 & Hreq & _ & ->).
    exists l1, l2. split; [done|].
    assert (Hu : ({[ "status" := st ]} : doc) ∪ r = <["status" := st]> r)
      by (by rewrite insert_union_singleton_l).
    rewrite Hu. destruct (decide (<["status" := st]> r = r)) as [Heq|]; [|done].
    exfalso. destruct (findOne_Some _ _ _ Hr) as [_ Hm].
    apply status_filter_spec in Hm as (_ & _ & Hs).
    assert (prop (<["status" := st]> r) "status" = st)
      by (unfold prop; by rewrite lookup_insert_eq).
    rewrite Heq in *. destruct Hst; congruence.
Qed.

(** C3 on [part_000]: the owner of a request that is still pending sets
    it to [done], and then to a status that is neither [done] nor
    [canceled]; both updates match and are applied, whatever the current
    status. *)
Theorem part0_status_update_ignores_current_status :
  let done_ : doc := {[ "status" := VStr "done" ]} in
  let odd : doc := {[ "status" := VStr "reopened" ]} in
  let '(s1, r1) := run (Part0.route_patch_requests_status_id idp (Some "Bearer tok-req")
                          id0 done_) store0 in
  let '(s2, r2) := run (Part0.route_patch_requests_status_id idp (Some "Bearer tok-req")
                          id0 odd) s1 in
  prop request0 "status" = VStr "pending"
  /\ r1 = Some (Send 200 (Updated {| matchedCount := 1; modifiedCount := 1 |}))
  /\ s1 = with_requests [<["status" := VStr "done"]> request0] store0
  /\ r2 = Some (Send 200 (Updated {| matchedCount := 1; modifiedCount := 1 |}))
  /\ s2 = with_requests [<["status" := VStr "reopened"]> request0] store0.
Proof. vm_compute. repeat split. Qed.

(** ** Creating a user ([POST /users]) *)

Section CreateUser.
Implicit Types (s : db) (body u : doc) (now : Z).

Lemma findOne_email_None (e : value) (l : list doc) :
  findOne {[ "email" := e ]} l = None -> e ∉ emails l.
Proof.
  rewrite findOne_None. intros H Hin. unfold emails in Hin.
  apply list_elem_of_fmap in Hin as (d & -> & Hd).
  specialize (H d Hd). rewrite matches_singleton in H.
  by apply bool_decide_eq_false in H.
Qed.

(** The two ways an insert is accepted: the document has no [_id] (or a
    [null] one) and receives the fresh one, or it brings an [_id] no stored
    document has. *)
Lemma insertOne_cases (d : doc) (l l' : list doc) (id : value) :
  insertOne d l = Some (l', id) ->
  (default VNull (d !! "_id") = VNull
   /\ l' = l ++ [<["_id" := VOid (fresh_oid l)]> d] /\ id = VOid (fresh_oid l))
  \/ (d !! "_id" = Some id /\ id <> VNull
      /\ existsb (fun x => bool_decide (x !! "_id" = Some id)) l = false
      /\ l' = l ++ [d]).
Proof.
  unfold insertOne. destruct (d !! "_id") as [i|] eqn:Hi.
  - destruct i; try (intros [= <- <-]; by left);
      (destruct (existsb _ l) eqn:Hex; [discriminate|]; intros [= <- <-]; by right).
  - intros [= <- <-]. by left.
Qed.

Lemma insertOne_appends (d : doc) (l l' : list doc) (id : value) :
  insertOne d l = Some (l', id) ->
  exists d', l' = l ++ [d'] /\ forall k, k <> "_id" -> d' !! k = d !! k.
Proof.
  intros H. destruct (insertOne_cases _ _ _ _ H) as [(_ & -> & _)|(_ & _ & _ & ->)].
  - eexists. split; [done|]. intros k Hk. by rewrite lookup_insert_ne.
  - by exists d.
Qed.

(** The document [POST /users] is about to insert, in the second program
    of [index.js] and in [part_000]: the body with role, status and
    creation time overwritten. *)
Lemma new_user_fields body now :
  let u1 := <["status" := VStr "active"]>
              (<["role" := VStr "donor"]> (<["createdAt" := VDate now]> body)) in
  let u2 := <["createdAt" := VDate now]>
              (<["status" := VStr "active"]> (<["role" := VStr "donor"]> body)) in
  u1 = u2 /\ u2 !! "role" = Some (VStr "donor") /\ u2 !! "status" = Some (VStr "active")
  /\ u2 !! "email" = body !! "email".
Proof.
  simpl. split; [|by simplify_map_eq].
  apply map_eq. intros k.
  destruct (decide (k = "status")) as [->|]; [by simplify_map_eq|].
  destruct (decide (k = "role")) as [->|]; [by simplify_map_eq|].
  destruct (decide (k = "createdAt")) as [->|]; by simplify_map_eq.
Qed.

Lemma post_users_run (v : variant) body now s :
  v <> index_js_1 ->
  run (post_users v body now) s =
    if user_exists (prop body "email") s
    then (s, Some (Send 200 (Message "User already exists")))
    else
      match insertOne (<["createdAt" := VDate now]>
                         (<["status" := VStr "active"]> (<["role" := VStr "donor"]> body)))
                      (users s) with
      | Some (l, id) => (put userCollection l s, Some (Send 200 (Inserted id)))
      | None => (s, None)
      end.
Proof.
  intros Hv. unfold user_exists.
  destruct v; [done| |]; simpl.
  - unfold IndexB.post_users. simpl.
    assert (He : prop (<["status" := VStr "active"]>
                   (<["role" := VStr "donor"]> (<["createdAt" := VDate now]> body))) "email"
                 = prop body "email") by (unfold prop; by simplify_map_eq).
    rewrite He. destruct (findOne _ (users s)); simpl; [done|].
    destruct (new_user_fields body now) as [-> _].
    by destruct (insertOne _ (users s)) as [[l i]|].
  - unfold Part0.post_users. simpl.
    destruct (findOne _ (users s)); simpl; [done|].
    by destruct (insertOne _ (users s)) as [[l i]|].
Qed.

End CreateUser.

(** C5 as stated fails on the reply: in [part_000], creating a user whose
    e-mail is already stored inserts nothing, but the answer is the
    message "User already exists", not the stored record. *)
Lemma post_users_duplicate_reply_is_message :
  let body : doc := {[ "email" := VStr "x@x"; "name" := VStr "X" ]} in
  findOne {[ "email" := VStr "x@x" ]} (users store0) = Some (donor "x@x")
  /\ run (Part0.post_users body 9) store0
     = (store0, Some (Send 200 (Message "User already exists")))
  /\ (run (Part0.post_users body 9) store0).2 <> Some (Send 200 (Document (donor "x@x"))).
Proof. vm_compute. repeat split. discriminate. Qed.

Lemma insertOne_refused (d : doc) (l : list doc) :
  insertOne d l = None <-> id_in_use (d !! "_id") l = true.
Proof.
  unfold insertOne, id_in_use. destruct (d !! "_id") as [i|]; [|done].
  destruct i; try done; by destruct (existsb _ l).
Qed.

(** C5, amended.  In the second program of [index.js] and in [part_000],
    create-user touches only the user collection.  When a user with the
    body's e-mail is already stored it changes nothing and answers the
    message "User already exists".  Otherwise it appends one user whose
    role is donor, whose status is active and whose e-mail is the body's;
    the one exception is a body carrying an [_id] that a stored user
    already has, whose insert is refused with nothing changed.  Hence
    stored e-mails that were pairwise distinct before the call are
    pairwise distinct after it. *)
Theorem post_users_creates_active_donor_once (v : variant) (body : doc) (now : Z) (s : db) :
  v <> index_js_1 ->
  let '(s', r) := run (post_users v body now) s in
  requests s' = requests s /\ payments s' = payments s
  /\ (if user_exists (prop body "email") s
      then s' = s /\ r = Some (Send 200 (Message "User already exists"))
      else if id_in_use (body !! "_id") (users s)
      then s' = s /\ r = None
      else exists u id, users s' = users s ++ [u] /\ r = Some (Send 200 (Inserted id))
             /\ prop u "role" = VStr "donor" /\ prop u "status" = VStr "active"
             /\ prop u "email" = prop body "email")
  /\ (NoDup (emails (users s)) -> NoDup (emails (users s'))).
Proof.
  intros Hv. rewrite (post_users_run v body now s Hv). unfold user_exists.
  destruct (findOne _ (users s)) eqn:Hfind; [done|].
  set (user := <["createdAt" := VDate now]>
                 (<["status" := VStr "active"]> (<["role" := VStr "donor"]> body))).
  assert (Hid : user !! "_id" = body !! "_id") by (unfold user; by simplify_map_eq).
  pose proof (insertOne_refused user (users s)) as Href. rewrite Hid in Href.
  destruct (insertOne user (users s)) as [[l id]|] eqn:Hins.
  2: { rewrite (proj1 Href eq_refl). repeat split; auto. }
  destruct (id_in_use (body !! "_id") (users s));
    [destruct Href as [_ Href]; by specialize (Href eq_refl)|].
  destruct (insertOne_appends _ _ _ _ Hins) as (u & -> & Hu).
  destruct (new_user_fields body now) as (_ & Hrole & Hstatus & Hemail).
  fold user in Hrole, Hstatus, Hemail.
  assert (Hue : prop u "email" = prop body "email")
    by (unfold prop; by rewrite Hu, Hemail).
  simpl. repeat split.
  - exists u, id. unfold prop in *. rewrite !Hu by done.
    by rewrite Hrole, Hstatus, Hemail.
  - intros Hnd. unfold emails. rewrite map_app. simpl.
    apply NoDup_app. split; [exact Hnd|]. split; [|apply NoDup_singleton].
    intros e He Hin. apply list_elem_of_singleton in Hin. subst e.
    rewrite Hue in He. by apply findOne_email_None in Hfind.
Qed.

Lemma post_users_creates_active_donor_once_witness :
  let body : doc := {[ "email" := VStr "new@x"; "role" := VStr "admin" ]} in
  part_000 <> index_js_1
  /\ NoDup (emails (users store0))
  /\ NoDup (emails (users (run (post_users part_000 body 9) store0).1))
  /\ column "role" (users (run (post_users part_000 body 9) store0).1)
     = column "role" (users store0) ++ [Some (VStr "donor")].
Proof.
  intros body.
  assert (H : part_000 <> index_js_1) by discriminate.
  assert (Hnd : NoDup (emails (users store0))).
  { apply (bool_decide_unpack _). vm_compute. exact I. }
  split; [exact H|]. split; [exact Hnd|]. split; [|reflexivity].
  exact (proj2 (proj2 (proj2
    (post_users_creates_active_donor_once part_000 body 9 store0 H))) Hnd).
Defined.

(** The first program of [index.js] does otherwise: every created user is
    stored as admin, and a second create for the same e-mail inserts a
    second record. *)
Lemma indexA_post_users_admin_twice :
  let body : doc := {[ "email" := VStr "new@x" ]} in
  let '(s1, r1) := run (IndexA.post_users body 9) store0 in
  let '(s2, r2) := run (IndexA.post_users body 10) s1 in
  emails (users s2) = emails (users store0) ++ [VStr "new@x"; VStr "new@x"]
  /\ map (fun d => prop d "role") (users s2)
     = map (fun d => prop d "role") (users store0) ++ [VStr "admin"; VStr "admin"].
Proof. vm_compute. repeat split. Qed.

(** ** Editing one's profile ([PATCH /profile]) *)

Lemma updateOne_keeps_column (q : query) (u : doc) (k : string) (l : list doc) :
  u !! k = None -> column k (updateOne q u l).1 = column k l.
Proof.
  intros Hu. unfold column. induction l as [|d l IH]; simpl; [done|].
  destruct (matches q d); simpl.
  - f_equal. by rewrite lookup_union_r.
  - destruct (updateOne q u l) as [l' r]. simpl in *. by rewrite IH.
Qed.

(** Profile-edit, in all three programs, never changes the e-mail or the
    [_id] of any user, and touches no other collection. *)
Lemma patch_profile_keeps_identity (v : variant) (email : string) (body : doc) (s : db) :
  let s' := (run (patch_profile v email body) s).1 in
  column "email" (users s') = column "email" (users s)
  /\ column "_id" (users s') = column "_id" (users s)
  /\ requests s' = requests s /\ payments s' = payments s.
Proof.
  assert (He : delete "email" (delete "_id" body) !! "email" = None)
    by apply lookup_delete_eq.
  assert (Hi : delete "email" (delete "_id" body) !! "_id" = None)
    by (rewrite lookup_delete_ne by done; apply lookup_delete_eq).
  pose proof (updateOne_keeps_column {[ "email" := VStr email ]} _ "email" (users s) He).
  pose proof (updateOne_keeps_column {[ "email" := VStr email ]} _ "_id" (users s) Hi).
  destruct v; simpl;
    unfold IndexA.patch_profile, IndexB.patch_profile, Part0.patch_profile; simpl;
    destruct (updateOne _ _ (users s)); done.
Qed.

(** Any other field of the body is written as given, [role] and
    [status] included: after the edit the caller's user document carries
    the body's value for it. *)
Lemma patch_profile_writes_other_fields (v : variant) (email : string) (body u : doc)
  (k : string) (x : value) (s : db) :
  findOne {[ "email" := VStr email ]} (users s) = Some u ->
  k <> "_id" -> k <> "email" -> body !! k = Some x ->
  exists u', findOne {[ "email" := VStr email ]}
               (users (run (patch_profile v email body) s).1) = Some u'
             /\ u' !! k = Some x.
Proof.
  intros Hu Hid Hem Hk.
  assert (Hd : delete "email" (delete "_id" body) !! k = Some x)
    by (by rewrite !lookup_delete_ne).
  assert (Hf := updateOne_found {[ "email" := VStr email ]}
                  (delete "email" (delete "_id" body)) u (users s)).
  exists (delete "email" (delete "_id" body) ∪ u). split.
  - rewrite <- Hf; [|intros k' [? Hk']; apply lookup_singleton_Some in Hk' as [<- _];
                      apply lookup_delete_eq | done].
    destruct v; simpl;
      unfold IndexA.patch_profile, IndexB.patch_profile, Part0.patch_profile; simpl;
      by destruct (updateOne _ _ (users s)).
  - by apply lookup_union_Some_l.
Qed.

(** C6 on role and status: donor [x@x] edits their profile with a body
    that names a role and a status.  In [part_000] and in the first
    program of [index.js] the stored role becomes [admin] and the status
    [blocked] is lifted; the e-mail in the body is ignored.  In
    [part_000] the caller then passes the admin guard. *)
Theorem patch_profile_overwrites_role_and_status :
  let blocked_x : doc := <["status" := VStr "blocked"]> (donor "x@x") in
  let s := {| users := [donor "req@x"; blocked_x]; requests := []; payments := [] |} in
  let body : doc := {[ "email" := VStr "evil@x"; "role" := VStr "admin";
                       "status" := VStr "active" ]} in
  let after : doc := {[ "email" := VStr "x@x"; "role" := VStr "admin";
                        "status" := VStr "active" ]} in
  let expected := ({| users := [donor "req@x"; after]; requests := []; payments := [] |},
                   Some (Send 200 (Updated {| matchedCount := 1; modifiedCount := 1 |}))) in
  run (Part0.route_patch_profile idp (Some "Bearer tok-x") body) s = expected
  /\ run (IndexA.route_patch_profile idp (Some "Bearer tok-x") body) s = expected
  /\ has_role s "x@x" "admin" = false
  /\ has_role expected.1 "x@x" "admin" = true
  /\ run (Part0.route_get_users idp (Some "Bearer tok-x")) expected.1
     = (expected.1, Some (Send 200 (Documents [donor "req@x"; after]))).
Proof. vm_compute. repeat split. Qed.

(** ** Paged lists ([GET /my-requests]) *)

Section Sorting.

Lemma value_leb_total (a b : value) : value_leb a b = false -> value_leb b a = true.
Proof.
  destruct a, b; simpl; try done; try (intros H; lia).
  - by destruct b, b0.
  - intros H. destruct (String.leb_total s s0) as [H'|H']; congruence.
  - intros H. apply N.leb_le. apply N.leb_gt in H. lia.
Qed.

Lemma insert_desc_perm (d : doc) (l : list doc) : Permutation (insert_desc d l) (d :: l).
Proof.
  induction l as [|x l IH]; simpl; [done|].
  destruct (value_leb _ _); [done|]. rewrite IH. apply perm_swap.
Qed.

Lemma sort_desc_perm (l : list doc) : Permutation (sort_desc l) l.
Proof.
  induction l as [|d l IH]; simpl; [done|].
  rewrite insert_desc_perm. by constructor.
Qed.

Lemma insert_desc_HdRel (x d : doc) (l : list doc) :
  newer_first x d -> HdRel newer_first x l -> HdRel newer_first x (insert_desc d l).
Proof.
  intros Hxd Hl. destruct l as [|y l]; simpl; [by constructor|].
  destruct (value_leb _ _); constructor; [done|]. by inversion Hl.
Qed.

Lemma insert_desc_sorted (d : doc) (l : list doc) :
  Sorted newer_first l -> Sorted newer_first (insert_desc d l).
Proof.
  induction 1 as [|x l Hs IH Hh]; simpl; [by repeat constructor|].
  destruct (value_leb (createdAt x) (createdAt d)) eqn:Hle.
  - constructor; [by constructor|]. by constructor.
  - constructor; [exact IH|]. apply insert_desc_HdRel; [|exact Hh].
    by apply value_leb_total.
Qed.

Lemma sort_desc_sorted (l : list doc) : Sorted newer_first (sort_desc l).
Proof.
  induction l as [|d l IH]; simpl; [constructor|]. by apply insert_desc_sorted.
Qed.

End Sorting.

(** In [part_000] and in the second program of [index.js], for a page
    number and a page size of at least 1: the page is the caller's
    requests, newest first, without the first [size * (page - 1)] and cut
    to [size]; the total is the number of the caller's requests, whatever
    the page; nothing is written. *)
Lemma my_requests_page (email : string) (query_page query_size : option Z) (s : db) :
  let window page size (l : list doc) :=
    take (Z.to_nat size) (drop (Z.to_nat (size * (page - 1))) (sort_desc l)) in
  (let page := Js.number_or query_page 1 in
   let size := Js.number_or query_size 10 in
   (1 <= page)%Z -> (1 <= size)%Z ->
   run (Part0.get_my_requests email query_page query_size) s
   = (s, Some (Send 200 (Page (window page size (requests_of email s))
                              (length (requests_of email s))))))
  /\ (let page := Js.number_or query_page 1 in
      let size := Js.number_or query_size 3 in
      (1 <= page)%Z -> (1 <= size)%Z ->
      run (IndexB.get_my_requests email query_size query_page) s
      = (s, Some (Send 200 (Page (window page size (requests_of (Js.trim email) s))
                                 (length (requests_of (Js.trim email) s)))))).
Proof.
  split; intros page size Hp Hs;
    unfold Part0.get_my_requests, IndexB.get_my_requests; fold page; fold size;
    simpl; unfold find, Mongo.window; simpl;
    (replace (size * (page - 1) <? 0)%Z with false by (symmetry; apply Z.ltb_ge; nia));
    (replace (size =? 0)%Z with false by (symmetry; apply Z.eqb_neq; lia));
    simpl; replace (Z.abs_nat size) with (Z.to_nat size) by lia; reflexivity.
Qed.

(** The window of such a page: sorted newest first, and of the size that
    is left after the skipped entries, at most [size]. *)
Lemma page_window_shape (size skip : nat) (l : list doc) :
  Sorted newer_first (take size (drop skip (sort_desc l)))
  /\ length (take size (drop skip (sort_desc l))) = Nat.min size (length l - skip)
  /\ (forall d, d ∈ take size (drop skip (sort_desc l)) -> d ∈ l).
Proof.
  split; [|split].
  - assert (Hdrop : forall n (m : list doc), Sorted newer_first m ->
                      Sorted newer_first (drop n m)).
    { induction n as [|n IH]; intros m Hm; [by rewrite drop_0|].
      destruct m as [|x m]; [done|]. simpl. apply IH. by inversion Hm. }
    assert (Htake : forall n (m : list doc), Sorted newer_first m ->
                      Sorted newer_first (take n m)).
    { induction n as [|n IH]; intros m Hm; [constructor|].
      destruct m as [|x m]; [constructor|]. simpl. inversion Hm as [|? ? Hm' Hh]; subst.
      constructor; [by apply IH|].
      destruct m as [|y m]; [destruct n; constructor|]. destruct n; [constructor|].
      simpl. constructor. by inversion Hh. }
    apply Htake, Hdrop, sort_desc_sorted.
  - rewrite length_take, length_drop, (Permutation_length (sort_desc_perm l)). lia.
  - intros d Hd. apply subseteq_take, subseteq_drop in Hd.
    by rewrite sort_desc_perm in Hd.
Qed.

(** C7 on the first program of [index.js]: requester [req@x] has two
    requests, the older one stored first.  The page lists them in
    collection order, oldest first; [part_000] on the same store lists
    the newest first.  Both report the total 2. *)
Theorem indexA_my_requests_not_sorted :
  let older : doc := {[ "_id" := VOid 1; "requesterEmail" := VStr "req@x";
                        "createdAt" := VDate 100 ]} in
  let newer : doc := {[ "_id" := VOid 2; "requesterEmail" := VStr "req@x";
                        "createdAt" := VDate 200 ]} in
  let other : doc := {[ "_id" := VOid 3; "requesterEmail" := VStr "x@x";
                        "createdAt" := VDate 300 ]} in
  let s := with_requests [older; other; newer] store0 in
  run (IndexA.route_get_my_requests idp (Some "Bearer tok-req") None None) s
  = (s, Some (Send 200 (Page [older; newer] 2)))
  /\ run (Part0.route_get_my_requests idp (Some "Bearer tok-req") None None) s
     = (s, Some (Send 200 (Page [newer; older] 2)))
  /\ ~ newer_first older newer.
Proof. vm_compute. repeat split. discriminate. Qed.

(** ** Public search ([GET /search-requests]) *)

Lemma matches_insert_fresh (k : string) (v : value) (q : query) (d : doc) :
  q !! k = None ->
  matches (<[k := v]> q) d = bool_decide (prop d k = v) && matches q d.
Proof.
  intros Hk. apply eq_true_iff_eq.
  rewrite andb_true_iff, bool_decide_eq_true, !matches_spec. split.
  - intros H. split; [apply H, lookup_insert_eq|].
    intros k' v' Hk'. apply H. rewrite lookup_insert_ne; [done|congruence].
  - intros [H1 H2] k' v' Hk'. apply lookup_insert_Some in Hk' as [[<- <-]|[_ Hk']]; auto.
Qed.

Lemma assign_if_lookup_ne (k k' : string) (x : option string) (f : string -> string)
  (q : query) :
  k <> k' -> assign_if k x f q !! k' = q !! k'.
Proof.
  intros Hne. unfold assign_if. destruct x as [s|]; [|done].
  destruct (Js.truthy _); [|done]. by rewrite lookup_insert_ne.
Qed.

Lemma matches_assign_if (k : string) (x : option string) (f : string -> string)
  (q : query) (d : doc) :
  q !! k = None ->
  matches (assign_if k x f q) d = field_is k x f d && matches q d.
Proof.
  intros Hk. unfold assign_if, field_is. destruct x as [s|]; [|done].
  destruct (Js.truthy _); [|done]. by apply matches_insert_fresh.
Qed.

(** The filter each program builds, as a condition on a document. *)
Lemma search_query_matches (f : string -> string) (bloodGroup district upazila : option string)
  (d : doc) :
  matches (assign_if "upazila" upazila id
             (assign_if "district" district id
                (assign_if "bloodGroup" bloodGroup f ∅))) d
  = field_is "bloodGroup" bloodGroup f d && field_is "district" district id d
    && field_is "upazila" upazila id d.
Proof.
  rewrite matches_assign_if
    by (rewrite !assign_if_lookup_ne by done; apply lookup_empty).
  rewrite matches_assign_if
    by (rewrite !assign_if_lookup_ne by done; apply lookup_empty).
  rewrite matches_assign_if by apply lookup_empty.
  rewrite matches_empty.
  destruct (field_is "bloodGroup" _ _ _), (field_is "district" _ _ _),
    (field_is "upazila" _ _ _); reflexivity.
Qed.

Lemma field_is_trimmed (k : string) (x : option string) (d : doc) :
  is_trimmed x -> field_is k x Js.trim d = field_is k x id d.
Proof.
  intros Hx. unfold field_is. destruct x as [s|]; [|done]. by rewrite (Hx s eq_refl).
Qed.

(** C9 as stated fails: a district given with surrounding white space is
    compared as given.  The store holds one request for district [Dhaka];
    searching for [" Dhaka "] finds nothing in [part_000] and in the first
    program of [index.js], where a comparison after trimming would find
    the request. *)
Lemma search_district_not_trimmed :
  let r : doc := {[ "bloodGroup" := VStr "A+"; "district" := VStr "Dhaka";
                    "upazila" := VStr "Savar" ]} in
  let s := with_requests [r] store0 in
  search_as_specified None (Some " Dhaka ") None (requests s) = [r]
  /\ run (Part0.get_search_requests None (Some " Dhaka ") None) s
     = (s, Some (Send 200 (Documents [])))
  /\ run (IndexA.get_search_requests None (Some " Dhaka ") None) s
     = (s, Some (Send 200 (Documents [])))
  /\ (run (Part0.get_search_requests None (Some " Dhaka ") None) s).2
     <> Some (Send 200 (Documents (search_as_specified None (Some " Dhaka ") None
                                    (requests s)))).
Proof. vm_compute. repeat split. discriminate. Qed.

(** C9, amended.  For parameters each given once as a string or not at
    all, the search answers exactly the requests that equal every given
    parameter on its field; a parameter that is absent or empty
    constrains nothing; district and upazila are compared as given,
    without trimming; the store is not changed.  In both programs of
    [index.js] the blood group is compared after trimming, surrounding
    white space of any kind included; for [part_000] the statement covers
    a blood group given without surrounding white space. *)
Theorem search_trims_blood_group_only (v : variant)
  (bloodGroup district upazila : option string) (s : db) :
  (v = part_000 -> is_trimmed bloodGroup) ->
  run (get_search_requests v bloodGroup district upazila) s
  = (s, Some (Send 200 (Documents
       (search_by_fields bloodGroup district upazila (requests s))))).
Proof.
  intros Hbg.
  assert (Hf : forall f, (forall d, field_is "bloodGroup" bloodGroup f d
                                    = field_is "bloodGroup" bloodGroup Js.trim d) ->
    List.filter (matches (assign_if "upazila" upazila id
                   (assign_if "district" district id
                      (assign_if "bloodGroup" bloodGroup f ∅)))) (requests s)
    = search_by_fields bloodGroup district upazila (requests s)).
  { intros f Hf. unfold search_by_fields. apply filter_ext. intros d.
    by rewrite search_query_matches, Hf. }
  destruct v; simpl;
    unfold IndexA.get_search_requests, IndexB.get_search_requests,
      Part0.get_search_requests; simpl; unfold find; simpl; unfold Mongo.window; simpl;
    rewrite drop_0, Hf; try done.
  intros d. symmetry. by apply field_is_trimmed, Hbg.
Qed.

Lemma search_trims_blood_group_only_witness :
  let r1 : doc := {[ "bloodGroup" := VStr "A+"; "district" := VStr "Dhaka" ]} in
  let r2 : doc := {[ "bloodGroup" := VStr "B+"; "district" := VStr "Dhaka" ]} in
  let s := with_requests [r1; r2] store0 in
  (part_000 = part_000 -> is_trimmed (Some "A+"))
  /\ run (get_search_requests part_000 (Some "A+") (Some "Dhaka") (Some "")) s
     = (s, Some (Send 200 (Documents [r1]))).
Proof.
  intros r1 r2 s.
  assert (H : part_000 = part_000 -> is_trimmed (Some "A+"))
    by (intros _ x [= <-]; reflexivity).
  split; [exact H|].
  exact (search_trims_blood_group_only part_000 (Some "A+") (Some "Dhaka") (Some "") s H).
Defined.

(** In the first program of [index.js] a blood group followed by a
    no-break space (U+00A0) and a space finds the request, while a
    district followed by a space does not. *)
Example search_trims_no_break_space :
  let nbsp := String (ascii_of_N 194) (String (ascii_of_N 160) EmptyString) in
  let r1 : doc := {[ "bloodGroup" := VStr "A+"; "district" := VStr "Dhaka" ]} in
  let s := with_requests [r1] store0 in
  run (IndexA.get_search_requests (Some (String.append "A+" (String.append nbsp " ")))
         None None) s
  = (s, Some (Send 200 (Documents [r1])))
  /\ run (IndexA.get_search_requests (Some "A+") (Some "Dhaka ") None) s
     = (s, Some (Send 200 (Documents []))).
Proof. split; vm_compute; reflexivity. Qed.

(** * The rest of the application *)

(** ** Authentication middleware *)

(** In the three programs alike: a request without an [Authorization]
    header, with a header that has no second space-separated part, or
    with a token the identity provider rejects is answered 401 with the
    store untouched and the handler never started; any other request
    runs the handler with the verified e-mail. *)
Theorem verifyFBToken_gate (verifyIdToken : string -> option string)
  (authorization : option string) (next : string -> prog reply) (s : db) :
  match caller verifyIdToken authorization with
  | Some email =>
      run (Part0.verifyFBToken verifyIdToken authorization next) s = run (next email) s
      /\ run (IndexA.verifyFBToken verifyIdToken authorization next) s = run (next email) s
      /\ run (IndexB.verifyFBToken verifyIdToken authorization next) s = run (next email) s
  | None =>
      run (Part0.verifyFBToken verifyIdToken authorization next) s
      = (s, Some (Send 401 (Message "Unauthorized")))
      /\ run (IndexA.verifyFBToken verifyIdToken authorization next) s
         = (s, Some (Send 401 (Message "Unauthorized access")))
      /\ run (IndexB.verifyFBToken verifyIdToken authorization next) s
         = (s, Some (Send 401 (Message "Unauthorized")))
  end.
Proof.
  unfold caller, Part0.verifyFBToken, IndexA.verifyFBToken, IndexB.verifyFBToken.
  destruct authorization as [h|]; simpl; [|done].
  destruct (Js.bearer_token h ≫= verifyIdToken); done.
Qed.

(** ** Read routes *)

Lemma reads_only_run {R : Type} (p : prog R) (s : db) :
  reads_only p -> (run p s).1 = s.
Proof.
  revert s. induction p as [r| |A o k IH]; intros s Hp; [done|done|].
  destruct Hp as [Ho Hk]. simpl.
  destruct o; try discriminate; simpl.
  - by apply IH.
  - destruct (find q cur (get c s)); simpl; [by apply IH | done].
  - by apply IH.
  - by apply IH.
Qed.

Lemma reads_only_step {R : Type} (p : prog R) (s : db) :
  reads_only p -> (step (Running p) s).1 = s.
Proof.
  destruct p as [r| |A o k]; [done|done|]. intros [Ho _]. simpl.
  destruct o; try discriminate; simpl; try done.
  by destruct (find q cur (get c s)).
Qed.

Section ReadRoutes.
Context (verifyIdToken : string -> option string).

Lemma verifyFBToken_reads_only (a : option string) (next : string -> prog reply) :
  (forall e, reads_only (next e)) -> reads_only (Part0.verifyFBToken verifyIdToken a next).
Proof.
  intros H. unfold Part0.verifyFBToken. destruct a as [h|]; [|done].
  by destruct (Js.bearer_token h ≫= verifyIdToken).
Qed.

Lemma guards_read_only (e : string) (next : prog reply) :
  reads_only next ->
  reads_only (Part0.verifyAdmin e next) /\ reads_only (Part0.verifyVolunteer e next)
  /\ reads_only (Part0.verifyDonor e next).
Proof.
  intros H. repeat split; try done; intros [u|]; simpl; try done;
    repeat (destruct (strict_ne _ _) || destruct (strict_eq _ _)); done.
Qed.

(** No [GET] route of [part_000] other than the payment finalisation
    ever writes: whoever calls, with whatever parameters, the store after
    the call is the store before it. *)
Theorem part0_queries_write_nothing (c : Part0.call) (s : db) :
  is_query c = true -> (run (Part0.serve verifyIdToken c) s).1 = s.
Proof.
  intros Hc. apply reads_only_run.
  destruct c; try discriminate; simpl;
    unfold Part0.route_get_users, Part0.route_get_my_requests;
    try (apply verifyFBToken_reads_only; intros e);
    try (apply guards_read_only);
    try (by repeat split).
  - unfold Part0.get_profile. split; [done|]. by intros [u|].
  - unfold Part0.get_donation_requests_id. destruct (Js.ObjectId id); [|done].
    split; [done|]. by intros [u|].
Qed.

End ReadRoutes.

Lemma part0_queries_write_nothing_witness :
  is_query (Part0.GET_my_requests (Some "Bearer tok-req") (Some 2%Z) None) = true
  /\ (run (Part0.serve idp (Part0.GET_my_requests (Some "Bearer tok-req") (Some 2%Z) None))
          store0).1 = store0.
Proof.
  split; [reflexivity|].
  exact (part0_queries_write_nothing idp
           (Part0.GET_my_requests (Some "Bearer tok-req") (Some 2%Z) None) store0 eq_refl).
Defined.

(** ** Keys of the store *)

Section Keys.
Implicit Types (q : query) (d u : doc) (l : list doc) (k : string).

Lemma emails_column l : emails l = map (default VNull) (column "email" l).
Proof. unfold emails, column, prop. by rewrite map_map. Qed.

Lemma deleteOne_sublist q k l : column k (deleteOne q l).1 `sublist_of` column k l.
Proof.
  unfold column. induction l as [|d l IH]; simpl; [done|].
  destruct (matches q d); simpl.
  - by apply sublist_cons.
  - destruct (deleteOne q l) as [l' n]. simpl in *. by apply sublist_skip.
Qed.

Lemma deleteOne_emails_sublist q l : emails (deleteOne q l).1 `sublist_of` emails l.
Proof.
  unfold emails. induction l as [|d l IH]; simpl; [done|].
  destruct (matches q d); simpl.
  - by apply sublist_cons.
  - destruct (deleteOne q l) as [l' n]. simpl in *. by apply sublist_skip.
Qed.

Lemma fresh_oid_unused l d : d ∈ l -> d !! "_id" <> Some (VOid (fresh_oid l)).
Proof.
  intros Hd Heq.
  assert (Hle : forall x, x ∈ l -> (oid_of x <= foldr N.max 0%N (map oid_of l))%N).
  { clear. induction l as [|y l IH]; intros x Hx; [by apply elem_of_nil in Hx|].
    simpl. apply elem_of_cons in Hx as [->|Hx]; [lia|]. specialize (IH x Hx). lia. }
  specialize (Hle d Hd). unfold oid_of in Hle at 1. rewrite Heq in Hle.
  unfold fresh_oid in Hle. lia.
Qed.

Lemma insertOne_keeps_ids d l l' id :
  insertOne d l = Some (l', id) -> NoDup (column "_id" l) -> NoDup (column "_id" l').
Proof.
  unfold insertOne. intros H Hnd.
  assert (Hsnoc : forall x : doc, (forall y, y ∈ l -> y !! "_id" <> x !! "_id") ->
                    NoDup (column "_id" (l ++ [x]))).
  { intros x Hx. unfold column. rewrite map_app. apply NoDup_app.
    split; [exact Hnd|]. split; [|apply NoDup_singleton].
    intros i Hi Hin. apply list_elem_of_singleton in Hin. subst i.
    apply list_elem_of_fmap in Hi as (y & Hy & Hyl). by apply (Hx y Hyl). }
  fold (insertOne d l) in H.
  destruct (insertOne_cases _ _ _ _ H) as [(_ & -> & _)|(Hi & _ & Hex & ->)].
  - apply Hsnoc. intros y Hy.
    rewrite lookup_insert_eq. by apply fresh_oid_unused.
  - apply Hsnoc. intros y Hy Heq. rewrite Hi in Heq.
    assert (existsb (fun x => bool_decide (x !! "_id" = Some id)) l = true); [|congruence].
    apply existsb_exists. exists y. split; [by apply list_elem_of_In|].
    by apply bool_decide_eq_true.
Qed.

Lemma insertOne_keeps_column d l l' id k :
  insertOne d l = Some (l', id) -> k <> "_id" -> column k l' = column k l ++ [d !! k].
Proof.
  intros H Hk. destruct (insertOne_appends _ _ _ _ H) as (d' & -> & Hd').
  unfold column. rewrite map_app. simpl. by rewrite Hd'.
Qed.

Lemma well_keyed_put_requests l s :
  well_keyed s -> NoDup (column "_id" l) -> well_keyed (put requestCollection l s).
Proof. intros [] H. by split. Qed.

Lemma well_keyed_put_users l s :
  well_keyed s -> NoDup (emails l) -> NoDup (column "_id" l) ->
  well_keyed (put userCollection l s).
Proof. intros [] H1 H2. by split. Qed.

(** One awaited call that keeps the keys keeps the store well keyed. *)
Lemma exec_keeps_keys {A : Type} (o : op A) (s s' : db) (a : A) :
  keeps_keys o -> exec o s = Some (s', a) -> well_keyed s -> well_keyed s'.
Proof.
  intros Ho He Hs. destruct o; simpl in *.
  - by injection He as <- _.
  - destruct (find q cur (get c s)); simpl in He; [|done]. by injection He as <- _.
  - by injection He as <- _.
  - destruct c; [done|]. simpl in He.
    destruct (insertOne d (requests s)) as [[l id]|] eqn:Hi; simpl in He; [|done].
    injection He as <- _.
    apply well_keyed_put_requests; [done|].
    apply (insertOne_keeps_ids _ _ _ _ Hi), Hs.
  - destruct Ho as [Hid Hem].
    pose proof (updateOne_keeps_column q s0 "_id" (get c s) Hid) as Hci.
    pose proof (updateOne_keeps_column q s0 "email" (get c s) Hem) as Hce.
    destruct (updateOne q s0 (get c s)) as [l r]. simpl in *. injection He as <- _.
    destruct c; simpl in *.
    + apply well_keyed_put_users; [done| |].
      * rewrite emails_column, Hce, <- emails_column. apply Hs.
      * rewrite Hci. apply Hs.
    + apply well_keyed_put_requests; [done|]. rewrite Hci. apply Hs.
  - pose proof (deleteOne_sublist q "_id" (get c s)) as Hci.
    pose proof (deleteOne_emails_sublist q (get c s)) as Hce.
    destruct (deleteOne q (get c s)) as [l n]. simpl in *. injection He as <- _.
    destruct c; simpl in *.
    + apply well_keyed_put_users; [done| |]; eapply sublist_NoDup; eauto; apply Hs.
    + apply well_keyed_put_requests; [done|]. eapply sublist_NoDup; eauto; apply Hs.
  - by injection He as <- _.
  - done.
Qed.

Lemma tame_run {R : Type} (p : prog R) (s : db) :
  tame p -> well_keyed s -> well_keyed (run p s).1.
Proof.
  revert s. induction p as [r| |A o k IH]; intros s Hp Hs; [done|done|].
  destruct Hp as [Ho Hk]. simpl.
  destruct (exec o s) as [[s' a]|] eqn:He; [|done].
  apply IH; [done|]. by apply (exec_keeps_keys o s s' a).
Qed.

End Keys.

Section Part0Keys.
Context (verifyIdToken : string -> option string).

Lemma verifyFBToken_tame (a : option string) (next : string -> prog reply) :
  (forall e, tame (next e)) -> tame (Part0.verifyFBToken verifyIdToken a next).
Proof.
  intros H. unfold Part0.verifyFBToken. destruct a as [h|]; [|done].
  by destruct (Js.bearer_token h ≫= verifyIdToken).
Qed.

Lemma guards_tame (e : string) (next : prog reply) :
  tame next ->
  tame (Part0.verifyAdmin e next) /\ tame (Part0.verifyVolunteer e next)
  /\ tame (Part0.verifyDonor e next).
Proof.
  intros H. repeat split; try done; intros [u|]; simpl; try done;
    repeat (destruct (strict_ne _ _) || destruct (strict_eq _ _)); done.
Qed.

Ltac tame_handler :=
  repeat first
    [ done
    | apply verifyFBToken_tame; intros ?
    | apply guards_tame
    | progress simpl
    | split
    | intros ?
    | case_match
    | by simplify_map_eq ].

Lemma post_users_well_keyed (body : doc) (now : Z) (s : db) :
  well_keyed s -> well_keyed (run (Part0.post_users body now) s).1.
Proof.
  intros Hs.
  change (Part0.post_users body now) with (post_users part_000 body now).
  rewrite post_users_run by done. unfold user_exists.
  destruct (findOne _ (users s)) eqn:Hfind; [done|].
  destruct (insertOne _ (users s)) as [[l id]|] eqn:Hins; [|done].
  simpl. apply well_keyed_put_users; [done| |].
  - rewrite emails_column, (insertOne_keeps_column _ _ _ _ "email" Hins) by done.
    rewrite map_app, <- emails_column. simpl.
    apply NoDup_app. split; [apply Hs|]. split; [|apply NoDup_singleton].
    intros e He Hin. apply list_elem_of_singleton in Hin. subst e.
    apply findOne_email_None in Hfind. apply Hfind.
    destruct (new_user_fields body now) as (_ & _ & _ & Hem).
    unfold prop. by rewrite <- Hem.
  - apply (insertOne_keeps_ids _ _ _ _ Hins), Hs.
Qed.

Lemma get_success_payment_well_keyed (sess : session) (now : Z) (s : db) :
  well_keyed s -> well_keyed (run (Part0.get_success_payment sess now) s).1.
Proof.
  intros [H1 H2 H3 H4].
  destruct (get_success_payment_run part_000 sess now s) as (Hu & Hr & Hp).
  simpl in Hu, Hr, Hp. split; rewrite ?Hu, ?Hr; try done.
  intros txid. destruct (paid sess && _) eqn:Hc; [|by rewrite Hp].
  destruct Hp as (p & -> & Htx & _).
  apply andb_true_iff in Hc as [_ Hfresh]. apply negb_true_iff in Hfresh.
  rewrite count_tx_app. unfold count_tx at 2. simpl.
  case_bool_decide as Heq; simpl; [|specialize (H4 txid); lia].
  rewrite Htx in Heq. subst txid. rewrite (count_tx_unrecorded _ _ Hfresh). lia.
Qed.

Lemma serve_well_keyed (c : Part0.call) (s : db) :
  well_keyed s -> well_keyed (run (Part0.serve verifyIdToken c) s).1.
Proof.
  intros Hs.
  destruct c;
    try (by apply post_users_well_keyed);
    try (by apply get_success_payment_well_keyed);
    (apply tame_run; [|done]);
    unfold Part0.serve, Part0.route_get_users, Part0.route_patch_update_user_status,
      Part0.route_patch_users_make_volunteer_id, Part0.route_patch_profile,
      Part0.route_post_requests, Part0.route_get_my_requests,
      Part0.route_patch_donation_requests_id, Part0.route_patch_requests_status_id,
      Part0.route_patch_admin_requests_status_id,
      Part0.route_patch_volunteer_requests_status_id,
      Part0.patch_users_make_volunteer_id, Part0.get_donation_requests_id,
      Part0.patch_donation_requests_id, Part0.patch_requests_status_id,
      Part0.patch_admin_requests_status_id, Part0.delete_requests_id,
      Part0.delete_admin_requests_id;
    tame_handler.
Qed.

(** In [part_000], with calls served one at a time: whatever the calls,
    their callers and their bodies, a store whose user e-mails are
    pairwise distinct, whose [_id]s are distinct within each collection
    and whose ledger has at most one entry per transaction id keeps all
    three properties. *)
Theorem part0_keeps_store_well_keyed (calls : list Part0.call) (s : db) :
  well_keyed s -> well_keyed (Part0.serve_all verifyIdToken calls s).
Proof.
  revert s. induction calls as [|c calls IH]; intros s Hs; [done|].
  simpl. apply IH. by apply serve_well_keyed.
Qed.

End Part0Keys.

Lemma part0_keeps_store_well_keyed_witness :
  let calls := [ Part0.POST_users {[ "email" := VStr "x@x" ]} 1;
                 Part0.POST_users {[ "email" := VStr "x@x" ]} 2;
                 Part0.POST_requests (Some "Bearer tok-x") {[ "district" := VStr "Dhaka" ]} 3;
                 Part0.PATCH_profile (Some "Bearer tok-x")
                   {[ "email" := VStr "y@x"; "_id" := VOid 7 ]} ] in
  well_keyed empty_db /\ well_keyed (Part0.serve_all idp calls empty_db).
Proof.
  intros calls.
  assert (H : well_keyed empty_db).
  { split; simpl; try apply NoDup_nil_2. intros txid. unfold count_tx. simpl. lia. }
  split; [exact H|].
  exact (part0_keeps_store_well_keyed idp calls empty_db H).
Defined.

(** ** More facts about the store operations *)

Section StoreFacts.
Implicit Types (q : query) (d u r : doc) (l : list doc) (k : string).

Lemma deleteOne_None q l : findOne q l = None -> deleteOne q l = (l, 0).
Proof.
  unfold findOne. induction l as [|x l IH]; simpl; [done|].
  destruct (matches q x); [discriminate|]. intros H. by rewrite (IH H).
Qed.

Lemma deleteOne_Some q l r :
  findOne q l = Some r ->
  exists l1 l2, l = l1 ++ r :: l2 /\ Forall (fun x => matches q x = false) l1
                /\ deleteOne q l = (l1 ++ l2, 1).
Proof.
  unfold findOne. induction l as [|x l IH]; simpl; [done|].
  destruct (matches q x) eqn:Hx.
  - intros [= ->]. exists [], l. by rewrite Forall_nil.
  - intros H. destruct (IH H) as (l1 & l2 & -> & Hl1 & ->).
    exists (x :: l1), l2. by rewrite Forall_cons.
Qed.

Lemma owner_filter_spec (oid : N) (email : string) d :
  matches (owner_filter oid email) d = true
  <-> prop d "_id" = VOid oid /\ prop d "requesterEmail" = VStr email.
Proof.
  unfold owner_filter. rewrite matches_spec. split.
  - intros H. split; apply H; by simplify_map_eq.
  - intros (H1 & H2) k v Hk.
    destruct (decide (k = "_id")) as [->|]; [by simplify_map_eq|].
    destruct (decide (k = "requesterEmail")) as [->|]; by simplify_map_eq.
Qed.

Lemma prop_oid_lookup d k (n : N) : prop d k = VOid n <-> d !! k = Some (VOid n).
Proof. unfold prop. destruct (d !! k); simpl; split; congruence. Qed.

Lemma prop_str_lookup d k (x : string) : prop d k = VStr x <-> d !! k = Some (VStr x).
Proof. unfold prop. destruct (d !! k); simpl; split; congruence. Qed.

(** With distinct [_id]s, the document found by id is the only one with
    that id. *)
Lemma unique_id_split (oid : N) l1 l2 r :
  NoDup (column "_id" (l1 ++ r :: l2)) -> prop r "_id" = VOid oid ->
  forall d, d ∈ l1 ++ l2 -> prop d "_id" <> VOid oid.
Proof.
  unfold column. rewrite map_app. simpl. intros Hnd Hr d Hd Hdo.
  apply prop_oid_lookup in Hr, Hdo.
  apply NoDup_app in Hnd as (_ & Hdis & Hnd2). apply NoDup_cons in Hnd2 as [Hnr _].
  apply elem_of_app in Hd as [Hd|Hd].
  - apply (Hdis (d !! "_id")); [by apply list_elem_of_fmap_2|].
    rewrite Hdo, <- Hr. by left.
  - apply Hnr. rewrite Hr, <- Hdo. by apply list_elem_of_fmap_2.
Qed.

Lemma findOne_id_absent (oid : N) l :
  (forall d, d ∈ l -> prop d "_id" <> VOid oid) -> findOne {[ "_id" := VOid oid ]} l = None.
Proof.
  intros H. apply findOne_None. intros d Hd. rewrite matches_singleton.
  apply bool_decide_eq_false. by apply H.
Qed.

(** What an accepted insert stores and answers. *)
Lemma insertOne_spec d l l' id :
  insertOne d l = Some (l', id) ->
  exists d', l' = l ++ [d'] /\ d' !! "_id" = Some id
             /\ (forall k, k <> "_id" -> d' !! k = d !! k)
             /\ (forall x, x ∈ l -> x !! "_id" <> Some id)
             /\ (d !! "_id" = None -> exists n, id = VOid n).
Proof.
  intros H. destruct (insertOne_cases _ _ _ _ H) as [(_ & -> & ->)|(Hi & _ & Hex & ->)].
  - eexists. repeat split.
    + apply lookup_insert_eq.
    + intros k Hk. by rewrite lookup_insert_ne.
    + intros x Hx. by apply fresh_oid_unused.
    + eauto.
  - exists d. repeat split; try done.
    + intros x Hx Heq.
      assert (existsb (fun x => bool_decide (x !! "_id" = Some id)) l = true); [|congruence].
      apply existsb_exists. exists x. split; [by apply list_elem_of_In|].
      by apply bool_decide_eq_true.
    + intros Hn. congruence.
Qed.

Lemma insertOne_without_id d l :
  d !! "_id" = None -> exists l' n, insertOne d l = Some (l', VOid n).
Proof. intros H. unfold insertOne. rewrite H. eauto. Qed.

Lemma countDocuments_snoc q l d :
  countDocuments q (l ++ [d]) = countDocuments q l + (if matches q d then 1 else 0).
Proof.
  unfold countDocuments. rewrite List.filter_app, length_app. simpl.
  by destruct (matches q d).
Qed.

Lemma filter_matches_empty l : List.filter (matches ∅) l = l.
Proof.
  induction l as [|d l IH]; simpl; [done|]. by rewrite matches_empty, IH.
Qed.

End StoreFacts.

(** ** Creating and reading requests *)

Lemma insert_request_run (data : doc) (s : db) :
  run (Await (InsertOne requestCollection data) (fun result => Ret (Send 200 (Inserted result)))) s
  = match insertOne data (requests s) with
    | Some (l, id) => (with_requests l s, Some (Send 200 (Inserted id)))
    | None => (s, None)
    end.
Proof. simpl. by destruct (insertOne data (requests s)) as [[l id]|]. Qed.

(** In [part_000] and in the second program of [index.js], whatever the
    body says about them, a created request is stored last with the
    caller (trimmed in [index.js]) as requester, status [pending] and the
    current time as creation time; every other field is the body's.
    Nothing else changes.  The insert is refused, and nothing changes at
    all, only when the body carries an [_id]. *)
Theorem created_request_is_pending_and_owned (email : string) (body : doc) (now : Z)
  (s : db) :
  let created (owner : string) (res : db * option reply) :=
    users res.1 = users s /\ payments res.1 = payments s
    /\ ((res = (s, None) /\ is_Some (body !! "_id"))
        \/ exists d id,
             requests res.1 = requests s ++ [d] /\ res.2 = Some (Send 200 (Inserted id))
             /\ d !! "_id" = Some id
             /\ prop d "requesterEmail" = VStr owner
             /\ prop d "status" = VStr "pending"
             /\ prop d "createdAt" = VDate now
             /\ forall k, k ∉ request_stamp -> d !! k = body !! k) in
  created email (run (Part0.post_requests email body now) s)
  /\ created (Js.trim email) (run (IndexB.post_requests email body now) s).
Proof.
  assert (Hgen : forall (owner : string) (data : doc),
    data !! "requesterEmail" = Some (VStr owner) ->
    data !! "status" = Some (VStr "pending") ->
    data !! "createdAt" = Some (VDate now) ->
    (forall k, k ∉ request_stamp -> data !! k = body !! k) ->
    data !! "_id" = body !! "_id" ->
    let res := run (Await (InsertOne requestCollection data)
                      (fun result => Ret (Send 200 (Inserted result)))) s in
    users res.1 = users s /\ payments res.1 = payments s
    /\ ((res = (s, None) /\ is_Some (body !! "_id"))
        \/ exists d id,
             requests res.1 = requests s ++ [d] /\ res.2 = Some (Send 200 (Inserted id))
             /\ d !! "_id" = Some id
             /\ prop d "requesterEmail" = VStr owner
             /\ prop d "status" = VStr "pending"
             /\ prop d "createdAt" = VDate now
             /\ forall k, k ∉ request_stamp -> d !! k = body !! k)).
  { intros owner data H1 H2 H3 H4 H5 res. unfold res. rewrite insert_request_run.
    destruct (insertOne data (requests s)) as [[l id]|] eqn:Hins.
    - destruct (insertOne_spec _ _ _ _ Hins) as (d & -> & Hid & Hd & _).
      simpl. repeat split. right. exists d, id. unfold prop.
      rewrite (Hd "requesterEmail"), (Hd "status"), (Hd "createdAt"), H1, H2, H3 by done.
      repeat split; try done.
      intros k Hk. rewrite Hd; [by apply H4|].
      intros ->. apply Hk. unfold request_stamp. set_solver.
    - repeat split. left. split; [done|]. rewrite <- H5.
      destruct (data !! "_id") eqn:Hd; [done|].
      destruct (insertOne_without_id data (requests s) Hd) as (? & ? & ?). congruence. }
  split; apply Hgen; try (by simplify_map_eq);
    intros k Hk; unfold request_stamp in Hk;
    rewrite !lookup_insert_ne; try done; intros <-; apply Hk; set_solver.
Qed.

(** In [part_000] a request created from a body without [_id] is always
    accepted, is answered with a fresh [ObjectId], and can be fetched
    under that id straight away: it is then pending and owned by its
    creator. *)
Theorem created_request_can_be_fetched (email : string) (body : doc) (now : Z) (s : db) :
  body !! "_id" = None ->
  exists n d s',
    run (Part0.post_requests email body now) s = (s', Some (Send 200 (Inserted (VOid n))))
    /\ prop d "requesterEmail" = VStr email /\ prop d "status" = VStr "pending"
    /\ forall id, Js.ObjectId id = Some n ->
         run (Part0.get_donation_requests_id id) s' = (s', Some (Send 200 (Document d))).
Proof.
  intros Hb. unfold Part0.post_requests. simpl.
  match goal with |- context [insertOne ?data _] =>
    assert (Hd : data !! "_id" = None) by (by simplify_map_eq);
    destruct (insertOne_without_id data (requests s) Hd) as (l & n & Hins) end.
  rewrite Hins. simpl.
  destruct (insertOne_spec _ _ _ _ Hins) as (d & -> & Hid & Hk & Hfresh & _).
  exists n, d. eexists. split; [reflexivity|].
  unfold prop. rewrite !Hk by done. split; [by simplify_map_eq|]. split; [by simplify_map_eq|].
  intros id Hoid. unfold Part0.get_donation_requests_id. rewrite Hoid. simpl.
  rewrite findOne_app_skip.
  - unfold findOne. simpl. rewrite matches_singleton, bool_decide_eq_true_2; [done|].
    by apply prop_oid_lookup.
  - apply Forall_forall. intros x Hx. rewrite matches_singleton.
    apply bool_decide_eq_false. rewrite prop_oid_lookup. by apply Hfresh.
Qed.

Lemma created_request_can_be_fetched_witness :
  let body : doc := {[ "district" := VStr "Dhaka"; "status" := VStr "done" ]} in
  body !! "_id" = None
  /\ exists n d s',
       run (Part0.post_requests "x@x" body 9) store0
       = (s', Some (Send 200 (Inserted (VOid n))))
       /\ prop d "requesterEmail" = VStr "x@x" /\ prop d "status" = VStr "pending"
       /\ forall id, Js.ObjectId id = Some n ->
            run (Part0.get_donation_requests_id id) s' = (s', Some (Send 200 (Document d))).
Proof.
  intros body.
  assert (H : body !! "_id" = None) by reflexivity.
  split; [exact H|].
  exact (created_request_can_be_fetched "x@x" body 9 store0 H).
Defined.

Lemma my_requests_total_after_insert (q : query) (cur : cursor) (s : db) (d : doc)
  (l : list doc) (t : nat) :
  run (Await (Find requestCollection q cur) (fun requests =>
         Await (CountDocuments requestCollection q) (fun total =>
           Ret (Send 200 (Page requests total))))) s
  = (s, Some (Send 200 (Page l t))) ->
  exists l',
    run (Await (Find requestCollection q cur) (fun requests =>
           Await (CountDocuments requestCollection q) (fun total =>
             Ret (Send 200 (Page requests total)))))
        (with_requests (requests s ++ [d]) s)
    = (with_requests (requests s ++ [d]) s,
       Some (Send 200 (Page l' (t + if matches q d then 1 else 0)))).
Proof.
  simpl. unfold find. destruct (skip cur <? 0)%Z; simpl; [discriminate|].
  intros [= _ <-]. eexists. by rewrite countDocuments_snoc.
Qed.

(** In [part_000], once a request is created, [GET /my-requests] reports
    one more request to its creator and the same number as before to
    everybody else, whatever page is asked for. *)
Theorem part0_created_request_is_counted (email other : string) (body : doc) (now : Z)
  (query_page query_size : option Z) (s s' : db) (b : Async.body) (l : list doc) (t : nat) :
  run (Part0.post_requests email body now) s = (s', Some (Send 200 b)) ->
  run (Part0.get_my_requests other query_page query_size) s
  = (s, Some (Send 200 (Page l t))) ->
  exists l',
    run (Part0.get_my_requests other query_page query_size) s'
    = (s', Some (Send 200 (Page l' (t + if bool_decide (other = email) then 1 else 0)))).
Proof.
  unfold Part0.post_requests. rewrite insert_request_run.
  destruct (insertOne _ (requests s)) as [[l0 id]|] eqn:Hins; [|discriminate].
  destruct (insertOne_spec _ _ _ _ Hins) as (d & -> & _ & Hd & _).
  intros [= <- _] Hget.
  destruct (my_requests_total_after_insert _ _ s d l t Hget) as (l' & Hl').
  exists l'. unfold Part0.get_my_requests. rewrite Hl'. do 4 f_equal.
  rewrite matches_singleton. unfold prop. rewrite Hd by done.
  rewrite lookup_insert_ne, lookup_insert_ne, lookup_insert_eq by done. simpl.
  repeat case_bool_decide; congruence.
Qed.

Lemma part0_created_request_is_counted_witness :
  let body : doc := {[ "district" := VStr "Dhaka" ]} in
  exists l',
    run (Part0.get_my_requests "x@x" None None)
        (run (Part0.post_requests "x@x" body 9) store0).1
    = ((run (Part0.post_requests "x@x" body 9) store0).1,
       Some (Send 200 (Page l' (0 + if bool_decide ("x@x" = "x@x") then 1 else 0)))).
Proof.
  intros body.
  exact (part0_created_request_is_counted "x@x" "x@x" body 9 None None store0
           (run (Part0.post_requests "x@x" body 9) store0).1
           (Inserted (VOid 11)) [] 0 eq_refl eq_refl).
Defined.

(** In the first program of [index.js] the requester of a created
    request is whatever the body names: [GET /my-requests] reports one
    more request to the caller named in the body's [requesterEmail], and
    to nobody when the body has none; the creating caller is not
    consulted. *)
Theorem indexA_created_request_is_counted_for_body_requester (other : string)
  (body : doc) (now : Z) (query_size query_page : option Z) (s s' : db) (b : Async.body)
  (l : list doc) (t : nat) :
  run (IndexA.post_requests body now) s = (s', Some (Send 200 b)) ->
  run (IndexA.get_my_requests other query_size query_page) s
  = (s, Some (Send 200 (Page l t))) ->
  exists l',
    run (IndexA.get_my_requests other query_size query_page) s'
    = (s', Some (Send 200
         (Page l' (t + if bool_decide (prop body "requesterEmail" = VStr other)
                       then 1 else 0)))).
Proof.
  unfold IndexA.post_requests. rewrite insert_request_run.
  destruct (insertOne _ (requests s)) as [[l0 id]|] eqn:Hins; [|discriminate].
  destruct (insertOne_spec _ _ _ _ Hins) as (d & -> & _ & Hd & _).
  intros [= <- _] Hget.
  destruct (my_requests_total_after_insert _ _ s d l t Hget) as (l' & Hl').
  exists l'. unfold IndexA.get_my_requests. rewrite Hl'. do 4 f_equal.
  rewrite matches_singleton. unfold prop. rewrite Hd by done.
  by rewrite lookup_insert_ne, lookup_insert_ne by done.
Qed.

Lemma indexA_created_request_is_counted_for_body_requester_witness :
  let body : doc := {[ "requesterEmail" := VStr "y@x" ]} in
  exists l',
    run (IndexA.get_my_requests "y@x" None None)
        (run (IndexA.post_requests body 9) store0).1
    = ((run (IndexA.post_requests body 9) store0).1,
       Some (Send 200 (Page l' (0 + if bool_decide (prop body "requesterEmail" = VStr "y@x")
                                     then 1 else 0)))).
Proof.
  intros body.
  exact (indexA_created_request_is_counted_for_body_requester "y@x" body 9 None None store0
           (run (IndexA.post_requests body 9) store0).1
           (Inserted (VOid 11)) [] 0 eq_refl eq_refl).
Defined.

(** ** The public list of pending requests *)

Lemma get_donation_requests_run (s : db) :
  run Part0.get_donation_requests s
  = (s, Some (Send 200 (Documents (sort_desc (pending (requests s))))))
  /\ run IndexA.get_donation_requests s = run Part0.get_donation_requests s
  /\ run IndexB.get_donation_requests s = run Part0.get_donation_requests s.
Proof.
  split; [|done]. simpl. unfold find, Mongo.window. simpl. by rewrite drop_0.
Qed.

(** In the three programs alike, [GET /donation-requests] answers the
    requests whose status is [pending] and no others, each as often as it
    is stored, newest first, and writes nothing. *)
Theorem public_list_is_the_pending_requests (s : db) :
  exists l,
    run Part0.get_donation_requests s = (s, Some (Send 200 (Documents l)))
    /\ run IndexA.get_donation_requests s = (s, Some (Send 200 (Documents l)))
    /\ run IndexB.get_donation_requests s = (s, Some (Send 200 (Documents l)))
    /\ Sorted newer_first l
    /\ Permutation l (pending (requests s))
    /\ forall d, d ∈ l <-> d ∈ requests s /\ prop d "status" = VStr "pending".
Proof.
  destruct (get_donation_requests_run s) as (H1 & H2 & H3).
  exists (sort_desc (pending (requests s))).
  rewrite H2, H3, H1.
  split; [done|]. split; [done|]. split; [done|].
  split; [apply sort_desc_sorted|]. split; [apply sort_desc_perm|].
  intros d. rewrite sort_desc_perm. unfold pending.
  rewrite list_elem_of_In, filter_In, matches_singleton, bool_decide_eq_true,
    <- list_elem_of_In. tauto.
Qed.

(** In [part_000], when request [_id]s are distinct, a request that has
    been claimed is no longer on the public list, and the other pending
    requests still are. *)
Theorem claimed_request_leaves_public_list (email id : string) (body : doc) (now : Z)
  (oid : N) (s s' : db) (b : Async.body) (l' : list doc) :
  NoDup (column "_id" (requests s)) ->
  Js.ObjectId id = Some oid ->
  run (Part0.patch_donation_requests_id email id body now) s = (s', Some (Send 200 b)) ->
  run Part0.get_donation_requests s' = (s', Some (Send 200 (Documents l'))) ->
  (forall d, d ∈ l' -> prop d "_id" <> VOid oid)
  /\ (forall d, d ∈ requests s -> prop d "status" = VStr "pending" ->
        prop d "_id" <> VOid oid -> d ∈ l').
Proof.
  intros Hnd Hid Hclaim Hlist.
  destruct (part0_claim_success _ _ _ _ _ _ _ _ Hid Hclaim)
    as (r & l1 & l2 & Hr & Hst & Hs & Hs' & _ & _ & _).
  destruct (get_donation_requests_run s') as (Hrun & _). rewrite Hrun in Hlist.
  injection Hlist as <-.
  assert (Hmem : forall d, d ∈ sort_desc (pending (requests s')) <->
                   d ∈ requests s' /\ prop d "status" = VStr "pending").
  { intros d. rewrite sort_desc_perm. unfold pending.
    rewrite list_elem_of_In, filter_In, matches_singleton, bool_decide_eq_true,
      <- list_elem_of_In. tauto. }
  destruct (findOne_Some _ _ _ Hr) as [_ Hm].
  rewrite matches_singleton in Hm. apply bool_decide_eq_true in Hm.
  rewrite Hs in Hnd.
  pose proof (unique_id_split oid l1 l2 r Hnd Hm) as Huniq.
  destruct (claim_fields_written (VStr email) (prop body "donorName") now r) as [Hnew _].
  split.
  - intros d Hd. apply Hmem in Hd as [Hin Hp]. rewrite Hs' in Hin.
    apply elem_of_app in Hin as [Hin|Hin]; [apply Huniq, elem_of_app; by left|].
    apply elem_of_cons in Hin as [->|Hin]; [congruence|].
    apply Huniq, elem_of_app. by right.
  - intros d Hd Hp Hne. apply Hmem. split; [|done]. rewrite Hs', Hs in *.
    apply elem_of_app in Hd as [Hd|Hd]; [apply elem_of_app; by left|].
    apply elem_of_cons in Hd as [->|Hd]; [congruence|].
    apply elem_of_app. right. by right.
Qed.

Lemma claimed_request_leaves_public_list_witness :
  NoDup (column "_id" (requests store0))
  /\ Js.ObjectId id0 = Some 10%N
  /\ (forall d, d ∈ @nil doc -> prop d "_id" <> VOid 10).
Proof.
  assert (Hnd : NoDup (column "_id" (requests store0))).
  { apply (bool_decide_unpack _). vm_compute. exact I. }
  split; [exact Hnd|]. split; [reflexivity|].
  exact (proj1 (claimed_request_leaves_public_list "x@x" id0 ∅ 5 10 store0
           (run (Part0.patch_donation_requests_id "x@x" id0 ∅ 5) store0).1
           (Updated {| matchedCount := 1; modifiedCount := 1 |}) []
           Hnd eq_refl eq_refl eq_refl)).
Defined.

(** ** Fetching one request *)

(** [GET /donation-requests/:id] never writes.  For a well-formed id it
    answers the stored request, or 404 when there is none.  For an id
    that is not an [ObjectId], the two programs of [index.js] answer 400,
    while [part_000] has no such check: there the handler throws before
    any collection is reached. *)
Theorem fetch_by_id_replies (id : string) (s : db) :
  match Js.ObjectId id with
  | Some oid =>
      match request_by_id oid s with
      | Some d =>
          run (Part0.get_donation_requests_id id) s = (s, Some (Send 200 (Document d)))
          /\ run (IndexA.get_donation_requests_id id) s = (s, Some (Send 200 (Document d)))
          /\ run (IndexB.get_donation_requests_id id) s = (s, Some (Send 200 (Document d)))
      | None =>
          run (Part0.get_donation_requests_id id) s = (s, Some (Send 404 (Message "Not found")))
          /\ run (IndexA.get_donation_requests_id id) s
             = (s, Some (Send 404 (Message "Request not found")))
          /\ run (IndexB.get_donation_requests_id id) s
             = (s, Some (Send 404 (Message "Not found")))
      end
  | None =>
      run (Part0.get_donation_requests_id id) s = (s, None)
      /\ run (IndexA.get_donation_requests_id id) s
         = (s, Some (Send 400 (Message "Invalid request ID")))
      /\ run (IndexB.get_donation_requests_id id) s
         = (s, Some (Send 400 (Message "Invalid ID")))
  end.
Proof.
  unfold Part0.get_donation_requests_id, IndexA.get_donation_requests_id,
    IndexB.get_donation_requests_id, Js.ObjectId_isValid, request_by_id.
  destruct (Js.ObjectId id) as [oid|]; simpl; [|done].
  by destruct (findOne _ (requests s)).
Qed.

(** ** Deleting requests *)

Lemma delete_run (q : query) (s : db) :
  run (Await (DeleteOne requestCollection q) (fun result => Ret (Send 200 (Deleted result)))) s
  = (with_requests (deleteOne q (requests s)).1 s,
     Some (Send 200 (Deleted (deleteOne q (requests s)).2))).
Proof. simpl. by destruct (deleteOne q (requests s)). Qed.

(** The owner-scoped delete of [part_000] and of the second program of
    [index.js] (which trims the caller): when no stored request has both
    the given id and the caller as requester, nothing is deleted and the
    store is unchanged, so a caller cannot delete somebody else's
    request; otherwise exactly the first such request is removed,
    whatever its status. *)
Theorem owner_delete_is_scoped (email id : string) (oid : N) (s : db) :
  Js.ObjectId id = Some oid ->
  let scoped (owner : string) (res : db * option reply) :=
    match findOne (owner_filter oid owner) (requests s) with
    | None => res = (s, Some (Send 200 (Deleted 0)))
    | Some r =>
        exists l1 l2, requests s = l1 ++ r :: l2
                      /\ res = (with_requests (l1 ++ l2) s, Some (Send 200 (Deleted 1)))
    end in
  (forall owner,
     findOne (owner_filter oid owner) (requests s) = None <->
     forall d, d ∈ requests s ->
       ~ (prop d "_id" = VOid oid /\ prop d "requesterEmail" = VStr owner))
  /\ scoped email (run (Part0.delete_requests_id email id) s)
  /\ scoped (Js.trim email) (run (IndexB.delete_requests_id email id) s).
Proof.
  intros Hid scoped. split.
  { intros owner. rewrite findOne_None. split; intros H d Hd.
    - rewrite <- owner_filter_spec. rewrite (H d Hd). done.
    - apply not_true_is_false. rewrite owner_filter_spec. by apply H. }
  assert (Hgen : forall owner, scoped owner
    (run (Await (DeleteOne requestCollection (owner_filter oid owner))
            (fun result => Ret (Send 200 (Deleted result)))) s)).
  { intros owner. unfold scoped. rewrite delete_run.
    destruct (findOne _ (requests s)) as [r|] eqn:Hr.
    - destruct (deleteOne_Some _ _ _ Hr) as (l1 & l2 & Hs & _ & ->). by exists l1, l2.
    - rewrite deleteOne_None by done. simpl. by rewrite with_requests_same. }
  unfold Part0.delete_requests_id, IndexB.delete_requests_id. rewrite Hid.
  split; apply Hgen.
Qed.

Lemma owner_delete_is_scoped_witness :
  Js.ObjectId id0 = Some 10%N
  /\ run (Part0.delete_requests_id "x@x" id0) store0 = (store0, Some (Send 200 (Deleted 0))).
Proof.
  split; [reflexivity|].
  exact (proj1 (proj2 (owner_delete_is_scoped "x@x" id0 10 store0 eq_refl))).
Defined.

(** In [part_000], when request [_id]s are distinct, a request deleted by
    an admin or by its owner is gone: fetching it afterwards answers
    404. *)
Theorem deleted_request_is_not_found (email id : string) (oid : N) (s : db) :
  NoDup (column "_id" (requests s)) ->
  Js.ObjectId id = Some oid ->
  (forall s', run (Part0.delete_admin_requests_id id) s = (s', Some (Send 200 (Deleted 1))) ->
     run (Part0.get_donation_requests_id id) s' = (s', Some (Send 404 (Message "Not found"))))
  /\ (forall s', run (Part0.delete_requests_id email id) s
                 = (s', Some (Send 200 (Deleted 1))) ->
        run (Part0.get_donation_requests_id id) s'
        = (s', Some (Send 404 (Message "Not found")))).
Proof.
  intros Hnd Hid.
  assert (Hgen : forall q s',
    (forall d, matches q d = true -> prop d "_id" = VOid oid) ->
    run (Await (DeleteOne requestCollection q)
           (fun result => Ret (Send 200 (Deleted result)))) s
    = (s', Some (Send 200 (Deleted 1))) ->
    run (Part0.get_donation_requests_id id) s' = (s', Some (Send 404 (Message "Not found")))).
  { intros q s' Hq. rewrite delete_run.
    destruct (findOne q (requests s)) as [r|] eqn:Hr.
    2: { rewrite deleteOne_None by done. discriminate. }
    destruct (deleteOne_Some _ _ _ Hr) as (l1 & l2 & Hs & _ & ->). simpl.
    intros [= <-]. unfold Part0.get_donation_requests_id. rewrite Hid. simpl.
    rewrite findOne_id_absent; [done|].
    rewrite Hs in Hnd. apply (unique_id_split oid l1 l2 r Hnd).
    apply Hq. by destruct (findOne_Some _ _ _ Hr). }
  unfold Part0.delete_admin_requests_id, Part0.delete_requests_id. rewrite Hid.
  split; intros s'; apply Hgen; intros d Hd.
  - rewrite matches_singleton in Hd. by apply bool_decide_eq_true in Hd.
  - by apply owner_filter_spec in Hd as [? _].
Qed.

Lemma deleted_request_is_not_found_witness :
  NoDup (column "_id" (requests store0))
  /\ Js.ObjectId id0 = Some 10%N
  /\ run (Part0.get_donation_requests_id id0)
         (run (Part0.delete_admin_requests_id id0) store0).1
     = ((run (Part0.delete_admin_requests_id id0) store0).1,
        Some (Send 404 (Message "Not found"))).
Proof.
  assert (Hnd : NoDup (column "_id" (requests store0))).
  { apply (bool_decide_unpack _). vm_compute. exact I. }
  split; [exact Hnd|]. split; [reflexivity|].
  exact (proj1 (deleted_request_is_not_found "x@x" id0 10 store0 Hnd eq_refl)
           (run (Part0.delete_admin_requests_id id0) store0).1 eq_refl).
Defined.

(** ** Status updates *)

Lemma update_run (c : collection) (q : query) (u : doc) (s : db) :
  run (Await (UpdateOne c q u) (fun result => Ret (Send 200 (Updated result)))) s
  = (put c (updateOne q u (get c s)).1 s, Some (Send 200 (Updated (updateOne q u (get c s)).2))).
Proof. simpl. by destruct (updateOne q u (get c s)). Qed.

(** The admin and volunteer status routes of [part_000] share one
    handler: it puts whatever the body gives as [status] (nothing at all
    included) on the request with the given id, from whatever status it
    had, and changes no other field and no other request; when no request
    has the id it reports zero matches and changes nothing. *)
Theorem privileged_status_update_is_unconditional (id : string) (body : doc) (oid : N)
  (s : db) :
  Js.ObjectId id = Some oid ->
  match request_by_id oid s with
  | None =>
      run (Part0.patch_admin_requests_status_id id body) s
      = (s, Some (Send 200 (Updated {| matchedCount := 0; modifiedCount := 0 |})))
  | Some r =>
      exists l1 l2 m,
        requests s = l1 ++ r :: l2
        /\ run (Part0.patch_admin_requests_status_id id body) s
           = (with_requests (l1 ++ <["status" := prop body "status"]> r :: l2) s,
              Some (Send 200 (Updated {| matchedCount := 1; modifiedCount := m |})))
  end.
Proof.
  intros Hid. unfold Part0.patch_admin_requests_status_id, request_by_id. rewrite Hid.
  rewrite update_run. simpl.
  destruct (findOne _ (requests s)) as [r|] eqn:Hr.
  - destruct (updateOne_Some _ {[ "status" := prop body "status" ]} _ _ Hr)
      as (l1 & l2 & Hs & _ & ->).
    exists l1, l2. eexists. split; [done|]. simpl.
    by rewrite insert_union_singleton_l.
  - rewrite updateOne_None by done. simpl. by destruct s.
Qed.

Lemma privileged_status_update_is_unconditional_witness :
  Js.ObjectId id0 = Some 10%N
  /\ exists l1 l2 m,
       requests store0 = l1 ++ request0 :: l2
       /\ run (Part0.patch_admin_requests_status_id id0 {[ "status" := VStr "canceled" ]})
              store0
          = (with_requests (l1 ++ <["status" := VStr "canceled"]> request0 :: l2) store0,
             Some (Send 200 (Updated {| matchedCount := 1; modifiedCount := m |}))).
Proof.
  split; [reflexivity|].
  exact (privileged_status_update_is_unconditional id0 {[ "status" := VStr "canceled" ]}
           10 store0 eq_refl).
Defined.

(** The requester-driven status update of [part_000] is scoped by id and
    requester only: when no stored request has both the given id and the
    caller as requester it reports zero matches and changes nothing;
    otherwise the first such request takes the body's [status], and only
    that field of that request changes. *)
Theorem part0_owner_status_update_is_scoped (email id : string) (body : doc) (oid : N)
  (s : db) :
  Js.ObjectId id = Some oid ->
  match findOne (owner_filter oid email) (requests s) with
  | None =>
      run (Part0.patch_requests_status_id email id body) s
      = (s, Some (Send 200 (Updated {| matchedCount := 0; modifiedCount := 0 |})))
  | Some r =>
      exists l1 l2 m,
        requests s = l1 ++ r :: l2
        /\ run (Part0.patch_requests_status_id email id body) s
           = (with_requests (l1 ++ <["status" := prop body "status"]> r :: l2) s,
              Some (Send 200 (Updated {| matchedCount := 1; modifiedCount := m |})))
  end.
Proof.
  intros Hid. unfold Part0.patch_requests_status_id. rewrite Hid.
  rewrite update_run. simpl. fold (owner_filter oid email).
  destruct (findOne _ (requests s)) as [r|] eqn:Hr.
  - destruct (updateOne_Some _ {[ "status" := prop body "status" ]} _ _ Hr)
      as (l1 & l2 & Hs & _ & ->).
    exists l1, l2. eexists. split; [done|]. simpl.
    by rewrite insert_union_singleton_l.
  - rewrite updateOne_None by done. simpl. by destruct s.
Qed.

Lemma part0_owner_status_update_is_scoped_witness :
  Js.ObjectId id0 = Some 10%N
  /\ run (Part0.patch_requests_status_id "x@x" id0 {[ "status" := VStr "done" ]}) store0
     = (store0, Some (Send 200 (Updated {| matchedCount := 0; modifiedCount := 0 |}))).
Proof.
  split; [reflexivity|].
  exact (part0_owner_status_update_is_scoped "x@x" id0 {[ "status" := VStr "done" ]}
           10 store0 eq_refl).
Defined.

(** ** Users: status, role and profile *)


Lemma resolve_found (s : db) (email : string) (u : doc) :
  findOne {[ "email" := VStr email ]} (users s) = Some u ->
  resolve s email = Some (prop u "role", prop u "status").
Proof. intros H. unfold resolve. by rewrite H. Qed.

Lemma verifyFBToken_run (verifyIdToken : string -> option string)
  (authorization : option string) (email : string) (next : string -> prog reply) (s : db) :
  caller verifyIdToken authorization = Some email ->
  run (Part0.verifyFBToken verifyIdToken authorization next) s = run (next email) s.
Proof.
  unfold caller, Part0.verifyFBToken. destruct authorization as [h|]; [|done].
  by intros ->.
Qed.

(** In [part_000], once an admin has set a stored user's status to
    [blocked], that user is turned away with 403 by the donor-only and
    volunteer-only guards in front of any handler; the user's role is as
    before. *)
Theorem blocking_a_user_closes_their_routes (verifyIdToken : string -> option string)
  (authorization : option string) (admin_email target : string) (s : db)
  (next : prog reply) :
  caller verifyIdToken authorization = Some admin_email ->
  has_role s admin_email "admin" = true ->
  user_exists (VStr target) s = true ->
  let s' := (run (Part0.route_patch_update_user_status verifyIdToken authorization
                    (VStr target) (VStr "blocked")) s).1 in
  is_blocked s' target = true
  /\ (forall role, has_role s' target role = has_role s target role)
  /\ forbidden (Part0.verifyDonor target next) s'
  /\ forbidden (Part0.verifyVolunteer target next) s'.
Proof.
  intros Hc Hadmin Hex s'.
  assert (Hs' : s' = put userCollection
                  (updateOne {[ "email" := VStr target ]} {[ "status" := VStr "blocked" ]}
                     (users s)).1 s).
  { unfold s', Part0.route_patch_update_user_status.
    rewrite (verifyFBToken_run verifyIdToken authorization admin_email _ s Hc).
    pose proof (verifyAdmin_run s admin_email
                 (Part0.patch_update_user_status (VStr target) (VStr "blocked"))) as Ha.
    rewrite Hadmin in Ha. rewrite Ha. unfold Part0.patch_update_user_status.
    by rewrite update_run. }
  unfold user_exists in Hex.
  destruct (findOne _ (users s)) as [u|] eqn:Hu; [|done].
  assert (Hf : findOne {[ "email" := VStr target ]} (users s')
               = Some ({[ "status" := VStr "blocked" ]} ∪ u)).
  { rewrite Hs'. simpl. apply updateOne_found; [|done].
    intros k [x Hk]. by apply lookup_singleton_Some in Hk as [<- _]. }
  assert (Hb : is_blocked s' target = true).
  { unfold is_blocked. rewrite (resolve_found _ _ _ Hf).
    apply bool_decide_eq_true. unfold prop. by erewrite lookup_union_Some_l. }
  assert (Hr : forall role, has_role s' target role = has_role s target role).
  { intros role. unfold has_role.
    rewrite (resolve_found _ _ _ Hf), (resolve_found _ _ _ Hu).
    unfold prop. by rewrite lookup_union_r. }
  split; [done|]. split; [done|].
  pose proof (verifyDonor_run s' target next) as Hd.
  pose proof (verifyVolunteer_run s' target next) as Hv.
  rewrite Hb, andb_false_r in Hd, Hv. by split.
Qed.

Lemma blocking_a_user_closes_their_routes_witness :
  let s := {| users := [donor "x@x"; <["role" := VStr "admin"]> (donor "y@x")];
              requests := []; payments := [] |} in
  caller idp (Some "Bearer tok-y") = Some "y@x"
  /\ has_role s "y@x" "admin" = true
  /\ user_exists (VStr "x@x") s = true
  /\ forbidden (Part0.verifyDonor "x@x" (Part0.post_requests "x@x" ∅ 3))
       (run (Part0.route_patch_update_user_status idp (Some "Bearer tok-y")
               (VStr "x@x") (VStr "blocked")) s).1.
Proof.
  intros s. split; [reflexivity|]. split; [reflexivity|]. split; [reflexivity|].
  exact (proj1 (proj2 (proj2
    (blocking_a_user_closes_their_routes idp (Some "Bearer tok-y") "y@x" "x@x" s
       (Part0.post_requests "x@x" ∅ 3) eq_refl eq_refl eq_refl)))).
Defined.



(** [GET /users/role/:email] writes nothing and reports the role and
    status the guards resolve for that e-mail.  For an e-mail nobody is
    stored under, [part_000] still answers 200, with neither field, while
    the two programs of [index.js] answer 404. *)
Theorem role_lookup_reports_what_guards_resolve (email : string) (s : db) :
  match resolve s email with
  | Some (role, status) =>
      run (Part0.get_users_role_email email) s = (s, Some (Send 200 (RoleStatus role status)))
      /\ run (IndexA.get_users_role_email email) s
         = (s, Some (Send 200 (RoleStatus role status)))
      /\ run (IndexB.get_users_role_email email) s
         = (s, Some (Send 200 (RoleStatus role status)))
  | None =>
      run (Part0.get_users_role_email email) s
      = (s, Some (Send 200 (RoleStatus VNull VNull)))
      /\ run (IndexA.get_users_role_email email) s
         = (s, Some (Send 404 (Message "User not found")))
      /\ run (IndexB.get_users_role_email email) s
         = (s, Some (Send 404 (Message "Not found")))
  end.
Proof.
  unfold resolve, Part0.get_users_role_email, IndexA.get_users_role_email,
    IndexB.get_users_role_email. simpl.
  by destruct (findOne _ (users s)).
Qed.

(** A user signing up under an e-mail nobody is stored under, with a body
    without [_id], is then resolved by the guards as an active donor in
    [part_000] and in the second program of [index.js], and as an active
    admin in the first program of [index.js], whatever role and status
    the body asks for. *)
Theorem new_user_resolves_by_program (v : variant) (email : string) (body : doc) (now : Z)
  (s : db) :
  prop body "email" = VStr email ->
  body !! "_id" = None ->
  user_exists (VStr email) s = false ->
  resolve (run (post_users v body now) s).1 email
  = Some (VStr (match v with index_js_1 => "admin" | _ => "donor" end), VStr "active").
Proof.
  intros He Hid Hex. unfold user_exists in Hex.
  destruct (findOne _ (users s)) eqn:Hfind; [done|].
  assert (Hgen : forall (u : doc) l id,
    insertOne u (users s) = Some (l, id) ->
    u !! "email" = Some (VStr email) ->
    findOne {[ "email" := VStr email ]} l = Some (<["_id" := id]> u)).
  { intros u l id Hins Hu.
    destruct (insertOne_spec _ _ _ _ Hins) as (d & -> & Hdid & Hd & _).
    rewrite findOne_app_skip.
    - assert (d = <["_id" := id]> u) as <-.
      { apply map_eq. intros k. destruct (decide (k = "_id")) as [->|].
        - by rewrite lookup_insert_eq.
        - by rewrite lookup_insert_ne, Hd. }
      unfold findOne. simpl. rewrite matches_singleton, bool_decide_eq_true_2; [done|].
      apply prop_str_lookup. by rewrite Hd.
    - apply Forall_forall. intros x Hx. by apply findOne_None with (d := x) in Hfind. }
  apply prop_str_lookup in He.
  destruct v.
  - simpl. unfold IndexA.post_users. simpl.
    match goal with |- context [insertOne ?u _] =>
      assert (Hu : u !! "_id" = None) by (by simplify_map_eq);
      destruct (insertOne_without_id u (users s) Hu) as (l & n & Hins);
      rewrite Hins; unfold resolve; simpl;
      rewrite (Hgen u l _ Hins ltac:(by simplify_map_eq)) end.
    simpl. unfold prop. by simplify_map_eq.
  - rewrite post_users_run by done. unfold user_exists.
    apply prop_str_lookup in He. rewrite He, Hfind. apply prop_str_lookup in He.
    match goal with |- context [insertOne ?u _] =>
      assert (Hu : u !! "_id" = None) by (by simplify_map_eq);
      destruct (insertOne_without_id u (users s) Hu) as (l & n & Hins);
      rewrite Hins; unfold resolve; simpl;
      rewrite (Hgen u l _ Hins ltac:(by simplify_map_eq)) end.
    simpl. unfold prop. by simplify_map_eq.
  - rewrite post_users_run by done. unfold user_exists.
    apply prop_str_lookup in He. rewrite He, Hfind. apply prop_str_lookup in He.
    match goal with |- context [insertOne ?u _] =>
      assert (Hu : u !! "_id" = None) by (by simplify_map_eq);
      destruct (insertOne_without_id u (users s) Hu) as (l & n & Hins);
      rewrite Hins; unfold resolve; simpl;
      rewrite (Hgen u l _ Hins ltac:(by simplify_map_eq)) end.
    simpl. unfold prop. by simplify_map_eq.
Qed.

Lemma new_user_resolves_by_program_witness :
  let body : doc := {[ "email" := VStr "new@x"; "role" := VStr "volunteer";
                       "status" := VStr "blocked" ]} in
  prop body "email" = VStr "new@x" /\ body !! "_id" = None
  /\ user_exists (VStr "new@x") store0 = false
  /\ resolve (run (post_users part_000 body 4) store0).1 "new@x"
     = Some (VStr "donor", VStr "active").
Proof.
  intros body. split; [reflexivity|]. split; [reflexivity|]. split; [reflexivity|].
  exact (new_user_resolves_by_program part_000 "new@x" body 4 store0
           eq_refl eq_refl eq_refl).
Defined.

(** In [part_000], after a profile edit by a stored user, [GET /profile]
    answers that user's document with the same [_id] and e-mail as
    before, every other field of the body as the body gave it, and every
    field the body did not mention as it was.  A caller nobody is stored
    under gets 404 before and after. *)
Theorem profile_edit_then_read (email : string) (body : doc) (s : db) :
  let s' := (run (Part0.patch_profile email body) s).1 in
  match findOne {[ "email" := VStr email ]} (users s) with
  | Some u =>
      exists u',
        run (Part0.get_profile email) s' = (s', Some (Send 200 (Document u')))
        /\ u' !! "_id" = u !! "_id" /\ u' !! "email" = u !! "email"
        /\ forall k, k <> "_id" -> k <> "email" ->
             u' !! k = match body !! k with Some x => Some x | None => u !! k end
  | None =>
      s' = s /\ run (Part0.get_profile email) s' = (s', Some (Send 404 (Message "Not found")))
  end.
Proof.
  intros s'. unfold s', Part0.patch_profile. rewrite update_run. simpl.
  set (upd := delete "email" (delete "_id" body)).
  destruct (findOne _ (users s)) as [u|] eqn:Hu.
  - exists (upd ∪ u). unfold Part0.get_profile. simpl.
    rewrite (updateOne_found _ upd u (users s)); [|intros k [x Hk]|done].
    2: { apply lookup_singleton_Some in Hk as [<- _]. apply lookup_delete_eq. }
    split; [done|]. unfold upd.
    split; [by rewrite lookup_union_r by (by simplify_map_eq)|].
    split; [by rewrite lookup_union_r by (by simplify_map_eq)|].
    intros k H1 H2. destruct (body !! k) as [x|] eqn:Hk.
    + apply lookup_union_Some_l. by rewrite !lookup_delete_ne.
    + apply lookup_union_r. by rewrite !lookup_delete_ne.
  - rewrite updateOne_None by done. simpl.
    assert (Hs : {| users := users s; requests := requests s; payments := payments s |} = s)
      by (by destruct s).
    rewrite Hs. split; [done|]. unfold Part0.get_profile. simpl. by rewrite Hu.
Qed.

(** ** What a claim leaves alone *)

(** In each of the three programs a claim, accepted or not, writes at
    most the four fields [status], [donorName], [donorEmail] and
    [donatedAt]: every other field of every request, the requester and
    the [_id] among them, is as before, no request is added or removed,
    and users and ledger are untouched. *)
Theorem claim_writes_only_its_fields (v : variant) (email id : string) (body : doc)
  (now : Z) (k : string) (s : db) :
  k ∉ claim_keys ->
  let s' := (run (patch_donation_requests_id v email id body now) s).1 in
  column k (requests s') = column k (requests s)
  /\ users s' = users s /\ payments s' = payments s.
Proof.
  intros Hk s'.
  assert (Hgen : forall (oid : N) (u : doc) (f : UpdateResult -> reply),
    u !! k = None ->
    let s1 := (run (Await (UpdateOne requestCollection {[ "_id" := VOid oid ]} u)
                      (fun result => Ret (f result))) s).1 in
    column k (requests s1) = column k (requests s)
    /\ users s1 = users s /\ payments s1 = payments s).
  { intros oid u f Hu. simpl.
    pose proof (updateOne_keeps_column {[ "_id" := VOid oid ]} u k (requests s) Hu).
    by destruct (updateOne _ u (requests s)). }
  assert (Hkeys : k <> "status" /\ k <> "donorName" /\ k <> "donorEmail" /\ k <> "donatedAt").
  { unfold claim_keys in Hk. repeat split; intros ->; apply Hk; set_solver. }
  destruct Hkeys as (K1 & K2 & K3 & K4).
  unfold s'. destruct v; simpl;
    unfold IndexA.patch_donation_requests_id, IndexB.patch_donation_requests_id,
      Part0.patch_donation_requests_id;
    try (destruct (negb (Js.ObjectId_isValid id)); [done|]);
    (destruct (Js.ObjectId id) as [oid|]; [|done]);
    cbn [run exec get]; (destruct (findOne _ (requests s)) as [r|]; [|done]);
    (destruct (strict_ne _ _); [done|]);
    apply Hgen; by simplify_map_eq.
Qed.

Lemma claim_writes_only_its_fields_witness :
  "requesterEmail" ∉ claim_keys
  /\ column "requesterEmail"
       (requests (run (patch_donation_requests_id index_js_1 "x@x" id0
                         {[ "requesterEmail" := VStr "x@x" ]} 5) store0).1)
     = column "requesterEmail" (requests store0).
Proof.
  assert (H : "requesterEmail" ∉ claim_keys).
  { apply (bool_decide_unpack _). vm_compute. exact I. }
  split; [exact H|].
  exact (proj1 (claim_writes_only_its_fields index_js_1 "x@x" id0
                  {[ "requesterEmail" := VStr "x@x" ]} 5 "requesterEmail" store0 H)).
Defined.

(** ** Pages *)

Lemma admin_requests_run (query_page query_size : option Z) (s : db) :
  let page := Js.number_or query_page 1 in
  let size := Js.number_or query_size 10 in
  (0 <= size * (page - 1))%Z -> (size <> 0)%Z ->
  run (Part0.get_admin_requests query_page query_size) s
  = (s, Some (Send 200 (Page (take (Z.abs_nat size)
                                (drop (Z.to_nat (size * (page - 1))) (sort_desc (requests s))))
                             (length (requests s))))).
Proof.
  intros page size Hskip Hsize. unfold Part0.get_admin_requests. fold page. fold size.
  simpl. unfold find, Mongo.window, countDocuments. simpl.
  rewrite filter_matches_empty.
  replace (size * (page - 1) <? 0)%Z with false by (symmetry; by apply Z.ltb_ge).
  replace (size =? 0)%Z with false by (symmetry; by apply Z.eqb_neq).
  simpl. by rewrite filter_matches_empty.
Qed.

(** In [part_000], for a page size of at least 1, the pages of
    [GET /admin/requests] cover the collection: the request at position
    [i] of the newest-first order is on page [i / size + 1], at position
    [i mod size] of that page; the page has at most [size] entries and
    the total reported is the number of stored requests. *)
Theorem admin_pages_cover_every_request (query_size : option Z) (i : nat) (d : doc)
  (s : db) :
  let size := Js.number_or query_size 10 in
  (1 <= size)%Z ->
  sort_desc (requests s) !! i = Some d ->
  exists l,
    run (Part0.get_admin_requests (Some (Z.of_nat i / size + 1)%Z) query_size) s
    = (s, Some (Send 200 (Page l (length (requests s)))))
    /\ l !! (i mod Z.to_nat size) = Some d
    /\ length l <= Z.to_nat size.
Proof.
  intros size Hsize Hi.
  assert (Hq : (0 <= Z.of_nat i / size)%Z) by (apply Z.div_pos; lia).
  assert (Hpage : Js.number_or (Some (Z.of_nat i / size + 1)%Z) 1
                  = (Z.of_nat i / size + 1)%Z).
  { unfold Js.number_or. destruct (Z.eqb_spec (Z.of_nat i / size + 1) 0); [lia|done]. }
  eexists. split.
  - rewrite admin_requests_run; fold size; rewrite ?Hpage; [reflexivity|nia|lia].
  - set (sz := Z.to_nat size).
    assert (Hsz : sz <> 0) by (unfold sz; lia).
    assert (Hskip : Z.to_nat (size * (Z.of_nat i / size + 1 - 1)) = sz * (i / sz)).
    { replace size with (Z.of_nat sz) by (unfold sz; lia).
      rewrite <- Nat2Z.inj_div. lia. }
    rewrite Hskip. replace (Z.abs_nat size) with sz by (unfold sz; lia).
    split.
    + rewrite lookup_take_lt by (by apply Nat.mod_upper_bound).
      rewrite lookup_drop, <- Nat.div_mod_eq. exact Hi.
    + rewrite length_take. lia.
Qed.

Lemma admin_pages_cover_every_request_witness :
  let a : doc := {[ "createdAt" := VDate 1 ]} in
  let b : doc := {[ "createdAt" := VDate 2 ]} in
  let c : doc := {[ "createdAt" := VDate 3 ]} in
  let s := with_requests [a; b; c] empty_db in
  (1 <= Js.number_or (Some 2%Z) 10)%Z
  /\ sort_desc (requests s) !! 2 = Some a
  /\ exists l,
       run (Part0.get_admin_requests (Some (Z.of_nat 2 / Js.number_or (Some 2%Z) 10 + 1)%Z)
              (Some 2%Z)) s
       = (s, Some (Send 200 (Page l (length (requests s)))))
       /\ l !! (2 mod Z.to_nat (Js.number_or (Some 2%Z) 10)) = Some a
       /\ length l <= Z.to_nat (Js.number_or (Some 2%Z) 10).
Proof.
  intros a b c s.
  assert (H1 : (1 <= Js.number_or (Some 2%Z) 10)%Z) by (vm_compute; discriminate).
  split; [exact H1|]. split; [reflexivity|].
  exact (admin_pages_cover_every_request (Some 2%Z) 2 a s H1 eq_refl).
Defined.

(** The page and size parameters at their bounds, in [part_000]: a page
    that is absent, not a number or 0 is page 1, and a size that is
    absent, not a number or 0 is 10; for a positive size, a negative page
    makes the [find] reject, so that the handler throws with the store as
    it was and sends nothing itself. *)
Theorem my_requests_page_bounds (email : string) (query_page query_size : option Z)
  (s : db) :
  run (Part0.get_my_requests email (Some 0%Z) query_size) s
  = run (Part0.get_my_requests email (Some 1%Z) query_size) s
  /\ run (Part0.get_my_requests email None query_size) s
     = run (Part0.get_my_requests email (Some 1%Z) query_size) s
  /\ run (Part0.get_my_requests email query_page (Some 0%Z)) s
     = run (Part0.get_my_requests email query_page (Some 10%Z)) s
  /\ run (Part0.get_my_requests email query_page None) s
     = run (Part0.get_my_requests email query_page (Some 10%Z)) s
  /\ (forall page, query_page = Some page -> (page < 0)%Z ->
        (0 < Js.number_or query_size 10)%Z ->
        run (Part0.get_my_requests email query_page query_size) s = (s, None)).
Proof.
  repeat split.
  intros page -> Hp Hs. unfold Part0.get_my_requests.
  assert (Hpage : Js.number_or (Some page) 1 = page).
  { unfold Js.number_or. destruct (Z.eqb_spec page 0); [lia|done]. }
  rewrite Hpage. simpl. unfold find. simpl.
  replace (_ <? 0)%Z with true; [done|]. symmetry. apply Z.ltb_lt. nia.
Qed.

Lemma my_requests_page_bounds_witness :
  Some (-1)%Z = Some (-1)%Z /\ (-1 < 0)%Z /\ (0 < Js.number_or None 10)%Z
  /\ run (Part0.get_my_requests "req@x" (Some (-1)%Z) None) store0 = (store0, None).
Proof.
  assert (H1 : (-1 < 0)%Z) by reflexivity.
  assert (H2 : (0 < Js.number_or None 10)%Z) by reflexivity.
  split; [reflexivity|]. split; [exact H1|]. split; [exact H2|].
  exact (proj2 (proj2 (proj2 (proj2
    (my_requests_page_bounds "req@x" (Some (-1)%Z) None store0)))) (-1)%Z eq_refl H1 H2).
Defined.

(** [GET /volunteer/requests] of [part_000] writes nothing and answers,
    in collection order, every request when the [status] parameter is
    absent or empty, and otherwise exactly the requests whose status is
    the parameter as given. *)
Theorem volunteer_list_filters_by_status (status : option string) (s : db) :
  run (Part0.get_volunteer_requests status) s
  = (s, Some (Send 200 (Documents
       (match status with
        | None | Some EmptyString => requests s
        | Some st => List.filter (fun d => bool_decide (prop d "status" = VStr st))
                       (requests s)
        end)))).
Proof.
  unfold Part0.get_volunteer_requests. simpl. unfold find, Mongo.window. simpl.
  rewrite drop_0. do 4 f_equal.
  destruct status as [[|c st]|]; simpl; try apply filter_matches_empty.
  apply filter_ext. intros d. by rewrite insert_empty, matches_singleton.
Qed.

(** ** Routes of [index.js] without a role guard *)

(** In both programs of [index.js], [PATCH /update/user/status] asks for
    a valid token and nothing more: any authenticated caller, stored as a
    user or not, puts the given status on the user stored under the given
    e-mail, and through the first matching document only. *)
Theorem index_js_status_route_ignores_caller_role (verifyIdToken : string -> option string)
  (authorization : option string) (anyone target : string) (status : value) (u : doc)
  (s : db) :
  caller verifyIdToken authorization = Some anyone ->
  findOne {[ "email" := VStr target ]} (users s) = Some u ->
  let after (res : db * option reply) :=
    exists l1 l2 m,
      users s = l1 ++ u :: l2
      /\ res = (put userCollection (l1 ++ <["status" := status]> u :: l2) s,
                Some (Send 200 (Updated {| matchedCount := 1; modifiedCount := m |}))) in
  after (run (IndexA.route_patch_update_user_status verifyIdToken authorization
                (VStr target) status) s)
  /\ after (run (IndexB.route_patch_update_user_status verifyIdToken authorization
                   (VStr target) status) s).
Proof.
  intros Hc Hu after.
  assert (Hgen : after (run (Await (UpdateOne userCollection {[ "email" := VStr target ]}
                               {[ "status" := status ]})
                          (fun result => Ret (Send 200 (Updated result)))) s)).
  { unfold after. rewrite update_run. simpl.
    destruct (updateOne_Some _ {[ "status" := status ]} _ _ Hu) as (l1 & l2 & Hs & _ & ->).
    exists l1, l2. eexists. split; [done|]. simpl. by rewrite insert_union_singleton_l. }
  unfold IndexA.route_patch_update_user_status, IndexB.route_patch_update_user_status,
    IndexA.verifyFBToken, IndexB.verifyFBToken, caller in *.
  destruct authorization as [h|]; [|done]. rewrite Hc. by split.
Qed.

Lemma index_js_status_route_ignores_caller_role_witness :
  caller idp (Some "Bearer tok-y") = Some "y@x"
  /\ findOne {[ "email" := VStr "x@x" ]} (users store0) = Some (donor "x@x")
  /\ exists l1 l2 m,
       users store0 = l1 ++ donor "x@x" :: l2
       /\ run (IndexA.route_patch_update_user_status idp (Some "Bearer tok-y")
                 (VStr "x@x") (VStr "blocked")) store0
          = (put userCollection (l1 ++ <["status" := VStr "blocked"]> (donor "x@x") :: l2)
               store0,
             Some (Send 200 (Updated {| matchedCount := 1; modifiedCount := m |}))).
Proof.
  split; [reflexivity|]. split; [reflexivity|].
  exact (proj1 (index_js_status_route_ignores_caller_role idp (Some "Bearer tok-y")
                  "y@x" "x@x" (VStr "blocked") (donor "x@x") store0 eq_refl eq_refl)).
Defined.

(** ** The bearer token *)

Lemma append_empty_r (s : string) : String.append s EmptyString = s.
Proof.
  induction s as [|a s IH]; [done|].
  change (String a (String.append s EmptyString) = String a s). by rewrite IH.
Qed.

Lemma append_snoc (cur t : string) (c : ascii) :
  String.append (String.append cur (String c EmptyString)) t
  = String.append cur (String c t).
Proof.
  induction cur as [|a cur IH]; [done|].
  change (String a (String.append (String.append cur (String c EmptyString)) t)
          = String a (String.append cur (String c t))).
  by rewrite IH.
Qed.

Lemma split_space_no_space (t cur : string) :
  no_space t -> Js.split_space t cur = [String.append cur t].
Proof.
  revert cur. induction t as [|c t IH]; intros cur Ht; cbn [Js.split_space].
  - by rewrite append_empty_r.
  - destruct Ht as [Hc Ht]. destruct (Ascii.eqb_spec c " "); [done|].
    by rewrite IH, append_snoc.
Qed.

Lemma split_space_word (w rest cur : string) :
  no_space w ->
  Js.split_space (String.append w (String " " rest)) cur
  = String.append cur w :: Js.split_space rest EmptyString.
Proof.
  revert cur. induction w as [|c w IH]; intros cur Hw.
  - change (String.append EmptyString (String " " rest)) with (String " " rest).
    cbn [Js.split_space]. rewrite append_empty_r. by destruct (Ascii.eqb_spec " " " ").
  - change (String.append (String c w) (String " " rest))
      with (String c (String.append w (String " " rest))).
    cbn [Js.split_space].
    destruct Hw as [Hc Hw]. destruct (Ascii.eqb_spec c " "); [done|].
    by rewrite IH, append_snoc.
Qed.

(** The token is the second space-separated word of the header, and the
    first word is not looked at: for a scheme and a token without spaces,
    the header [scheme token] reaches the handler exactly when the
    identity provider accepts [token], whatever the scheme; a header
    without a space is answered 401. *)
Theorem any_scheme_word_is_accepted (verifyIdToken : string -> option string)
  (scheme token : string) :
  no_space scheme -> no_space token ->
  caller verifyIdToken (Some (String.append scheme (String " " token)))
  = verifyIdToken token
  /\ caller verifyIdToken (Some token) = None.
Proof.
  intros Hs Ht. unfold caller, Js.bearer_token. split.
  - rewrite split_space_word by done. by rewrite split_space_no_space.
  - by rewrite split_space_no_space.
Qed.

Lemma any_scheme_word_is_accepted_witness :
  no_space "Basic" /\ no_space "tok-x"
  /\ caller idp (Some "Basic tok-x") = Some "x@x".
Proof.
  assert (H1 : no_space "Basic") by (simpl; repeat split; discriminate).
  assert (H2 : no_space "tok-x") by (simpl; repeat split; discriminate).
  split; [exact H1|]. split; [exact H2|].
  exact (proj1 (any_scheme_word_is_accepted idp "Basic" "tok-x" H1 H2)).
Defined.

(** ** Instances of earlier lemmas *)

Lemma indexB_status_update_conditional_witness :
  Js.ObjectId id0 = Some 10%N
  /\ (VStr "done" = VStr "done" \/ VStr "done" = VStr "canceled")
  /\ run (IndexB.patch_requests_status_id "req@x" id0 {[ "status" := VStr "done" ]}) store0
     = (store0, Some (Send 200 (Updated {| matchedCount := 0; modifiedCount := 0 |}))).
Proof.
  assert (Hst : VStr "done" = VStr "done" \/ VStr "done" = VStr "canceled") by (by left).
  split; [reflexivity|]. split; [exact Hst|].
  refine (proj1 (proj2 (indexB_status_update_conditional "req@x" id0
                          {[ "status" := VStr "done" ]} 10 store0 eq_refl)) Hst _).
  intros d Hd (_ & _ & H3).
  apply list_elem_of_singleton in Hd. subst d. discriminate H3.
Defined.

Lemma part0_claim_twice_in_sequence_witness :
  Js.ObjectId id0 = Some 10%N
  /\ run (Part0.patch_donation_requests_id "y@x" id0 ∅ 6)
         (run (Part0.patch_donation_requests_id "x@x" id0 ∅ 5) store0).1
     = ((run (Part0.patch_donation_requests_id "x@x" id0 ∅ 5) store0).1,
        Some (Send 400 (Message "Not available"))).
Proof.
  split; [reflexivity|].
  exact (part0_claim_twice_in_sequence "x@x" "y@x" id0 ∅ ∅ 5 6 10 store0
           (run (Part0.patch_donation_requests_id "x@x" id0 ∅ 5) store0).1
           (Updated {| matchedCount := 1; modifiedCount := 1 |}) eq_refl eq_refl).
Defined.
